(** * F1 analytics pipeline: extraction, reference resolution, normalisation

    A shallow embedding of [scripts/extract_data.py], [scripts/transform_data.py],
    [scripts/load_data.py] and [scripts/run_pipeline.py], and of the connection
    string that [scripts/load_data.py] and [scripts/run_queries.py] build.

    Conventions.
    - Python [int] is [Z]; a Python [str] is a [string] of ASCII characters.
    - A raised exception is the [Raise] branch of the error monad [res].
    - A pandas cell is a [cell]; a missing value ([None], [NaN]) is [NaN].
    - Binary64 arithmetic ([float]) is the Standard Library's [spec_float]
      at precision 53 and maximal exponent 1024. *)

From Stdlib Require Import ZArith Ascii String List Bool Lia.
From Stdlib Require Import SpecFloat.
From stdpp Require Import base option list strings gmap.

Set Warnings "-register-all".

Open Scope string_scope.
Open Scope Z_scope.

(** ** Python values: exceptions, integers and their decimal text *)

Module Py.

(** The exception classes the modelled code can meet. *)
Inductive exn : Type :=
| KeyError | ValueError | TypeError | AttributeError | OverflowError
| FileNotFoundError | EmptyDataError.

Inductive res (A : Type) : Type :=
| Ok (a : A)
| Raise (e : exn).
Arguments Ok {A} a.
Arguments Raise {A} e.

Definition bind {A B : Type} (m : res A) (k : A -> res B) : res B :=
  match m with
  | Ok a => k a
  | Raise e => Raise e
  end.

#[global] Instance res_bind : MBind res := fun A B k m => bind m k.
#[global] Instance res_ret : MRet res := fun A a => Ok a.

(** [try: m except Exception: h]. *)
Definition try_except {A : Type} (m : res A) (h : A) : A :=
  match m with
  | Ok a => a
  | Raise _ => h
  end.

Definition is_ok {A : Type} (m : res A) : bool :=
  match m with Ok _ => true | Raise _ => false end.

(** [for x in xs: f x], stopping at the first exception. *)
Fixpoint traverse {A B : Type} (f : A -> res B) (xs : list A) : res (list B) :=
  match xs with
  | [] => Ok []
  | x :: xs' =>
      bind (f x) (fun y => bind (traverse f xs') (fun ys => Ok (y :: ys)))
  end.

(** *** [str(n)] for an [int] *)

Definition digit_char (d : Z) : ascii := ascii_of_nat (48 + Z.to_nat d).

(** Digits of [n], least significant first, pushed in front of [acc]. *)
Fixpoint digits_aux (fuel : nat) (n : Z) (acc : string) : string :=
  match fuel with
  | O => acc
  | S fuel' =>
      let acc' := String (digit_char (n mod 10)) acc in
      if n / 10 =? 0 then acc' else digits_aux fuel' (n / 10) acc'
  end.

Definition str_nonneg (n : Z) : string :=
  digits_aux (S (Z.to_nat (Z.log2 n))) n "".

Definition str (z : Z) : string :=
  if z <? 0 then String "-" (str_nonneg (- z)) else str_nonneg z.

(** *** [int(s)] for a [str]

    Only the syntax the pipeline itself produces is covered: an optional
    sign followed by one or more ASCII digits.  (Python also accepts
    surrounding blanks and single underscores between digits.) *)

Definition digit_val (c : ascii) : option Z :=
  let n := Z.of_nat (nat_of_ascii c) in
  if (48 <=? n) && (n <=? 57) then Some (n - 48) else None.

Fixpoint int_digits (acc : Z) (s : string) : option Z :=
  match s with
  | EmptyString => Some acc
  | String c s' =>
      match digit_val c with
      | Some d => int_digits (10 * acc + d) s'
      | None => None
      end
  end.

Definition int_unsigned (s : string) : res Z :=
  match s with
  | EmptyString => Raise ValueError
  | _ => match int_digits 0 s with
         | Some z => Ok z
         | None => Raise ValueError
         end
  end.

Definition int (s : string) : res Z :=
  match s with
  | String c s' =>
      if Ascii.eqb c "-" then bind (int_unsigned s') (fun z => Ok (- z))
      else if Ascii.eqb c "+" then int_unsigned s'
      else int_unsigned s
  | EmptyString => Raise ValueError
  end.

(** [s.isdigit()], on ASCII text. *)
Fixpoint all_digits (s : string) : bool :=
  match s with
  | EmptyString => true
  | String c s' => bool_decide (is_Some (digit_val c)) && all_digits s'
  end.

Definition isdigit (s : string) : bool :=
  match s with
  | EmptyString => false
  | _ => all_digits s
  end.

(** *** Zero padding: [s.zfill(w)] and the format [{n:02d}] *)

Fixpoint zeros (k : nat) : string :=
  match k with
  | O => ""
  | S k' => String "0" (zeros k')
  end.

(** Left padding with ["0"].  At width 2 a sign never moves: a signed
    decimal already has two characters. *)
Definition zfill (w : nat) (s : string) : string :=
  zeros (w - String.length s) ++ s.

Definition format_02d (n : Z) : string := zfill 2 (str n).

End Py.

Import Py.

(** ** Binary64 floating point, as [float(...)], [*] and [int(...)] use it *)

Module F64.

Definition prec : Z := 53.
Definition emax : Z := 1024.

(** The float nearest to an integer. *)
Definition of_Z (z : Z) : spec_float := binary_normalize prec emax z 0 false.

Definition mul (x y : spec_float) : spec_float := SFmul prec emax x y.
Definition div (x y : spec_float) : spec_float := SFdiv prec emax x y.

(** An integer as an exact operand of one rounded operation. *)
Definition exact (z : Z) : spec_float :=
  match z with
  | Z0 => S754_zero false
  | Zpos p => S754_finite false p 0
  | Zneg p => S754_finite true p 0
  end.

(** [int(x)] for a float: truncation toward zero. *)
Definition trunc (x : spec_float) : res Z :=
  match x with
  | S754_zero _ => Ok 0
  | S754_nan => Raise ValueError
  | S754_infinity _ => Raise OverflowError
  | S754_finite s m e =>
      let a := if 0 <=? e then Z.shiftl (Zpos m) e else Z.shiftr (Zpos m) (- e) in
      Ok (if s then - a else a)
  end.

Definition is_integral (x : spec_float) : bool :=
  match x with
  | S754_zero _ => true
  | S754_finite _ m e =>
      (0 <=? e) || (Z.shiftl (Z.shiftr (Zpos m) (- e)) (- e) =? Zpos m)
  | _ => false
  end.

(** Splits a decimal at its first point. *)
Fixpoint split_point (s : string) : string * option string :=
  match s with
  | EmptyString => (EmptyString, None)
  | String c s' =>
      if Ascii.eqb c "." then (EmptyString, Some s')
      else let '(a, b) := split_point s' in (String c a, b)
  end.

(** [float(s)] for an unsigned plain decimal [ddd], [ddd.ddd], [ddd.] or
    [.ddd]: the quotient of the digits by the power of ten, rounded once. *)
Definition parse_unsigned (s : string) : res spec_float :=
  let '(ip, fp) := split_point s in
  let fp := default EmptyString fp in
  if (String.length ip + String.length fp =? 0)%nat then Raise ValueError
  else match int_digits 0 (ip ++ fp) with
       | None => Raise ValueError
       | Some m => Ok (div (exact m) (exact (10 ^ Z.of_nat (String.length fp))))
       end.

(** [float(s)], on plain signed decimals (no exponent, blanks, [inf] or
    [nan] spellings). *)
Definition parse (s : string) : res spec_float :=
  match s with
  | String c s' =>
      if Ascii.eqb c "-" then bind (parse_unsigned s') (fun x => Ok (SFopp x))
      else if Ascii.eqb c "+" then parse_unsigned s'
      else parse_unsigned s
  | EmptyString => Raise ValueError
  end.

End F64.

(** ** pandas: cells, series and frames *)

Module Pandas.

(** A cell of a column.  [Int] is a number with an integral value, whatever
    the dtype of its column; [NaN] is the missing marker. *)
Inductive cell : Type :=
| NaN
| Int (z : Z)
| Flt (x : spec_float)
| Str (s : string).

Definition Series : Type := list cell.

(** Columns in order, each with its values; all columns have one length. *)
Definition DataFrame : Type := list (string * Series).

Definition empty_frame : DataFrame := [].

Definition columns (df : DataFrame) : list string := map fst df.

(** [len(df)] *)
Definition df_len (df : DataFrame) : nat :=
  match df with
  | [] => O
  | (_, s) :: _ => length s
  end.

(** Every column has [len(df)] cells, as in any frame pandas builds. *)
Definition rectangular (df : DataFrame) : Prop :=
  Forall (fun cs => length cs.2 = df_len df) df.

(** A cell of a numeric column whose values are integers: the integer, or
    the missing marker. *)
Definition opt_cell (o : option Z) : cell :=
  match o with
  | Some z => Int z
  | None => NaN
  end.

(** [df.empty] *)
Definition df_empty (df : DataFrame) : bool :=
  match df with
  | [] => true
  | _ => Nat.eqb (df_len df) 0
  end.

Fixpoint df_lookup (c : string) (df : DataFrame) : option Series :=
  match df with
  | [] => None
  | (c', s) :: df' => if String.eqb c c' then Some s else df_lookup c df'
  end.

(** [c in df.columns] *)
Definition df_has (c : string) (df : DataFrame) : bool :=
  match df_lookup c df with Some _ => true | None => false end.

(** [df[c]] *)
Definition df_get (c : string) (df : DataFrame) : res Series :=
  match df_lookup c df with
  | Some s => Ok s
  | None => Raise KeyError
  end.

(** [df[c] = s]: in place when the column exists, appended otherwise. *)
Fixpoint df_set (c : string) (s : Series) (df : DataFrame) : DataFrame :=
  match df with
  | [] => [(c, s)]
  | (c', s') :: df' =>
      if String.eqb c c' then (c, s) :: df' else (c', s') :: df_set c s df'
  end.

(** [df[c] = v] for a scalar [v]. *)
Definition df_fill (c : string) (v : cell) (df : DataFrame) : DataFrame :=
  df_set c (replicate (df_len df) v) df.

(** [df[[c1, ..., cn]]] *)
Fixpoint df_select (cs : list string) (df : DataFrame) : res DataFrame :=
  match cs with
  | [] => Ok []
  | c :: cs' =>
      bind (df_get c df) (fun s =>
      bind (df_select cs' df) (fun rest => Ok ((c, s) :: rest)))
  end.

(** [df[[c for c in cs if c in df.columns]]] *)
Definition df_select_present (cs : list string) (df : DataFrame) : DataFrame :=
  omap (fun c => match df_lookup c df with
                 | Some s => Some (c, s)
                 | None => None
                 end) cs.

(** [df'] is [df] with only the columns [touched] assigned: the shape and
    every other column are those of [df]. *)
Definition assigns (touched : list string) (df df' : DataFrame) : Prop :=
  rectangular df' /\ df_len df' = df_len df /\
  forall c, c ∉ touched -> df_lookup c df' = df_lookup c df.

(** [range(1, n + 1)] as a column. *)
Definition range_ids (n : nat) : Series := map (fun i => Int (Z.of_nat i)) (seq 1 n).

(** [df.insert(0, c, range(1, len(df) + 1))] *)
Definition df_insert_ids (c : string) (df : DataFrame) : res DataFrame :=
  if df_has c df then Raise ValueError
  else Ok ((c, range_ids (df_len df)) :: df).

Definition isna (c : cell) : bool :=
  match c with NaN => true | _ => false end.

(** [s.fillna(v)] *)
Definition fillna (v : cell) (s : Series) : Series :=
  map (fun c => if isna c then v else c) s.

(** [s.isna().all()] *)
Definition isna_all (s : Series) : bool := forallb isna s.

(** [pd.to_numeric(s, errors="coerce")] *)
Definition to_numeric_cell (c : cell) : cell :=
  match c with
  | Str s =>
      match int s with
      | Ok z => Int z
      | Raise _ =>
          match F64.parse s with
          | Ok x => Flt x
          | Raise _ => NaN
          end
      end
  | _ => c
  end.

Definition to_numeric (s : Series) : Series := map to_numeric_cell s.

(** [s.astype(int)]: refuses a missing value, truncates a float, and
    parses text with [int]. *)
Definition astype_int_cell (c : cell) : res cell :=
  match c with
  | NaN => Raise ValueError
  | Int z => Ok (Int z)
  | Flt x => bind (F64.trunc x) (fun z => Ok (Int z))
  | Str s => bind (int s) (fun z => Ok (Int z))
  end.

Definition astype_int (s : Series) : res Series := traverse astype_int_cell s.

(** [s.astype(str)] on one cell; the text of a float is not modelled. *)
Definition astype_str_cell (c : cell) : option string :=
  match c with
  | Int z => Some (str z)
  | Str s => Some s
  | NaN => Some "nan"
  | Flt _ => None
  end.

(** [s * k] for an integer [k]. *)
Definition mul_cell (k : Z) (c : cell) : res cell :=
  match c with
  | NaN => Ok NaN
  | Int z => Ok (Int (z * k))
  | Flt x => Ok (Flt (F64.mul x (F64.of_Z k)))
  | Str _ => Raise TypeError
  end.

Definition mul_scalar (k : Z) (s : Series) : res Series := traverse (mul_cell k) s.

(** [dict(zip(keys, values))]: a later pair replaces an earlier one with
    the same key.  Natural keys are slugs, so the dictionary is keyed by
    text. *)
Definition dict_zip (ks vs : Series) : gmap string cell :=
  fold_left (fun d kv => match kv.1 with
                         | Str k => <[k := kv.2]> d
                         | _ => d
                         end) (zip ks vs) ∅.

(** [s.map(d)]: a key absent from [d] gives the missing marker. *)
Definition map_cell (d : gmap string cell) (c : cell) : cell :=
  match c with
  | Str k => default NaN (d !! k)
  | _ => NaN
  end.

Definition map_dict (d : gmap string cell) (s : Series) : Series :=
  map (map_cell d) s.

(** [pd.DataFrame(records)] for records that all carry the keys of the
    first one, in that order. *)
Definition record : Type := list (string * cell).

Fixpoint record_get (c : string) (r : record) : cell :=
  match r with
  | [] => NaN
  | (c', v) :: r' => if String.eqb c c' then v else record_get c r'
  end.

Definition frame_of_records (rs : list record) : DataFrame :=
  match rs with
  | [] => []
  | r :: _ => map (fun c => (c, map (record_get c) rs)) (map fst r)
  end.

(** [df[c].iloc[i]], when the column and the row exist. *)
Definition df_cell (c : string) (i : nat) (df : DataFrame) : option cell :=
  match df_lookup c df with
  | Some s => s !! i
  | None => None
  end.

End Pandas.

Import Pandas.


(** ** scripts/transform_data.py: the steps of each [transform_*] method

    Each step is one statement (or one [try] block) of the method, acting on
    the frame being built. *)

Module Steps.

(** Lines 128-129, 200-201, 245-246, 313-314 and 96-97: a reference frame
    without its surrogate column gets the ids [1..N] in row order. *)
Definition ensure_ids (id_col : string) (ref : DataFrame) : DataFrame :=
  if negb (df_has id_col ref) then df_set id_col (range_ids (df_len ref)) ref
  else ref.

(** [dict(zip(ref[key_col], ref[id_col]))] *)
Definition build_lookup (key_col id_col : string) (ref : DataFrame)
  : res (gmap string cell) :=
  ks ← df_get key_col ref;
  vs ← df_get id_col ref;
  mret (dict_zip ks vs).

(** [df[id_col] = df[key_col].map(lookup)] *)
Definition resolve (key_col id_col : string) (d : gmap string cell)
    (df : DataFrame) : res DataFrame :=
  ks ← df_get key_col df;
  mret (df_set id_col (map_dict d ks) df).

(** The [driver_ref] block of results, qualifying, pit stops and driver
    standings (lines 126-134, 198-206, 243-251, 311-319).  [drivers] is
    what [pd.read_csv] gave for [drivers.csv]. *)
Definition resolve_driver (drivers : res DataFrame) (df : DataFrame) : DataFrame :=
  try_except
    (drivers_df ← drivers;
     let drivers_df := ensure_ids "driver_id" drivers_df in
     driver_map ← build_lookup "driver_ref" "driver_id" drivers_df;
     resolve "driver_ref" "driver_id" driver_map df)
    (df_fill "driver_id" (Int 0) df).

(** The [constructor_ref] block of results, qualifying and constructor
    standings (lines 136-144, 208-216, 284-292). *)
Definition resolve_constructor (constructors : res DataFrame) (df : DataFrame)
  : DataFrame :=
  try_except
    (constructors_df ← constructors;
     constructor_map ← build_lookup "constructor_ref" "constructor_id" constructors_df;
     resolve "constructor_ref" "constructor_id" constructor_map df)
    (df_fill "constructor_id" (Int 0) df).

(** The [circuit_ref] block of races (lines 93-102). *)
Definition resolve_circuit (circuits : res DataFrame) (df : DataFrame) : DataFrame :=
  if df_has "circuit_ref" df then
    try_except
      (circuits_df ← circuits;
       let circuits_df := ensure_ids "circuit_id" circuits_df in
       circuit_map ← build_lookup "circuit_ref" "circuit_id" circuits_df;
       ks ← df_get "circuit_ref" df;
       ids ← astype_int (fillna (Int 0) (map_dict circuit_map ks));
       mret (df_set "circuit_id" ids df))
      (df_fill "circuit_id" (Int 0) df)
  else df.

(** Lines 107-109 on one row: the text of the year, then the text of the
    round padded to two characters, read back as an integer.  The text of
    a float has a point or an exponent, or spells [inf] or [nan]; [int]
    refuses each of them. *)
Definition race_id_cell (year round : cell) : res cell :=
  match astype_str_cell year, astype_str_cell round with
  | Some y, Some r => z ← int (y ++ zfill 2 r); mret (Int z)
  | _, _ => Raise ValueError
  end.

Fixpoint race_id_series (years rounds : Series) : res Series :=
  match years, rounds with
  | y :: ys, r :: rs =>
      c ← race_id_cell y r;
      cs ← race_id_series ys rs;
      mret (c :: cs)
  | _, _ => mret []
  end.

Definition assign_race_id (df : DataFrame) : res DataFrame :=
  if df_has "race_id" df then
    ids ← df_get "race_id" df;
    ids ← astype_int ids;
    mret (df_set "race_id" ids df)
  else
    years ← df_get "year" df;
    rounds ← df_get "round" df;
    ids ← race_id_series years rounds;
    mret (df_set "race_id" ids df).

(** Lines 146-147. *)
Definition coerce_position (df : DataFrame) : DataFrame :=
  match df_lookup "position" df with
  | Some s => df_set "position" (to_numeric s) df
  | None => df
  end.

(** Lines 149-159: [df[col] = df[col].fillna(0).astype(int)] for each
    listed column the frame has. *)
Definition fill_int_column (df : DataFrame) (col : string) : res DataFrame :=
  match df_lookup col df with
  | Some s => s' ← astype_int (fillna (Int 0) s); mret (df_set col s' df)
  | None => mret df
  end.

Fixpoint fill_int_columns (cols : list string) (df : DataFrame) : res DataFrame :=
  match cols with
  | [] => mret df
  | col :: cols' => df' ← fill_int_column df col; fill_int_columns cols' df'
  end.

Definition numeric_cols : list string :=
  ["points"; "laps"; "grid"; "number"; "fastest_lap"; "fastest_lap_rank"].

(** Lines 161-166. *)
Definition result_milliseconds (df : DataFrame) : res DataFrame :=
  match df_lookup "milliseconds" df with
  | Some s =>
      s' ← astype_int (fillna (Int 0) (to_numeric s));
      mret (df_set "milliseconds" s' df)
  | None => mret (df_fill "milliseconds" (Int 0) df)
  end.

(** Lines 168-178. *)
Definition status_map : gmap string cell :=
  <["Engine" := Int 5]> (<["Collision" := Int 4]> (<["Accident" := Int 3]>
  (<["Disqualified" := Int 2]> (<["Retired" := Int 14]> (<["+3 Laps" := Int 13]>
  (<["+2 Laps" := Int 12]> (<["+1 Lap" := Int 11]> (<["Finished" := Int 1]> ∅)))))))).

(** The keys and the values of [status_map]. *)
Definition status_vocabulary : list string :=
  ["Finished"; "+1 Lap"; "+2 Laps"; "+3 Laps"; "Retired";
   "Disqualified"; "Accident"; "Collision"; "Engine"].

Definition status_codes : list Z := [1; 2; 3; 4; 5; 11; 12; 13; 14].

(** Line 180, on one cell: [.map(status_map).fillna(14)]. *)
Definition status_id_cell (c : cell) : cell :=
  let m := map_cell status_map c in
  if isna m then Int 14 else m.

(** Lines 179-182. *)
Definition assign_status_id (df : DataFrame) : DataFrame :=
  match df_lookup "status" df with
  | Some s => df_set "status_id" (fillna (Int 14) (map_dict status_map s)) df
  | None => df_fill "status_id" (Int 1) df
  end.

(** Lines 184-188. *)
Definition assign_position_order (df : DataFrame) : res DataFrame :=
  df1 ← (if negb (df_has "position_order" df) then
           p ← df_get "position" df;
           mret (df_set "position_order" (fillna (Int 999) p) df)
         else mret df);
  po ← df_get "position_order" df1;
  po' ← astype_int (fillna (Int 999) (to_numeric po));
  mret (df_set "position_order" po' df1).

(** The columns assigned before the status and the finishing order are. *)
Definition results_first_columns : list string :=
  ["driver_id"; "constructor_id"; "position"] ++ numeric_cols ++ ["milliseconds"].

(** Lines 126-188: the body of [transform_results] after the input was read. *)
Definition results_frame (drivers constructors : res DataFrame) (df : DataFrame)
  : res DataFrame :=
  let df := resolve_driver drivers df in
  let df := resolve_constructor constructors df in
  let df := coerce_position df in
  df ← fill_int_columns numeric_cols df;
  df ← result_milliseconds df;
  let df := assign_status_id df in
  assign_position_order df.

(** Lines 218-222 and 253-256: [df[col] = df[col].fillna(v)] when the
    column is there, [df[col] = v] otherwise. *)
Definition fill_or_create (v : cell) (df : DataFrame) (col : string) : DataFrame :=
  match df_lookup col df with
  | Some s => df_set col (fillna v s) df
  | None => df_fill col v df
  end.

(** Lines 224-226. *)
Definition numeric_int_column (df : DataFrame) (col : string) : res DataFrame :=
  match df_lookup col df with
  | Some s =>
      s' ← astype_int (fillna (Int 0) (to_numeric s));
      mret (df_set col s' df)
  | None => mret df
  end.

(** Lines 198-226: the body of [transform_qualifying]. *)
Definition qualifying_frame (drivers constructors : res DataFrame) (df : DataFrame)
  : res DataFrame :=
  let df := resolve_driver drivers df in
  let df := resolve_constructor constructors df in
  let df := fold_left (fill_or_create (Str "")) ["q1"; "q2"; "q3"] df in
  df ← numeric_int_column df "position";
  numeric_int_column df "number".

(** Lines 258-264: the column is derived from [duration] only when the
    frame has no [milliseconds] column or every cell of it is missing. *)
Definition derive_milliseconds (df : DataFrame) : res DataFrame :=
  let absent := match df_lookup "milliseconds" df with
                | Some ms => isna_all ms
                | None => true
                end in
  if absent then
    match df_lookup "duration" df with
    | Some d => ms ← mul_scalar 1000 (to_numeric d); mret (df_set "milliseconds" ms df)
    | None => mret (df_fill "milliseconds" (Int 0) df)
    end
  else mret df.

(** Lines 266-268. *)
Definition pit_stop_milliseconds (df : DataFrame) : res DataFrame :=
  df ← derive_milliseconds df;
  ms ← df_get "milliseconds" df;
  ms' ← astype_int (fillna (Int 0) (to_numeric ms));
  mret (df_set "milliseconds" ms' df).

(** Lines 243-268: the body of [transform_pit_stops]. *)
Definition pit_stops_frame (drivers : res DataFrame) (df : DataFrame) : res DataFrame :=
  let df := resolve_driver drivers df in
  let df := fill_or_create (Str "00:00:00") df "time_of_day" in
  pit_stop_milliseconds df.

(** Lines 294-295 and 321-322. *)
Definition fill_points_wins (df : DataFrame) : res DataFrame :=
  p ← df_get "points" df;
  let df := df_set "points" (fillna (Int 0) p) df in
  w ← df_get "wins" df;
  mret (df_set "wins" (fillna (Int 0) w) df).

Definition constructor_standings_frame (constructors : res DataFrame) (df : DataFrame)
  : res DataFrame :=
  fill_points_wins (resolve_constructor constructors df).

Definition driver_standings_frame (drivers : res DataFrame) (df : DataFrame)
  : res DataFrame :=
  fill_points_wins (resolve_driver drivers df).

(** Lines 29-41: the body of [transform_circuits]. *)
Definition circuits_frame (df : DataFrame) : res DataFrame :=
  let df := df_set "circuit_id" (range_ids (df_len df)) df in
  alt ← df_get "altitude" df;
  let df := df_set "altitude" (fillna (Int 0) alt) df in
  df_select ["circuit_id"; "circuit_ref"; "circuit_name"; "location"; "country";
             "lat"; "lng"; "altitude"; "url"] df.

End Steps.

(** ** scripts/extract_data.py *)

Module Extract.

(** A decoded JSON value; the integer defaults of [.get(key, 0)] are [JNum]. *)
Inductive json : Type :=
| JNull
| JBool (b : bool)
| JNum (z : Z)
| JStr (s : string)
| JList (l : list json)
| JDict (d : list (string * json)).

(** The decoded body of one response: a dictionary. *)
Definition response : Type := list (string * json).

(** The upstream snapshot: what a request for an endpoint, a limit and an
    offset is answered with; [None] is a transport failure (a time-out, an
    error status), the [RequestException] of [_make_request]. *)
Definition Api : Type := string -> Z -> Z -> option response.

(** Python truth value. *)
Definition truthy (j : json) : bool :=
  match j with
  | JNull => false
  | JBool b => b
  | JNum z => negb (z =? 0)
  | JStr s => negb (String.eqb s "")
  | JList l => match l with [] => false | _ => true end
  | JDict d => match d with [] => false | _ => true end
  end.

Fixpoint assoc (k : string) (d : list (string * json)) : option json :=
  match d with
  | [] => None
  | (k', v) :: d' => if String.eqb k k' then Some v else assoc k d'
  end.

(** [j.get(k, dflt)] *)
Definition get (j : json) (k : string) (dflt : json) : res json :=
  match j with
  | JDict d => Ok (default dflt (assoc k d))
  | _ => Raise AttributeError
  end.

(** [for x in j] *)
Definition py_iter (j : json) : res (list json) :=
  match j with
  | JList l => Ok l
  | JDict d => Ok (map (fun kv => JStr kv.1) d)
  | JStr s => Ok (map (fun c => JStr (String c EmptyString)) (list_ascii_of_string s))
  | _ => Raise TypeError
  end.

(** [len(j)] *)
Definition py_len (j : json) : res Z :=
  match j with
  | JList l => Ok (Z.of_nat (length l))
  | JDict d => Ok (Z.of_nat (length d))
  | JStr s => Ok (Z.of_nat (String.length s))
  | _ => Raise TypeError
  end.

(** [int(j)] *)
Definition py_int (j : json) : res Z :=
  match j with
  | JNum z => Ok z
  | JBool b => Ok (if b then 1 else 0)
  | JStr s => int s
  | _ => Raise TypeError
  end.

(** [float(j)] *)
Definition py_float (j : json) : res spec_float :=
  match j with
  | JNum z => Ok (F64.of_Z z)
  | JBool b => Ok (F64.of_Z (if b then 1 else 0))
  | JStr s => F64.parse s
  | _ => Raise TypeError
  end.

(** A scalar stored in a record.  Nested values do not occur as fields of
    the rows built below; the cell model has no place for them. *)
Definition to_cell (j : json) : res cell :=
  match j with
  | JNull => Ok NaN
  | JNum z => Ok (Int z)
  | JStr s => Ok (Str s)
  | _ => Raise TypeError
  end.

(** [isinstance(j, list)] *)
Definition is_list (j : json) : bool :=
  match j with JList _ => true | _ => false end.

(** [key.endswith(suffix)] *)
Definition endswith (suffix s : string) : bool :=
  let n := String.length s in
  let k := String.length suffix in
  (k <=? n)%nat && String.eqb (substring (n - k) k s) suffix.

(** [_make_request], lines 16-27. *)
Definition make_request (api : Api) (endpoint : string) (limit offset : Z)
  : option response :=
  api endpoint limit offset.

(** Lines 37-40: the first key ending in ["Table"]. *)
Fixpoint first_table (d : list (string * json)) : option json :=
  match d with
  | [] => None
  | (k, v) :: d' => if endswith "Table" k then Some v else first_table d'
  end.

(** Lines 44-46: the first value that is a list. *)
Fixpoint first_list (d : list (string * json)) : option json :=
  match d with
  | [] => None
  | (_, v) :: d' => if is_list v then Some v else first_list d'
  end.

(** [_extract_table], lines 29-51. *)
Definition extract_table (json_data : response) (table_name : string) : res json :=
  match json_data with
  | [] => Ok (JList [])
  | _ =>
      match assoc "MRData" json_data with
      | None => Ok (JList [])
      | Some mr_data =>
          table_data ← get mr_data table_name JNull;
          table_data ← (if negb (truthy table_data) then
                          match mr_data with
                          | JDict d => Ok (default table_data (first_table d))
                          | _ => Raise AttributeError
                          end
                        else Ok table_data);
          if negb (truthy table_data) then Ok (JList [])
          else match table_data with
               | JDict d =>
                   match first_list d with
                   | Some v => Ok v
                   | None => Ok (default (JList []) (assoc "StandingsLists" d))
                   end
               | _ => Raise AttributeError
               end
      end
  end.

(** The result of a loop run with bounded fuel: [None] when the fuel ran
    out before the loop ended. *)
Definition run (A : Type) : Type := option (res A).

Definition run_bind {A B : Type} (m : run A) (k : A -> run B) : run B :=
  match m with
  | None => None
  | Some (Raise e) => Some (Raise e)
  | Some (Ok a) => k a
  end.

Definition lift {A : Type} (m : res A) : run A := Some m.

Section Paginate.

Variable api : Api.
Variable endpoint table_name : string.
Variable limit : Z.
(** The rows one item of a page contributes. *)
Variable rows_of : json -> res (list record).

(** What one pass through the body of the [while True] loop does. *)
Inductive step_result : Type :=
| Break (r : res (list record))
| Next (acc : list record).

(** The body of the loop of every paginated extractor (lines 61-85 for
    circuits), at [offset] with [acc] already collected. *)
Definition page_step (offset : Z) (acc : list record) : step_result :=
  match make_request api endpoint limit offset with
  | None => Break (Ok acc)
  | Some [] => Break (Ok acc)
  | Some data =>
      match extract_table data table_name with
      | Raise e => Break (Raise e)
      | Ok items =>
          if negb (truthy items) then Break (Ok acc)
          else
            match (l ← py_iter items;
                   rows ← traverse rows_of l;
                   n ← py_len items;
                   mret ((acc ++ concat rows)%list, n)) with
            | Raise e => Break (Raise e)
            | Ok (acc', n) => if n <? limit then Break (Ok acc') else Next acc'
            end
      end
  end.

(** The loop, [offset += limit] after each full page. *)
Fixpoint paginate (fuel : nat) (offset : Z) (acc : list record)
  : run (list record) :=
  match fuel with
  | O => None
  | S fuel' =>
      match page_step offset acc with
      | Break r => Some r
      | Next acc' => paginate fuel' (offset + limit) acc'
      end
  end.

(** The offset and the rows after [k] passes that all went on to the
    next page; [None] when an earlier pass left the loop. *)
Fixpoint after_pages (k : nat) (offset : Z) (acc : list record)
  : option (Z * list record) :=
  match k with
  | O => Some (offset, acc)
  | S k' =>
      match page_step offset acc with
      | Break _ => None
      | Next acc' => after_pages k' (offset + limit) acc'
      end
  end.

(** The page at [offset] is answered, well formed, and holds at least
    [limit] items, which contribute [rows]. *)
Definition full_page (offset : Z) (rows : list record) : Prop :=
  exists data items l rs n,
    make_request api endpoint limit offset = Some data /\ data <> [] /\
    extract_table data table_name = Ok items /\ truthy items = true /\
    py_iter items = Ok l /\ traverse rows_of l = Ok rs /\
    py_len items = Ok n /\ limit <= n /\ rows = concat rs.

End Paginate.

(** *** Fields of a row *)

(** [j.get(k, '')] stored as a cell. *)
Definition field (j : json) (k : string) : res cell :=
  v ← get j k (JStr ""); to_cell v.

(** [int(j.get(k, 0)) if j.get(k) else None] *)
Definition int_if_present (j : json) (k : string) : res cell :=
  v ← get j k JNull;
  if truthy v then (w ← get j k (JNum 0); z ← py_int w; mret (Int z))
  else mret NaN.

(** [float(j.get(k, 0)) if j.get(k) else None] *)
Definition float_if_present (j : json) (k : string) : res cell :=
  v ← get j k JNull;
  if truthy v then (w ← get j k (JNum 0); x ← py_float w; mret (Flt x))
  else mret NaN.

(** [j.get(k1, {}).get(k2, '') if j.get(k1) else None] *)
Definition nested_if_present (j : json) (k1 k2 : string) : res cell :=
  v ← get j k1 JNull;
  if truthy v then (w ← get j k1 (JDict []); u ← get w k2 (JStr ""); to_cell u)
  else mret NaN.

(** [x if isinstance(x, list) else [x]] *)
Definition as_list (j : json) : list json :=
  match j with
  | JList l => l
  | _ => [j]
  end.

(** [int(f"{year}{round_num:02d}")] *)
Definition race_id_of (year round_num : Z) : res Z :=
  int (str year ++ format_02d round_num).

(** [s.replace('Z', '')] *)
Fixpoint remove_Z (s : string) : string :=
  match s with
  | EmptyString => EmptyString
  | String c s' => if Ascii.eqb c "Z" then remove_Z s' else String c (remove_Z s')
  end.

(** [s.isdigit()], an [AttributeError] on anything but text. *)
Definition json_isdigit (j : json) : res bool :=
  match j with
  | JStr s => Ok (isdigit s)
  | _ => Raise AttributeError
  end.

(** *** Circuits, lines 69-81 *)
Definition circuit_rows (circuit : json) : res (list record) :=
  location ← get circuit "Location" (JDict []);
  circuit_ref ← field circuit "circuitId";
  circuit_name ← field circuit "circuitName";
  locality ← field location "locality";
  country ← field location "country";
  lat ← float_if_present location "lat";
  lng ← float_if_present location "long";
  url ← field circuit "url";
  mret [[("circuit_ref", circuit_ref); ("circuit_name", circuit_name);
         ("location", locality); ("country", country); ("lat", lat);
         ("lng", lng); ("altitude", NaN); ("url", url)]].

(** Lines 53-90, up to the frame that is written. *)
Definition extract_circuits (api : Api) (fuel : nat) : run DataFrame :=
  run_bind (paginate api "circuits" "CircuitsTable" 100 circuit_rows fuel 0 [])
           (fun rows => lift (Ok (frame_of_records rows))).

(** *** Seasons, lines 92-111: one request; [None] is the early return
    that writes no file. *)
Definition season_row (season : json) : res record :=
  y ← get season "season" (JNum 0);
  year ← py_int y;
  url ← field season "url";
  mret [("year", Int year); ("url", url)].

Definition extract_seasons (api : Api) : res (option DataFrame) :=
  match make_request api "seasons" 100 0 with
  | None => Ok None
  | Some [] => Ok None
  | Some data =>
      seasons ← extract_table data "SeasonTable";
      l ← py_iter seasons;
      rows ← traverse season_row l;
      mret (Some (frame_of_records rows))
  end.

(** *** Constructors, lines 113-146 *)
Definition constructor_rows (constructor : json) : res (list record) :=
  constructor_ref ← field constructor "constructorId";
  name ← field constructor "name";
  nationality ← field constructor "nationality";
  url ← field constructor "url";
  mret [[("constructor_ref", constructor_ref); ("constructor_name", name);
         ("nationality", nationality); ("url", url)]].

Definition extract_constructors (api : Api) (fuel : nat) : run DataFrame :=
  run_bind (paginate api "constructors" "ConstructorTable" 100 constructor_rows fuel 0 [])
           (fun rows => lift (df_insert_ids "constructor_id" (frame_of_records rows))).

(** *** Drivers, lines 148-186 *)
Definition driver_rows (driver : json) : res (list record) :=
  dob ← get driver "dateOfBirth" (JStr "");
  driver_ref ← field driver "driverId";
  code ← field driver "code";
  forename ← field driver "givenName";
  surname ← field driver "familyName";
  dob_cell ← (if truthy dob then to_cell dob else mret NaN);
  nationality ← field driver "nationality";
  url ← field driver "url";
  mret [[("driver_ref", driver_ref); ("driver_number", NaN); ("code", code);
         ("forename", forename); ("surname", surname); ("dob", dob_cell);
         ("nationality", nationality); ("url", url)]].

Definition extract_drivers (api : Api) (fuel : nat) : run DataFrame :=
  run_bind (paginate api "drivers" "DriverTable" 100 driver_rows fuel 0 [])
           (fun rows => lift (df_insert_ids "driver_id" (frame_of_records rows))).

(** *** Year-scoped extraction: [for year in range(start_year, end_year + 1)]
    around the paginated loop, one accumulator for the whole range. *)
Fixpoint per_year (api : Api) (suffix : string)
    (rows_of : Z -> json -> res (list record)) (fuel : nat)
    (years : list Z) (acc : list record) : run (list record) :=
  match years with
  | [] => Some (Ok acc)
  | year :: years' =>
      run_bind (paginate api (str year ++ suffix) "RaceTable" 100 (rows_of year) fuel 0 acc)
               (fun acc' => per_year api suffix rows_of fuel years' acc')
  end.

Definition year_range (start_year end_year : Z) : list Z :=
  seqZ start_year (end_year + 1 - start_year).

(** *** Races, lines 206-223 *)
Definition race_rows (year : Z) (race : json) : res (list record) :=
  circuit ← get race "Circuit" (JDict []);
  _ ← get race "FirstPractice" (JDict []);
  race_date ← field race "date";
  t ← get race "time" (JStr "00:00:00Z");
  race_time ← (match t with JStr s => Ok (remove_Z s) | _ => Raise AttributeError end);
  r ← get race "round" (JNum 0);
  round ← py_int r;
  race_id ← race_id_of year round;
  circuit_ref ← field circuit "circuitId";
  race_name ← field race "raceName";
  url ← field race "url";
  mret [[("year", Int year); ("round", Int round); ("race_id", Int race_id);
         ("circuit_ref", circuit_ref); ("race_name", race_name);
         ("race_date", race_date); ("race_time", Str race_time); ("url", url)]].

Definition extract_races (api : Api) (fuel : nat) (start_year end_year : Z)
  : run DataFrame :=
  run_bind (per_year api "/races" race_rows fuel (year_range start_year end_year) [])
           (fun rows => lift (Ok (frame_of_records rows))).

(** *** Results, lines 252-287 *)

(** Lines 266, 275 and 277: the two position fields of a result. *)
Definition position_fields (result : json) : res (cell * cell) :=
  position ← get result "position" (JStr "");
  d ← json_isdigit position;
  pos ← (if (d : bool) then (z ← py_int position; mret (Int z)) else mret NaN);
  again ← json_isdigit position;
  pos_order ← (if (again : bool) then (p ← get result "position" (JNum 999); z ← py_int p; mret (Int z))
               else mret (Int 999));
  mret (pos, pos_order).

Definition result_row (race_id : Z) (result : json) : res record :=
  driver ← get result "Driver" (JDict []);
  constructor ← get result "Constructor" (JDict []);
  fastest_lap ← get result "FastestLap" (JDict []);
  position_text ← get result "positionText" (JStr "");
  driver_ref ← field driver "driverId";
  constructor_ref ← field constructor "constructorId";
  number ← int_if_present result "number";
  grid ← int_if_present result "grid";
  '(pos, pos_order) ← position_fields result;
  position_text ← to_cell position_text;
  pts ← get result "points" (JNum 0);
  points ← py_float pts;
  laps ← int_if_present result "laps";
  time_result ← nested_if_present result "Time" "time";
  t ← get result "Time" JNull;
  milliseconds ← (if truthy t then
                    m ← get t "millis" JNull;
                    if truthy m then
                      (t' ← get result "Time" (JDict []);
                       m' ← get t' "millis" (JNum 0);
                       z ← py_int m'; mret (Int z))
                    else mret NaN
                  else mret NaN);
  fl ← int_if_present fastest_lap "lap";
  fl_rank ← int_if_present fastest_lap "rank";
  fl_time ← nested_if_present fastest_lap "Time" "time";
  fl_speed ← nested_if_present fastest_lap "AverageSpeed" "speed";
  status ← get result "status" (JStr "Finished");
  status ← to_cell status;
  mret [("race_id", Int race_id); ("driver_ref", driver_ref);
        ("constructor_ref", constructor_ref); ("number", number); ("grid", grid);
        ("position", pos); ("position_text", position_text);
        ("position_order", pos_order); ("points", Flt points); ("laps", laps);
        ("time_result", time_result); ("milliseconds", milliseconds);
        ("fastest_lap", fl); ("fastest_lap_rank", fl_rank);
        ("fastest_lap_time", fl_time); ("fastest_lap_speed", fl_speed);
        ("status", status)].

Definition result_rows (year : Z) (race : json) : res (list record) :=
  r ← get race "round" (JNum 0);
  round_num ← py_int r;
  race_id ← race_id_of year round_num;
  results ← get race "Results" (JList []);
  traverse (result_row race_id) (as_list results).

Definition extract_results (api : Api) (fuel : nat) (start_year end_year : Z)
  : run DataFrame :=
  run_bind (per_year api "/results" result_rows fuel (year_range start_year end_year) [])
           (fun rows => lift (Ok (frame_of_records rows))).

(** *** Qualifying, lines 316-338 *)
Definition qualifying_row (race_id : Z) (qualifying : json) : res record :=
  driver ← get qualifying "Driver" (JDict []);
  constructor ← get qualifying "Constructor" (JDict []);
  driver_ref ← field driver "driverId";
  constructor_ref ← field constructor "constructorId";
  number ← int_if_present qualifying "number";
  position ← int_if_present qualifying "position";
  q1 ← field qualifying "Q1";
  q2 ← field qualifying "Q2";
  q3 ← field qualifying "Q3";
  mret [("race_id", Int race_id); ("driver_ref", driver_ref);
        ("constructor_ref", constructor_ref); ("number", number);
        ("position", position); ("q1", q1); ("q2", q2); ("q3", q3)].

Definition qualifying_rows (year : Z) (race : json) : res (list record) :=
  race_info ← get race "QualifyingResults" (JList []);
  round_num ← (if truthy race then (r ← get race "round" (JNum 0); py_int r) else mret 0);
  race_id ← (if truthy race then race_id_of year round_num else mret 0);
  traverse (qualifying_row race_id) (as_list race_info).

Definition extract_qualifying (api : Api) (fuel : nat) (start_year end_year : Z)
  : run DataFrame :=
  run_bind (per_year api "/qualifying" qualifying_rows fuel (year_range start_year end_year) [])
           (fun rows => lift (Ok (frame_of_records rows))).

(** *** Pit stops, lines 367-389 *)

(** Line 388: [int(float(duration) * 1000) if duration else None]. *)
Definition duration_milliseconds (duration : json) : res cell :=
  if truthy duration then
    x ← py_float duration;
    z ← F64.trunc (F64.mul x (F64.of_Z 1000));
    mret (Int z)
  else mret NaN.

Definition pit_stop_row (race_id : Z) (pit_stop : json) : res record :=
  driver ← get pit_stop "Driver" (JDict []);
  time_of_day ← get pit_stop "time" (JStr "");
  duration ← get pit_stop "duration" (JStr "");
  driver_ref ← field driver "driverId";
  s ← get pit_stop "stop" (JNum 0);
  stop ← py_int s;
  l ← get pit_stop "lap" (JNum 0);
  lap ← py_int l;
  time_of_day ← to_cell time_of_day;
  duration_cell ← to_cell duration;
  milliseconds ← duration_milliseconds duration;
  mret [("race_id", Int race_id); ("driver_ref", driver_ref); ("stop", Int stop);
        ("lap", Int lap); ("time_of_day", time_of_day); ("duration", duration_cell);
        ("milliseconds", milliseconds)].

Definition pit_stop_rows (year : Z) (race : json) : res (list record) :=
  r ← get race "round" (JNum 0);
  round_num ← py_int r;
  race_id ← race_id_of year round_num;
  pit_stops ← get race "PitStops" (JList []);
  traverse (pit_stop_row race_id) (as_list pit_stops).

Definition extract_pit_stops (api : Api) (fuel : nat) (start_year end_year : Z)
  : run DataFrame :=
  run_bind (per_year api "/pitstops" pit_stop_rows fuel (year_range start_year end_year) [])
           (fun rows => lift (Ok (frame_of_records rows))).

(** *** Standings, lines 406-471: no pagination; each round of each year
    is one request with the default limit and offset. *)

Definition standing_row (key_name ref_col ref_key : string) (race_id : Z) (entry : json)
  : res record :=
  who ← get entry key_name (JDict []);
  ref ← field who ref_key;
  pts ← get entry "points" (JNum 0);
  points ← py_float pts;
  p ← get entry "position" (JNum 0);
  position ← py_int p;
  position_text ← field entry "positionText";
  w ← get entry "wins" (JNum 0);
  wins ← py_int w;
  mret [("race_id", Int race_id); (ref_col, ref); ("points", Flt points);
        ("position", Int position); ("position_text", position_text);
        ("wins", Int wins)].

(** One [standing] of a [StandingsLists] (lines 421-438 and 454-471). *)
Definition standing_rows (list_key key_name ref_col ref_key : string)
    (year round_num : Z) (standing : json) : res (list record) :=
  r ← get standing "round" (JNum round_num);
  round_num_actual ← py_int r;
  race_id ← race_id_of year round_num_actual;
  entries ← get standing list_key (JList []);
  traverse (standing_row key_name ref_col ref_key race_id) (as_list entries).

(** One item of the table (lines 416-419 and 449-452). *)
Definition standing_list_rows (list_key key_name ref_col ref_key : string)
    (year round_num : Z) (standing_list : json) : res (list record) :=
  standings_list ← get standing_list "StandingsLists" (JList []);
  rows ← traverse (standing_rows list_key key_name ref_col ref_key year round_num)
                  (as_list standings_list);
  mret (concat rows).

(** One round (lines 408-438 and 441-471): a failed or empty answer is
    skipped. *)
Definition standings_round (api : Api) (kind list_key key_name ref_col ref_key : string)
    (year round_num : Z) (acc : list record) : res (list record) :=
  match make_request api (str year ++ "/" ++ str round_num ++ "/" ++ kind) 1000 0 with
  | None => Ok acc
  | Some [] => Ok acc
  | Some data =>
      standings ← extract_table data "StandingsTable";
      if negb (truthy standings) then Ok acc
      else
        l ← py_iter standings;
        rows ← traverse (standing_list_rows list_key key_name ref_col ref_key year round_num) l;
        mret (acc ++ concat rows)%list
  end.

Fixpoint standings_rounds (api : Api) (kind list_key key_name ref_col ref_key : string)
    (year : Z) (rounds : list Z) (acc : list record) : res (list record) :=
  match rounds with
  | [] => Ok acc
  | round_num :: rounds' =>
      acc' ← standings_round api kind list_key key_name ref_col ref_key year round_num acc;
      standings_rounds api kind list_key key_name ref_col ref_key year rounds' acc'
  end.

(** [range(1, 25)] *)
Definition rounds_probed : list Z := seqZ 1 24.

(** The year loop: for each year the constructor rounds, then the driver
    rounds. *)
Fixpoint standings_years (api : Api) (years : list Z)
    (acc_const acc_driver : list record) : res (list record * list record) :=
  match years with
  | [] => Ok (acc_const, acc_driver)
  | year :: years' =>
      acc_const' ← standings_rounds api "constructorStandings" "ConstructorStandings"
                     "Constructor" "constructor_ref" "constructorId"
                     year rounds_probed acc_const;
      acc_driver' ← standings_rounds api "driverStandings" "DriverStandings"
                      "Driver" "driver_ref" "driverId"
                      year rounds_probed acc_driver;
      standings_years api years' acc_const' acc_driver'
  end.

Definition extract_standings (api : Api) (start_year end_year : Z)
  : res (DataFrame * DataFrame) :=
  '(cs, ds) ← standings_years api (year_range start_year end_year) [] [];
  mret (frame_of_records cs, frame_of_records ds).

End Extract.

(** ** Exact decimal arithmetic, to compare the float computations with *)

Module Exact.

(** [duration * 1000] rounded to the nearest integer (a half goes up), on
    the exact value of an unsigned plain decimal [ddd.ddd]. *)
Definition rounded_milliseconds (text : string) : option Z :=
  let '(ip, fp) := F64.split_point text in
  let fp := default EmptyString fp in
  if (String.length ip + String.length fp =? 0)%nat then None
  else match int_digits 0 (ip ++ fp) with
       | None => None
       | Some m =>
           let scale := 10 ^ Z.of_nat (String.length fp) in
           Some ((2 * m * 1000 + scale) / (2 * scale))
       end.

End Exact.

(** ** The staging area and the database: one store of named objects *)

Module Store.

(** A file of the staging area, by its normalised path, or a table of the
    database, by its name. *)
Inductive loc : Type :=
| File (path : string)
| Table (name : string).

#[global] Instance loc_eq_dec : EqDecision loc.
Proof. solve_decision. Defined.

#[global] Instance loc_countable : Countable loc.
Proof.
  refine (inj_countable'
            (fun l => match l with File p => inl p | Table n => inr n end)
            (fun x => match x with inl p => File p | inr n => Table n end) _).
  intros [p | n]; reflexivity.
Defined.

(** The text of a file, or the rows of a table. *)
Inductive obj : Type :=
| Text (t : string)
| Rows (df : DataFrame).

Abbreviation store := (gmap loc obj).

(** How a method ends: it returns, it raises, or (in the model only) a loop
    ran out of fuel. *)
Inductive ending : Type :=
| Finished
| Failed (e : exn)
| OutOfFuel.

Definition writes : Type := list (loc * obj).

Definition apply_writes (ws : writes) (s : store) : store :=
  fold_left (fun s kv => <[kv.1 := kv.2]> s) ws s.

(** One method of the pipeline: what it writes, in order, and how it ends,
    as a function of the store it runs in. *)
Definition act : Type := store -> writes * ending.

(** Methods called one after the other; an exception ends the sequence,
    and what was written before it stays written. *)
Fixpoint run (p : list act) (s : store) : store * ending :=
  match p with
  | [] => (s, Finished)
  | a :: p' =>
      let s' := apply_writes (a s).1 s in
      match (a s).2 with
      | Finished => run p' s'
      | e => (s', e)
      end
  end.

(** What a method may read and what it may write. *)
Record footprint : Type := { fp_reads : list loc; fp_writes : list loc }.

Definition respects (a : act) (fp : footprint) : Prop :=
  (forall s s' : store, (forall k, k ∈ fp_reads fp -> s !! k = s' !! k) -> a s = a s') /\
  (forall (s : store) k v, (k, v) ∈ (a s).1 -> k ∈ fp_writes fp).

Definition all_writes (fps : list footprint) : list loc := concat (map fp_writes fps).

Definition disjointb (xs ys : list loc) : bool :=
  forallb (fun x => negb (bool_decide (x ∈ ys))) xs.

(** No method reads a location that it, or a method after it, may write. *)
Fixpoint hazard_free (fps : list footprint) : bool :=
  match fps with
  | [] => true
  | fp :: rest =>
      disjointb (fp_reads fp) (fp_writes fp ++ concat (map fp_writes rest))
      && hazard_free rest
  end.

(** *** Paths *)

Fixpoint split_slash (s cur : string) : list string :=
  match s with
  | EmptyString => [cur]
  | String c s' =>
      if Ascii.eqb c "/" then cur :: split_slash s' EmptyString
      else split_slash s' (cur ++ String c EmptyString)
  end.

(** The components kept so far, last first. *)
Definition norm_step (stack : list string) (comp : string) : list string :=
  if String.eqb comp ".." then
    match stack with
    | top :: rest => if String.eqb top ".." then comp :: stack else rest
    | [] => [comp]
    end
  else if String.eqb comp "" || String.eqb comp "." then stack
  else comp :: stack.

Fixpoint join_slash (comps : list string) : string :=
  match comps with
  | [] => EmptyString
  | [c] => c
  | c :: rest => c ++ "/" ++ join_slash rest
  end.

(** The file a relative path names: [a/b/../c] is [a/c]. *)
Definition normpath (path : string) : string :=
  join_slash (rev (fold_left norm_step (split_slash path EmptyString) [])).

(** [f"{dir}{name}"] as a location. *)
Definition csv (dir name : string) : loc := File (normpath (dir ++ name)).

End Store.

Import Store.

(** ** The three stages over the store

    [pd.read_csv], [DataFrame.to_csv], [pd.to_datetime], the [.dt.date]
    accessor, the database connection and the upstream snapshot are the
    collaborators of the pipeline: the methods are modelled for any of them. *)

Module Pipeline.

(** [run_pipeline.py] lines 25 and 33-36; [load_data.py] lines 15-17. *)
Definition raw_path : string := "data/raw/".
Definition processed_path : string := "data/processed/".

Definition raw (name : string) : loc := csv raw_path name.
Definition processed (name : string) : loc := csv processed_path name.

Section Stages.

Variable read_csv : string -> res DataFrame.
Variable to_csv : DataFrame -> string.
Variable to_datetime : Series -> Series.
Variable dt_date : Series -> Series.
Variable connect : res unit.
Variable api : Extract.Api.
Variable fuel : nat.

(** [pd.read_csv(path)] *)
Definition pd_read_csv (s : store) (path : loc) : res DataFrame :=
  match s !! path with
  | Some (Text t) => read_csv t
  | _ => Raise FileNotFoundError
  end.

(** [not os.path.exists(path) or os.path.getsize(path) < 10] *)
Definition missing_or_small (s : store) (path : loc) : bool :=
  match s !! path with
  | Some (Text t) => (String.length t <? 10)%nat
  | _ => true
  end.

(** [df.to_csv(path, index=False)] *)
Definition write_frame (path : loc) (df : DataFrame) : writes :=
  [(path, Text (to_csv df))].

(** A method that computes a frame and writes it last. *)
Definition finish (path : loc) (r : res DataFrame) : writes * ending :=
  match r with
  | Ok df => (write_frame path df, Finished)
  | Raise e => ([], Failed e)
  end.

(** The same for an extractor, whose loops run on fuel. *)
Definition finish_run (path : loc) (r : Extract.run DataFrame) : writes * ending :=
  match r with
  | Some r' => finish path r'
  | None => ([], OutOfFuel)
  end.

(** *** [F1DataExtractor] *)

Definition extract_circuits : act :=
  fun _ => finish_run (raw "circuits.csv") (Extract.extract_circuits api fuel).

Definition extract_seasons : act :=
  fun _ =>
    match Extract.extract_seasons api with
    | Ok (Some df) => (write_frame (raw "seasons.csv") df, Finished)
    | Ok None => ([], Finished)
    | Raise e => ([], Failed e)
    end.

Definition extract_constructors : act :=
  fun _ => finish_run (raw "constructors.csv") (Extract.extract_constructors api fuel).

Definition extract_drivers : act :=
  fun _ => finish_run (raw "drivers.csv") (Extract.extract_drivers api fuel).

Definition extract_races (start_year end_year : Z) : act :=
  fun _ => finish_run (raw "races.csv") (Extract.extract_races api fuel start_year end_year).

Definition extract_results (start_year end_year : Z) : act :=
  fun _ => finish_run (raw "results.csv")
             (Extract.extract_results api fuel start_year end_year).

Definition extract_qualifying (start_year end_year : Z) : act :=
  fun _ => finish_run (raw "qualifying.csv")
             (Extract.extract_qualifying api fuel start_year end_year).

Definition extract_pit_stops (start_year end_year : Z) : act :=
  fun _ => finish_run (raw "pit_stops.csv")
             (Extract.extract_pit_stops api fuel start_year end_year).

Definition extract_standings (start_year end_year : Z) : act :=
  fun _ =>
    match Extract.extract_standings api start_year end_year with
    | Ok (df_const, df_driver) =>
        ((write_frame (raw "constructor_standings.csv") df_const
          ++ write_frame (raw "driver_standings.csv") df_driver)%list, Finished)
    | Raise e => ([], Failed e)
    end.

(** [extract_all], lines 489-498. *)
Definition extract_all (start_year end_year : Z) : list act :=
  [extract_circuits; extract_seasons; extract_constructors; extract_drivers;
   extract_races start_year end_year; extract_results start_year end_year;
   extract_qualifying start_year end_year;
   extract_pit_stops (Z.max 2012 start_year) end_year;
   extract_standings start_year end_year].

(** *** [F1DataTransformer] *)

(** Lines 19-44. *)
Definition transform_circuits : act :=
  fun s =>
    let path := raw "circuits.csv" in
    if missing_or_small s path then
      (write_frame (processed "circuits_clean.csv") empty_frame, Finished)
    else
      finish (processed "circuits_clean.csv")
        (df ← pd_read_csv s path; Steps.circuits_frame df).

Definition drivers_required_cols : list string :=
  ["driver_id"; "driver_ref"; "driver_number"; "code"; "forename"; "surname";
   "dob"; "nationality"; "url"].

(** Lines 72-74. *)
Definition add_missing_column (df : DataFrame) (col : string) : DataFrame :=
  if df_has col df then df
  else df_fill col (if String.eqb col "code" || String.eqb col "url" then Str "" else NaN) df.

(** Lines 50-76. *)
Definition drivers_frame (df : DataFrame) : res DataFrame :=
  let df := Steps.ensure_ids "driver_id" df in
  let df := match df_lookup "dob" df with
            | Some d => df_set "dob" (to_datetime d) df
            | None => df
            end in
  df ← match df_lookup "driver_number" df with
       | Some n => n' ← astype_int (fillna (Int 0) n); mret (df_set "driver_number" n' df)
       | None => mret (df_fill "driver_number" (Int 0) df)
       end;
  let df := fold_left add_missing_column drivers_required_cols df in
  df_select drivers_required_cols df.

(** Lines 46-79. *)
Definition transform_drivers : act :=
  fun s =>
    finish (processed "drivers_clean.csv")
      (df ← pd_read_csv s (raw "drivers.csv"); drivers_frame df).

(** Lines 85-109. *)
Definition races_frame (circuits : res DataFrame) (df : DataFrame) : res DataFrame :=
  let df := match df_lookup "race_date" df with
            | Some d => df_set "race_date" (to_datetime d) df
            | None => df
            end in
  let df := Steps.fill_or_create (Str "00:00:00") df "race_time" in
  let df := Steps.resolve_circuit circuits df in
  Steps.assign_race_id df.

(** Lines 81-113. *)
Definition transform_races : act :=
  fun s =>
    finish (processed "races_clean.csv")
      (df ← pd_read_csv s (raw "races.csv");
       races_frame (pd_read_csv s (raw "circuits.csv")) df).

(** Lines 115-192. *)
Definition transform_results : act :=
  fun s =>
    let path := raw "results.csv" in
    if missing_or_small s path then
      (write_frame (processed "results_clean.csv") empty_frame, Finished)
    else
      finish (processed "results_clean.csv")
        (df ← pd_read_csv s path;
         Steps.results_frame (pd_read_csv s (raw "drivers.csv"))
           (pd_read_csv s (raw "constructors.csv")) df).

(** Lines 194-230. *)
Definition transform_qualifying : act :=
  fun s =>
    finish (processed "qualifying_clean.csv")
      (df ← pd_read_csv s (raw "qualifying.csv");
       Steps.qualifying_frame (pd_read_csv s (raw "drivers.csv"))
         (pd_read_csv s (raw "constructors.csv")) df).

(** Lines 232-272. *)
Definition transform_pit_stops : act :=
  fun s =>
    let path := raw "pit_stops.csv" in
    if missing_or_small s path then
      (write_frame (processed "pit_stops_clean.csv") empty_frame, Finished)
    else
      finish (processed "pit_stops_clean.csv")
        (df ← pd_read_csv s path;
         Steps.pit_stops_frame (pd_read_csv s (raw "drivers.csv")) df).

(** One half of [transform_standings] (lines 276-301 and 303-328): the
    writes it makes, or the exception it raises. *)
Definition standings_part (s : store) (input output : loc)
    (frame : DataFrame -> res DataFrame) : res writes :=
  df ← (if missing_or_small s input then mret empty_frame else pd_read_csv s input);
  if negb (df_empty df) then df' ← frame df; mret (write_frame output df')
  else mret [].

(** Lines 274-330. *)
Definition transform_standings : act :=
  fun s =>
    match standings_part s (raw "constructor_standings.csv")
            (processed "constructor_standings_clean.csv")
            (Steps.constructor_standings_frame (pd_read_csv s (raw "constructors.csv"))) with
    | Raise e => ([], Failed e)
    | Ok ws_const =>
        match standings_part s (raw "driver_standings.csv")
                (processed "driver_standings_clean.csv")
                (Steps.driver_standings_frame (pd_read_csv s (raw "drivers.csv"))) with
        | Raise e => (ws_const, Failed e)
        | Ok ws_driver => ((ws_const ++ ws_driver)%list, Finished)
        end
    end.

(** [transform_all], lines 337-344. *)
Definition transform_all : list act :=
  [transform_circuits; transform_drivers; transform_races; transform_results;
   transform_qualifying; transform_pit_stops; transform_standings].

(** *** [F1DataLoader] *)

(** [__init__] and [_connect], lines 22-55. *)
Definition connect_database : act :=
  fun _ =>
    match connect with
    | Ok _ => ([], Finished)
    | Raise e => ([], Failed e)
    end.

(** [_load_table], lines 57-75, on the default (SQLite) configuration: an
    empty frame is skipped, any other replaces the table. *)
Definition load_table (df : DataFrame) (table_name : string) : writes :=
  if df_empty df then [] else [(Table table_name, Rows df)].

(** A loader that reads one file, prepares the frame and loads it. *)
Definition load_from (path : loc) (prepare : DataFrame -> DataFrame)
    (table_name : string) : act :=
  fun s =>
    match pd_read_csv s path with
    | Ok df => (load_table (prepare df) table_name, Finished)
    | Raise e => ([], Failed e)
    end.

(** [pd.to_datetime(df[col], errors='coerce').dt.date] when the column is
    there. *)
Definition column_to_date (col : string) (df : DataFrame) : DataFrame :=
  match df_lookup col df with
  | Some d => df_set col (dt_date (to_datetime d)) df
  | None => df
  end.

(** [df[col] = df[col].fillna('00:00:00')] when the column is there. *)
Definition fill_time (col : string) (df : DataFrame) : DataFrame :=
  match df_lookup col df with
  | Some t => df_set col (fillna (Str "00:00:00") t) df
  | None => df
  end.

Definition load_circuits : act :=
  load_from (processed "circuits_clean.csv") id "circuits".

Definition load_seasons : act :=
  load_from (processed "../raw/seasons.csv") id "seasons".

Definition load_constructors : act :=
  load_from (processed "../raw/constructors.csv") id "constructors".

Definition load_drivers : act :=
  load_from (processed "drivers_clean.csv") (column_to_date "dob") "drivers".

Definition load_races : act :=
  load_from (processed "races_clean.csv")
    (fun df => fill_time "race_time" (column_to_date "race_date" df)) "races".

Definition load_results : act :=
  load_from (processed "results_clean.csv")
    (df_select_present
       ["race_id"; "driver_id"; "constructor_id"; "number"; "grid";
        "position"; "position_text"; "position_order"; "points"; "laps";
        "time_result"; "milliseconds"; "fastest_lap"; "fastest_lap_rank";
        "fastest_lap_time"; "fastest_lap_speed"; "status_id"])
    "results".

Definition load_qualifying : act :=
  load_from (processed "qualifying_clean.csv")
    (df_select_present
       ["race_id"; "driver_id"; "constructor_id"; "number"; "position"; "q1"; "q2"; "q3"])
    "qualifying".

Definition load_pit_stops : act :=
  load_from (processed "pit_stops_clean.csv")
    (fun df => df_select_present
                 ["race_id"; "driver_id"; "stop"; "lap"; "time_of_day"; "duration";
                  "milliseconds"]
                 (fill_time "time_of_day" df))
    "pit_stops".

(** Lines 156-168: the constructor table is loaded before the driver file
    is read. *)
Definition load_standings : act :=
  fun s =>
    match pd_read_csv s (processed "constructor_standings_clean.csv") with
    | Raise e => ([], Failed e)
    | Ok df_const =>
        let ws_const :=
          load_table
            (df_select_present
               ["race_id"; "constructor_id"; "points"; "position"; "position_text"; "wins"]
               df_const)
            "constructor_standings" in
        match pd_read_csv s (processed "driver_standings_clean.csv") with
        | Raise e => (ws_const, Failed e)
        | Ok df_driver =>
            ((ws_const ++
              load_table
                (df_select_present
                   ["race_id"; "driver_id"; "points"; "position"; "position_text"; "wins"]
                   df_driver)
                "driver_standings")%list, Finished)
        end
    end.

(** [F1DataLoader()] followed by [load_all], lines 176-185. *)
Definition load_all : list act :=
  [connect_database; load_seasons; load_circuits; load_constructors; load_drivers;
   load_races; load_results; load_qualifying; load_pit_stops; load_standings].

(** *** [run_full_pipeline], [run_pipeline.py] lines 11-51 *)

Definition pipeline (start_year end_year : Z)
    (skip_extract skip_transform skip_load : bool) : list act :=
  ((if skip_extract then [] else extract_all start_year end_year)
   ++ (if skip_transform then [] else transform_all)
   ++ (if skip_load then [] else load_all))%list.

Definition run_full_pipeline (start_year end_year : Z)
    (skip_extract skip_transform skip_load : bool) (s : store) : store * ending :=
  run (pipeline start_year end_year skip_extract skip_transform skip_load) s.

End Stages.

(** *** What each method reads and writes *)

Definition writes_only (ws : list loc) : footprint :=
  {| fp_reads := []; fp_writes := ws |}.

Definition extract_footprints : list footprint :=
  [writes_only [raw "circuits.csv"]; writes_only [raw "seasons.csv"];
   writes_only [raw "constructors.csv"]; writes_only [raw "drivers.csv"];
   writes_only [raw "races.csv"]; writes_only [raw "results.csv"];
   writes_only [raw "qualifying.csv"]; writes_only [raw "pit_stops.csv"];
   writes_only [raw "constructor_standings.csv"; raw "driver_standings.csv"]].

Definition transform_footprints : list footprint :=
  [{| fp_reads := [raw "circuits.csv"];
      fp_writes := [processed "circuits_clean.csv"] |};
   {| fp_reads := [raw "drivers.csv"];
      fp_writes := [processed "drivers_clean.csv"] |};
   {| fp_reads := [raw "races.csv"; raw "circuits.csv"];
      fp_writes := [processed "races_clean.csv"] |};
   {| fp_reads := [raw "results.csv"; raw "drivers.csv"; raw "constructors.csv"];
      fp_writes := [processed "results_clean.csv"] |};
   {| fp_reads := [raw "qualifying.csv"; raw "drivers.csv"; raw "constructors.csv"];
      fp_writes := [processed "qualifying_clean.csv"] |};
   {| fp_reads := [raw "pit_stops.csv"; raw "drivers.csv"];
      fp_writes := [processed "pit_stops_clean.csv"] |};
   {| fp_reads := [raw "constructor_standings.csv"; raw "constructors.csv";
                   raw "driver_standings.csv"; raw "drivers.csv"];
      fp_writes := [processed "constructor_standings_clean.csv";
                    processed "driver_standings_clean.csv"] |}].

Definition load_footprints : list footprint :=
  [writes_only [];
   {| fp_reads := [raw "seasons.csv"]; fp_writes := [Table "seasons"] |};
   {| fp_reads := [processed "circuits_clean.csv"]; fp_writes := [Table "circuits"] |};
   {| fp_reads := [raw "constructors.csv"]; fp_writes := [Table "constructors"] |};
   {| fp_reads := [processed "drivers_clean.csv"]; fp_writes := [Table "drivers"] |};
   {| fp_reads := [processed "races_clean.csv"]; fp_writes := [Table "races"] |};
   {| fp_reads := [processed "results_clean.csv"]; fp_writes := [Table "results"] |};
   {| fp_reads := [processed "qualifying_clean.csv"]; fp_writes := [Table "qualifying"] |};
   {| fp_reads := [processed "pit_stops_clean.csv"]; fp_writes := [Table "pit_stops"] |};
   {| fp_reads := [processed "constructor_standings_clean.csv";
                   processed "driver_standings_clean.csv"];
      fp_writes := [Table "constructor_standings"; Table "driver_standings"] |}].

Definition pipeline_footprints (skip_extract skip_transform skip_load : bool)
  : list footprint :=
  ((if skip_extract then [] else extract_footprints)
   ++ (if skip_transform then [] else transform_footprints)
   ++ (if skip_load then [] else load_footprints))%list.

End Pipeline.

(** ** scripts/load_data.py and scripts/run_queries.py: the connection string *)

Module Database.

(** A value of the configuration dictionary: a text or an integer, as
    [config.example.py] has them. *)
Inductive value : Type :=
| VStr (s : string)
| VInt (z : Z).

Definition config : Type := list (string * value).

(** [config.get(k)] *)
Fixpoint lookup_key (k : string) (c : config) : option value :=
  match c with
  | [] => None
  | (k', v) :: c' => if String.eqb k k' then Some v else lookup_key k c'
  end.

(** [k in config] *)
Definition has_key (c : config) (k : string) : bool :=
  match lookup_key k c with Some _ => true | None => false end.

(** [config[k]] *)
Definition item (c : config) (k : string) : res value :=
  match lookup_key k c with
  | Some v => Ok v
  | None => Raise KeyError
  end.

(** A value inside an f-string. *)
Definition format (v : value) : string :=
  match v with
  | VStr s => s
  | VInt z => str z
  end.

(** [config.get('type') == 'sqlite'] *)
Definition is_sqlite (c : config) : bool :=
  match lookup_key "type" c with
  | Some (VStr s) => String.eqb s "sqlite"
  | _ => false
  end.

(** [load_data.py] lines 31-42 and [run_queries.py] lines 25-32. *)
Definition connection_string (c : config) : res string :=
  if is_sqlite c then
    Ok ("sqlite:///" ++ format (default (VStr "f1_analytics.db") (lookup_key "filename" c)))
  else
    user ← item c "user";
    password ← item c "password";
    host ← item c "host";
    port ← item c "port";
    database ← item c "database";
    mret ("mysql+pymysql://" ++ format user ++ ":" ++ format password ++ "@"
          ++ format host ++ ":" ++ format port ++ "/" ++ format database).

(** The settings used when [config.py] cannot be imported: [load_data.py]
    lines 11-14 and [run_queries.py] lines 10-16. *)
Definition loader_default : config :=
  [("type", VStr "sqlite"); ("filename", VStr "f1_analytics.db")].

Definition queries_default : config :=
  [("host", VStr "localhost"); ("port", VInt 3306); ("user", VStr "root");
   ("password", VStr "your_password"); ("database", VStr "F1_RedBull_Analytics")].

End Database.

(** ** Staged tables used as concrete inputs *)

Module Fixtures.

(** [drivers.csv] as [extract_drivers] writes it. *)
Definition drivers : DataFrame :=
  [("driver_id", [Int 1; Int 2]);
   ("driver_ref", [Str "max_verstappen"; Str "perez"]);
   ("driver_number", [NaN; NaN]);
   ("code", [Str "VER"; Str "PER"]);
   ("forename", [Str "Max"; Str "Sergio"]);
   ("surname", [Str "Verstappen"; Str "Perez"]);
   ("dob", [Str "1997-09-30"; Str "1990-01-26"]);
   ("nationality", [Str "Dutch"; Str "Mexican"]);
   ("url", [Str "http://example.com/ver"; Str "http://example.com/per"])].

(** The same table without its surrogate column. *)
Definition drivers_without_ids : DataFrame := tail drivers.

(** [constructors.csv] as [extract_constructors] writes it. *)
Definition constructors : DataFrame :=
  [("constructor_id", [Int 1; Int 2]);
   ("constructor_ref", [Str "red_bull"; Str "ferrari"]);
   ("constructor_name", [Str "Red Bull"; Str "Ferrari"]);
   ("nationality", [Str "Austrian"; Str "Italian"]);
   ("url", [Str "http://example.com/rb"; Str "http://example.com/fe"])].

(** The same table without its surrogate column. *)
Definition constructors_without_ids : DataFrame := tail constructors.

(** [circuits.csv] as [extract_circuits] writes it: no surrogate column. *)
Definition circuits : DataFrame :=
  [("circuit_ref", [Str "bahrain"; Str "silverstone"]);
   ("circuit_name", [Str "Bahrain International Circuit"; Str "Silverstone Circuit"]);
   ("location", [Str "Sakhir"; Str "Silverstone"]);
   ("country", [Str "Bahrain"; Str "UK"]);
   ("lat", [NaN; NaN]);
   ("lng", [NaN; NaN]);
   ("altitude", [NaN; NaN]);
   ("url", [Str "http://example.com/bah"; Str "http://example.com/sil"])].

(** Three rows of [results.csv] with the columns [extract_results] writes:
    a known driver, a driver that is not in [drivers.csv], and a
    non-classified finisher. *)
Definition results : DataFrame :=
  [("race_id", [Int 202401; Int 202401; Int 202401]);
   ("driver_ref", [Str "max_verstappen"; Str "unknown_driver"; Str "perez"]);
   ("constructor_ref", [Str "red_bull"; Str "ferrari"; Str "red_bull"]);
   ("number", [Int 1; Int 16; Int 11]);
   ("grid", [Int 1; Int 2; Int 5]);
   ("position", [Int 1; Int 2; NaN]);
   ("position_text", [Str "1"; Str "2"; Str "R"]);
   ("position_order", [Int 1; Int 2; Int 999]);
   ("points", [Int 25; Int 18; Int 0]);
   ("laps", [Int 57; Int 57; Int 12]);
   ("time_result", [Str "1:31:44.742"; Str "+22.457"; NaN]);
   ("milliseconds", [Int 5504742; Int 5527199; NaN]);
   ("fastest_lap", [Int 39; Int 36; NaN]);
   ("fastest_lap_rank", [Int 1; Int 2; NaN]);
   ("fastest_lap_time", [Str "1:32.608"; Str "1:34.090"; NaN]);
   ("fastest_lap_speed", [Str "210.383"; Str "207.069"; NaN]);
   ("status", [Str "Finished"; Str "Finished"; Str "Gearbox"])].

(** Two rows of [races.csv] without the [race_id] column. *)
Definition races : DataFrame :=
  [("year", [Int 2024; Int 2024]);
   ("round", [Int 1; Int 10]);
   ("circuit_ref", [Str "bahrain"; Str "unknown_circuit"]);
   ("race_name", [Str "Bahrain Grand Prix"; Str "Somewhere Grand Prix"])].

(** A duration as [pd.read_csv] holds it: the float its text denotes. *)
Definition seconds (text : string) : cell :=
  match F64.parse text with
  | Ok x => Flt x
  | Raise _ => NaN
  end.

(** Two pit stops of [pit_stops.csv] as [extract_pit_stops] writes them. *)
Definition pit_stops : DataFrame :=
  [("race_id", [Int 202401; Int 202401]);
   ("driver_ref", [Str "max_verstappen"; Str "perez"]);
   ("stop", [Int 1; Int 1]);
   ("lap", [Int 12; Int 14]);
   ("time_of_day", [Str "15:05:16"; Str "15:08:02"]);
   ("duration", [seconds "16.002"; seconds "21.5"]);
   ("milliseconds", [Int 16001; Int 21500])].

(** The same stops staged without a [milliseconds] column. *)
Definition pit_stops_without_milliseconds : DataFrame :=
  [("race_id", [Int 202401; Int 202401]);
   ("driver_ref", [Str "max_verstappen"; Str "perez"]);
   ("stop", [Int 1; Int 1]);
   ("lap", [Int 12; Int 14]);
   ("time_of_day", [Str "15:05:16"; Str "15:08:02"]);
   ("duration", [seconds "16.002"; seconds "21.5"])].

(** One pit stop of the API. *)
Definition pit_stop_json (duration : string) : Extract.json :=
  Extract.JDict [("driverId", Extract.JStr "max_verstappen");
                 ("stop", Extract.JStr "1"); ("lap", Extract.JStr "12");
                 ("time", Extract.JStr "15:05:16");
                 ("duration", Extract.JStr duration)].

(** One circuit of the API. *)
Definition circuit_json (ref name : string) : Extract.json :=
  Extract.JDict [("circuitId", Extract.JStr ref);
                 ("url", Extract.JStr "http://example.com/circuit");
                 ("circuitName", Extract.JStr name);
                 ("Location", Extract.JDict [("lat", Extract.JStr "26.0325");
                                             ("long", Extract.JStr "50.5106");
                                             ("locality", Extract.JStr "Sakhir");
                                             ("country", Extract.JStr "Bahrain")])].

(** A response whose table is keyed [CircuitTable], as the API names it. *)
Definition circuits_page (items : list Extract.json) : Extract.response :=
  [("MRData", Extract.JDict
      [("limit", Extract.JStr "2");
       ("CircuitTable", Extract.JDict [("Circuits", Extract.JList items)])])].

(** A snapshot with pages of two circuits: a full page, then a time-out. *)
Definition api_failing : Extract.Api :=
  fun endpoint limit offset =>
    if String.eqb endpoint "circuits" then
      if offset =? 0 then
        Some (circuits_page [circuit_json "bahrain" "Bahrain International Circuit";
                             circuit_json "jeddah" "Jeddah Corniche Circuit"])
      else None
    else None.

(** A snapshot with a full page, then a page of one circuit. *)
Definition api_short : Extract.Api :=
  fun endpoint limit offset =>
    if String.eqb endpoint "circuits" then
      if offset =? 0 then
        Some (circuits_page [circuit_json "bahrain" "Bahrain International Circuit";
                             circuit_json "jeddah" "Jeddah Corniche Circuit"])
      else if offset =? 2 then
        Some (circuits_page [circuit_json "albert_park" "Albert Park"])
      else Some (circuits_page [])
    else None.

(** [results] without its last column, [status]. *)
Definition results_without_status : DataFrame := take 16 results.

(** A snapshot that answers every request with the same page of two
    circuits, whatever the offset. *)
Definition api_same_page : Extract.Api :=
  fun _ _ _ =>
    Some (circuits_page [circuit_json "bahrain" "Bahrain International Circuit";
                         circuit_json "jeddah" "Jeddah Corniche Circuit"]).

(** An upstream that answers no request. *)
Definition api_down : Extract.Api := fun _ _ _ => None.

(** A snapshot with two constructors on one page. *)
Definition api_constructors : Extract.Api :=
  fun endpoint limit offset =>
    if String.eqb endpoint "constructors" then
      Some [("MRData", Extract.JDict
              [("ConstructorTable", Extract.JDict
                 [("Constructors", Extract.JList
                    [Extract.JDict [("constructorId", Extract.JStr "red_bull");
                                    ("name", Extract.JStr "Red Bull");
                                    ("nationality", Extract.JStr "Austrian")];
                     Extract.JDict [("constructorId", Extract.JStr "ferrari");
                                    ("name", Extract.JStr "Ferrari");
                                    ("nationality", Extract.JStr "Italian")]])])])]
    else None.

(** One race of a qualifying page, with one classified driver. *)
Definition qualifying_race_json : Extract.json :=
  Extract.JDict
    [("season", Extract.JStr "2024"); ("round", Extract.JStr "3");
     ("QualifyingResults", Extract.JList
        [Extract.JDict [("number", Extract.JStr "1"); ("position", Extract.JStr "1");
                        ("Driver", Extract.JDict [("driverId", Extract.JStr "max_verstappen")]);
                        ("Constructor", Extract.JDict [("constructorId", Extract.JStr "red_bull")]);
                        ("Q1", Extract.JStr "1:16.819")]])].

(** A snapshot whose pit stops of 2023 hold a stop of more than a minute,
    written with a colon. *)
Definition api_long_stop : Extract.Api :=
  fun endpoint limit offset =>
    if String.eqb endpoint "2023/pitstops" then
      Some [("MRData", Extract.JDict
              [("RaceTable", Extract.JDict
                 [("season", Extract.JStr "2023");
                  ("Races", Extract.JList
                     [Extract.JDict
                        [("round", Extract.JStr "14");
                         ("PitStops", Extract.JList
                            [pit_stop_json "23.114"; pit_stop_json "1:02.345"])]])])])]
    else None.

(** A decimal as [pd.read_csv] holds it: the float its text denotes. *)
Definition decimal (text : string) : cell := seconds text.

(** One result of a race with half points, as [pd.read_csv] holds it. *)
Definition half_points_result : DataFrame :=
  [("race_id", [Int 202112]);
   ("driver_ref", [Str "max_verstappen"]);
   ("constructor_ref", [Str "red_bull"]);
   ("position", [Int 1]);
   ("points", [decimal "12.5"])].

(** One race of the API without a start time, and one with it. *)
Definition race_json (time : option string) : Extract.json :=
  Extract.JDict
    ([("season", Extract.JStr "2024"); ("round", Extract.JStr "3");
      ("raceName", Extract.JStr "Australian Grand Prix");
      ("Circuit", Extract.JDict [("circuitId", Extract.JStr "albert_park")]);
      ("date", Extract.JStr "2024-03-24")]
     ++ match time with
        | Some t => [("time", Extract.JStr t)]
        | None => []
        end)%list.

(** One result of the API that carries no status. *)
Definition result_json : Extract.json :=
  Extract.JDict
    [("number", Extract.JStr "1"); ("position", Extract.JStr "1");
     ("positionText", Extract.JStr "1"); ("points", Extract.JStr "25");
     ("Driver", Extract.JDict [("driverId", Extract.JStr "max_verstappen")]);
     ("Constructor", Extract.JDict [("constructorId", Extract.JStr "red_bull")]);
     ("grid", Extract.JStr "1"); ("laps", Extract.JStr "58")].

(** A stand-in for [pd.read_csv]: a file that holds one column name and no
    row. *)
Definition read_header (text : string) : res DataFrame := Ok [(text, [])].

(** A stand-in for [DataFrame.to_csv]: the header line only. *)
Definition csv_text (df : DataFrame) : string :=
  String.concat "," (columns df) ++ String (ascii_of_nat 10) EmptyString.

End Fixtures.

(** * Properties *)

(** ** Decimal text of integers *)

Section Decimal.

Lemma string_app_cons (c : ascii) (s t : string) :
  String c s ++ t = String c (s ++ t).
Proof. reflexivity. Qed.

Lemma string_app_nil (t : string) : "" ++ t = t.
Proof. reflexivity. Qed.

Lemma string_app_assoc (s t u : string) : (s ++ t) ++ u = s ++ (t ++ u).
Proof.
  induction s as [| c s IH]; [reflexivity |].
  rewrite !string_app_cons, IH. reflexivity.
Qed.

Lemma int_digits_cons (a : Z) (c : ascii) (s : string) :
  int_digits a (String c s) =
  match digit_val c with
  | Some d => int_digits (10 * a + d) s
  | None => None
  end.
Proof. reflexivity. Qed.

Lemma digit_val_char (d : Z) : 0 <= d < 10 -> digit_val (digit_char d) = Some d.
Proof.
  intros Hd.
  assert (Hcases : d = 0 \/ d = 1 \/ d = 2 \/ d = 3 \/ d = 4 \/ d = 5 \/ d = 6 \/
                   d = 7 \/ d = 8 \/ d = 9) by lia.
  repeat (destruct Hcases as [-> | Hcases]; [reflexivity |]).
  subst d. reflexivity.
Qed.

Lemma digit_val_not_sign (c : ascii) (d : Z) :
  digit_val c = Some d -> Ascii.eqb c "-" = false /\ Ascii.eqb c "+" = false.
Proof.
  intros H. split.
  - destruct (Ascii.eqb_spec c "-") as [-> | _]; [discriminate H | reflexivity].
  - destruct (Ascii.eqb_spec c "+") as [-> | _]; [discriminate H | reflexivity].
Qed.

Lemma int_digits_app (s t : string) (a : Z) :
  int_digits a (s ++ t) =
  match int_digits a s with Some b => int_digits b t | None => None end.
Proof.
  revert a. induction s as [| c s IH]; intros a.
  - rewrite string_app_nil. reflexivity.
  - rewrite string_app_cons, !int_digits_cons.
    destruct (digit_val c); [apply IH | reflexivity].
Qed.

Lemma digits_aux_app (fuel : nat) (n : Z) (acc : string) :
  digits_aux fuel n acc = digits_aux fuel n "" ++ acc.
Proof.
  revert n acc. induction fuel as [| fuel IH]; intros n acc; [reflexivity |].
  cbn [digits_aux]. cbv zeta.
  destruct (n / 10 =? 0); [reflexivity |].
  rewrite IH. rewrite (IH _ (String _ "")).
  rewrite string_app_assoc. reflexivity.
Qed.

(** Reading back what [digits_aux] wrote resumes with the number written. *)
Lemma int_digits_digits_aux (fuel : nat) (n : Z) (acc : string) :
  0 <= n < 2 ^ Z.of_nat fuel ->
  int_digits 0 (digits_aux fuel n acc) = int_digits n acc.
Proof.
  revert n acc. induction fuel as [| fuel IH]; intros n acc Hn.
  - change (2 ^ Z.of_nat 0) with 1 in Hn.
    assert (n = 0) as -> by lia. reflexivity.
  - rewrite Nat2Z.inj_succ, Z.pow_succ_r in Hn by lia.
    assert (Hmod : 0 <= n mod 10 < 10) by (apply Z.mod_pos_bound; lia).
    assert (Hdiv : n = 10 * (n / 10) + n mod 10) by (apply Z.div_mod; lia).
    cbn [digits_aux]. cbv zeta.
    destruct (Z.eqb_spec (n / 10) 0) as [Hz | Hz].
    + rewrite int_digits_cons, digit_val_char by assumption.
      f_equal. lia.
    + rewrite IH.
      * rewrite int_digits_cons, digit_val_char by assumption. f_equal. lia.
      * split; [apply Z.div_pos; lia |].
        apply Z.div_lt_upper_bound; lia.
Qed.

Lemma log2_fuel (n : Z) : 0 <= n -> n < 2 ^ Z.of_nat (S (Z.to_nat (Z.log2 n))).
Proof.
  intros Hn. rewrite Nat2Z.inj_succ, Z2Nat.id by apply Z.log2_nonneg.
  destruct (Z.eq_dec n 0) as [-> | Hne]; [reflexivity |].
  apply Z.log2_spec. lia.
Qed.

Lemma int_digits_str_nonneg (n : Z) (t : string) :
  0 <= n -> int_digits 0 (str_nonneg n ++ t) = int_digits n t.
Proof.
  intros Hn. unfold str_nonneg. rewrite <- digits_aux_app.
  apply int_digits_digits_aux. split; [assumption | apply log2_fuel; assumption].
Qed.

Lemma str_nonneg_head (n : Z) :
  0 <= n ->
  exists c rest d, str_nonneg n = String c rest /\ digit_val c = Some d.
Proof.
  intros Hn. unfold str_nonneg.
  generalize (Z.to_nat (Z.log2 n)) as fuel. intros fuel.
  assert (Hgen : forall f m acc c0 d0,
             0 <= m -> digit_val c0 = Some d0 ->
             exists c rest d, digits_aux f m (String c0 acc) = String c rest
                              /\ digit_val c = Some d).
  { induction f as [| f IH]; intros m acc c0 d0 Hm Hc0.
    - cbn [digits_aux]. eauto.
    - cbn [digits_aux]. cbv zeta.
      assert (0 <= m mod 10 < 10) by (apply Z.mod_pos_bound; lia).
      destruct (m / 10 =? 0).
      + eexists _, _, _. split; [reflexivity | apply digit_val_char; assumption].
      + eapply IH; [apply Z.div_pos; lia | apply digit_val_char; assumption]. }
  cbn [digits_aux]. cbv zeta.
  assert (0 <= n mod 10 < 10) by (apply Z.mod_pos_bound; lia).
  destruct (n / 10 =? 0).
  - eexists _, _, _. split; [reflexivity | apply digit_val_char; assumption].
  - eapply Hgen; [apply Z.div_pos; lia | apply digit_val_char; assumption].
Qed.

(** [int(str(n) + t)] for a non-negative [n] and digits [t]. *)
Lemma int_str_nonneg_app (n v : Z) (t : string) :
  0 <= n -> int_digits n t = Some v -> int (str n ++ t) = Ok v.
Proof.
  intros Hn Ht. unfold str.
  destruct (Z.ltb_spec n 0) as [? | _]; [lia |].
  destruct (str_nonneg_head n Hn) as (c & rest & d & Hs & Hc).
  pose proof (int_digits_str_nonneg n t Hn) as Hparse.
  rewrite Hs in *. rewrite string_app_cons in *. unfold int.
  destruct (digit_val_not_sign c d Hc) as [-> ->].
  unfold int_unsigned. rewrite Hparse, Ht. reflexivity.
Qed.

(** The two characters of a round below one hundred. *)
Lemma format_02d_table :
  forallb (fun r => String.eqb (format_02d r)
                      (String (digit_char (r / 10))
                         (String (digit_char (r mod 10)) EmptyString)))
          (seqZ 0 100) = true.
Proof. vm_compute. reflexivity. Qed.

Lemma format_02d_two_digits (r : Z) :
  0 <= r < 100 ->
  format_02d r = String (digit_char (r / 10)) (String (digit_char (r mod 10)) EmptyString).
Proof.
  intros Hr. pose proof format_02d_table as Htab.
  rewrite forallb_forall in Htab.
  apply String.eqb_eq, Htab, list_elem_of_In, elem_of_seqZ. lia.
Qed.

Lemma int_digits_two (y r : Z) :
  0 <= r < 100 -> int_digits y (format_02d r) = Some (y * 100 + r).
Proof.
  intros Hr. rewrite format_02d_two_digits by assumption.
  assert (0 <= r / 10 < 10)
    by (split; [apply Z.div_pos; lia | apply Z.div_lt_upper_bound; lia]).
  assert (0 <= r mod 10 < 10) by (apply Z.mod_pos_bound; lia).
  assert (r = 10 * (r / 10) + r mod 10) by (apply Z.div_mod; lia).
  rewrite int_digits_cons, digit_val_char by assumption.
  rewrite int_digits_cons, digit_val_char by assumption.
  cbn [int_digits]. f_equal. lia.
Qed.

End Decimal.

(** ** The race key *)

Lemma race_id_of_value (y r : Z) :
  0 <= y -> 0 <= r < 100 -> Extract.race_id_of y r = Ok (y * 100 + r).
Proof.
  intros Hy Hr. unfold Extract.race_id_of.
  apply int_str_nonneg_app; [assumption | apply int_digits_two; assumption].
Qed.

Lemma race_id_cell_value (y r : Z) :
  0 <= y -> 0 <= r < 100 ->
  Steps.race_id_cell (Int y) (Int r) = Ok (Int (y * 100 + r)).
Proof.
  intros Hy Hr. unfold Steps.race_id_cell. simpl astype_str_cell. cbv beta iota.
  change (zfill 2 (str r)) with (format_02d r).
  rewrite (int_str_nonneg_app y (y * 100 + r)); [reflexivity | assumption |].
  apply int_digits_two; assumption.
Qed.



Example race_id_2024_round_1 : Extract.race_id_of 2024 1 = Ok 202401.
Proof. reflexivity. Qed.

Example race_id_2024_round_10 : Extract.race_id_of 2024 10 = Ok 202410.
Proof. reflexivity. Qed.

(** Beyond two digits the key collides. *)
Example race_id_collision :
  Extract.race_id_of 2024 100 = Extract.race_id_of 20241 0.
Proof. reflexivity. Qed.

(** Unfolds the error monad on a known head. *)
Ltac res_step := cbn [mbind mret res_bind res_ret bind].

(** Refutes a membership in a concrete list by evaluation. *)
Ltac not_member :=
  let H := fresh in
  intros H; apply (bool_decide_eq_true_2 _) in H; vm_compute in H; discriminate H.

Ltac list_member := repeat first [apply list_elem_of_here | apply list_elem_of_further].

(** ** Frames: reading a column back after an assignment *)

Section Frames.

Lemma df_lookup_set_eq (c : string) (s : Series) (df : DataFrame) :
  df_lookup c (df_set c s df) = Some s.
Proof.
  induction df as [| [c' s'] df IH]; simpl.
  - rewrite String.eqb_refl. reflexivity.
  - destruct (String.eqb c c') eqn:E; simpl; rewrite ?E, ?String.eqb_refl; auto.
Qed.

Lemma df_lookup_set_ne (c c' : string) (s : Series) (df : DataFrame) :
  c <> c' -> df_lookup c (df_set c' s df) = df_lookup c df.
Proof.
  intros Hne. induction df as [| [c0 s0] df IH]; simpl.
  - destruct (String.eqb_spec c c'); [contradiction | reflexivity].
  - destruct (String.eqb_spec c' c0) as [-> | Hc0]; simpl.
    + destruct (String.eqb_spec c c0); [contradiction | reflexivity].
    + destruct (String.eqb_spec c c0); [reflexivity | apply IH].
Qed.

Lemma df_get_Some (c : string) (df : DataFrame) (s : Series) :
  df_lookup c df = Some s -> df_get c df = Ok s.
Proof. intros H. unfold df_get. rewrite H. reflexivity. Qed.

Lemma df_has_lookup (c : string) (df : DataFrame) :
  df_has c df = false <-> df_lookup c df = None.
Proof. unfold df_has. destruct (df_lookup c df); split; congruence. Qed.

Lemma fillna_map (v : cell) (f : cell -> cell) (s : Series) :
  fillna v (map f s) = map (fun c => if isna (f c) then v else f c) s.
Proof. unfold fillna. rewrite map_map. reflexivity. Qed.

Lemma fillna_length (v : cell) (s : Series) : length (fillna v s) = length s.
Proof. unfold fillna. apply length_map. Qed.

Lemma to_numeric_length (s : Series) : length (to_numeric s) = length s.
Proof. unfold to_numeric. apply length_map. Qed.

Lemma map_dict_length (d : gmap string cell) (s : Series) :
  length (map_dict d s) = length s.
Proof. unfold map_dict. apply length_map. Qed.

Lemma traverse_length {A B : Type} (f : A -> res B) (xs : list A) (ys : list B) :
  traverse f xs = Ok ys -> length ys = length xs.
Proof.
  revert ys. induction xs as [| x xs IH]; intros ys H; simpl in H.
  - injection H as <-. reflexivity.
  - destruct (f x) as [y | e]; simpl in H; [| discriminate].
    destruct (traverse f xs) as [ys' | e]; simpl in H; [| discriminate].
    injection H as <-. simpl. f_equal. apply IH. reflexivity.
Qed.

Lemma astype_int_length (s s' : Series) :
  astype_int s = Ok s' -> length s' = length s.
Proof. apply traverse_length. Qed.

Lemma astype_int_ints (zs : list Z) : astype_int (map Int zs) = Ok (map Int zs).
Proof.
  unfold astype_int. induction zs as [| z zs IH]; simpl; [reflexivity |].
  rewrite IH. reflexivity.
Qed.

Lemma rectangular_lookup (df : DataFrame) (c : string) (s : Series) :
  rectangular df -> df_lookup c df = Some s -> length s = df_len df.
Proof.
  unfold rectangular. generalize (df_len df) as n. intros n Hrect.
  induction Hrect as [| [c' s'] df Hlen _ IH]; simpl; [discriminate |].
  destruct (String.eqb c c'); [| exact IH].
  intros [= <-]. exact Hlen.
Qed.

Lemma df_set_shape (c : string) (s : Series) (df : DataFrame) :
  rectangular df -> length s = df_len df ->
  rectangular (df_set c s df) /\ df_len (df_set c s df) = df_len df.
Proof.
  intros Hrect Hs.
  assert (Hall : forall n, Forall (fun cs => length cs.2 = n) df -> length s = n ->
                           Forall (fun cs => length cs.2 = n) (df_set c s df)).
  { clear Hrect Hs. intros n H Hn. induction H as [| [c' s'] df' Hh Ht IH]; simpl.
    - constructor; [exact Hn | constructor].
    - destruct (String.eqb c c'); constructor; simpl; auto. }
  assert (Hlen : df_len (df_set c s df) = df_len df).
  { destruct df as [| [c' s'] df']; simpl; [exact Hs |].
    destruct (String.eqb c c'); simpl; [exact Hs | reflexivity]. }
  split; [| exact Hlen].
  unfold rectangular. rewrite Hlen. apply Hall; assumption.
Qed.

Lemma assigns_refl (touched : list string) (df : DataFrame) :
  rectangular df -> assigns touched df df.
Proof. intros H. split; [exact H | split; reflexivity]. Qed.

Lemma assigns_trans (t1 t2 : list string) (df1 df2 df3 : DataFrame) :
  assigns t1 df1 df2 -> assigns t2 df2 df3 -> assigns (t1 ++ t2) df1 df3.
Proof.
  intros (R2 & L2 & K2) (R3 & L3 & K3). split; [exact R3 |]. split; [congruence |].
  intros c Hc. rewrite elem_of_app in Hc.
  rewrite K3, K2; tauto.
Qed.

Lemma assigns_weaken (t t' : list string) (df df' : DataFrame) :
  t ⊆ t' -> assigns t df df' -> assigns t' df df'.
Proof.
  intros Hsub (R & L & K). split; [exact R | split; [exact L |]].
  intros c Hc. apply K. intros Hin. apply Hc, Hsub, Hin.
Qed.

Lemma assigns_set (c : string) (s : Series) (df : DataFrame) :
  rectangular df -> length s = df_len df -> assigns [c] df (df_set c s df).
Proof.
  intros Hrect Hs. destruct (df_set_shape c s df Hrect Hs) as [R L].
  split; [exact R | split; [exact L |]].
  intros c' Hc'. apply df_lookup_set_ne. intros ->. apply Hc'. list_member.
Qed.

Lemma assigns_fill (c : string) (v : cell) (df : DataFrame) :
  rectangular df -> assigns [c] df (df_fill c v df).
Proof. intros Hrect. apply assigns_set; [assumption | apply length_replicate]. Qed.

End Frames.

(** ** Status codes *)

Lemma status_lookup_cases (s : string) :
  ((s ∈ Steps.status_vocabulary) /\
   exists n, Steps.status_map !! s = Some (Int n) /\ (n ∈ Steps.status_codes))
  \/ ((s ∉ Steps.status_vocabulary) /\ Steps.status_map !! s = None).
Proof.
  unfold Steps.status_map, Steps.status_vocabulary, Steps.status_codes.
  repeat match goal with
         | |- context [(<[?k := _]> _) !! s] =>
             destruct (decide (k = s)) as [<- | ?];
             [ left; split; [list_member |];
               eexists; split; [vm_compute; reflexivity | list_member]
             | rewrite lookup_insert_ne by assumption ]
         end.
  right. split; [| apply lookup_empty].
  rewrite !elem_of_cons, elem_of_nil. intuition congruence.
Qed.

Lemma status_id_cell_code (c : cell) :
  exists n, Steps.status_id_cell c = Int n /\ (n ∈ Steps.status_codes).
Proof.
  destruct c as [| z | x | s]; try (exists 14; split; [reflexivity | list_member]).
  unfold Steps.status_id_cell, map_cell.
  destruct (status_lookup_cases s) as [(_ & n & -> & Hn) | (_ & ->)]; simpl.
  - exists n. split; [reflexivity | assumption].
  - exists 14. split; [reflexivity | list_member].
Qed.

Lemma status_id_cell_other (s : string) :
  s ∉ Steps.status_vocabulary -> Steps.status_id_cell (Str s) = Int 14.
Proof.
  intros Hs. unfold Steps.status_id_cell, map_cell.
  destruct (status_lookup_cases s) as [(Hin & _) | (_ & ->)]; [contradiction | reflexivity].
Qed.

Lemma assign_status_id_present (df : DataFrame) (col : Series) :
  df_lookup "status" df = Some col ->
  df_lookup "status_id" (Steps.assign_status_id df) = Some (map Steps.status_id_cell col).
Proof.
  intros Hcol. unfold Steps.assign_status_id. rewrite Hcol.
  rewrite df_lookup_set_eq. unfold map_dict. rewrite fillna_map. reflexivity.
Qed.

(** ** Reference resolution on concrete tables *)

(** Resolution of a circuit that is not in the lookup gives 0 (lines 93-102),
    and the circuit table gets its ids on the fly. *)
Example circuit_resolution_default :
  df_lookup "circuit_id" (Steps.resolve_circuit (Ok Fixtures.circuits) Fixtures.races)
  = Some [Int 1; Int 0].
Proof. vm_compute. reflexivity. Qed.

(** C1. A result row whose [driver_ref] is not in [drivers.csv] leaves
    [transform_results] with a missing [driver_id], not with 0: lines 131,
    141, 203, 213, 248, 289 and 316 map the key without a [fillna(0)], where
    line 99 has one. *)
Theorem unknown_driver_resolves_to_missing :
  exists out,
    Steps.results_frame (Ok Fixtures.drivers) (Ok Fixtures.constructors) Fixtures.results
    = Ok out /\
    df_lookup "driver_ref" out
    = Some [Str "max_verstappen"; Str "unknown_driver"; Str "perez"] /\
    df_lookup "driver_id" out = Some [Int 1; NaN; Int 2] /\
    df_lookup "driver_id"
      (Steps.resolve_driver (Ok Fixtures.drivers) [("driver_ref", [Str "unknown_driver"])])
    = Some [NaN].
Proof. eexists. vm_compute. repeat split. Qed.

(** C8. A constructor table without [constructor_id] is not given ids on the
    fly: the lookup fails inside the [try] block and every row gets 0, where
    the driver table in the same state gets the ids 1..N. *)
Theorem constructors_without_ids_resolve_to_zero :
  exists out,
    Steps.results_frame (Ok Fixtures.drivers_without_ids)
      (Ok Fixtures.constructors_without_ids) Fixtures.results = Ok out /\
    df_lookup "constructor_ref" out = Some [Str "red_bull"; Str "ferrari"; Str "red_bull"] /\
    df_lookup "constructor_id" out = Some [Int 0; Int 0; Int 0] /\
    df_lookup "driver_id" out = Some [Int 1; NaN; Int 2].
Proof. eexists. vm_compute. repeat split. Qed.

(** ** Digit strings *)

Lemma string_app_nil_r (s : string) : s ++ "" = s.
Proof.
  induction s as [| c s IH]; [reflexivity |].
  rewrite string_app_cons, IH. reflexivity.
Qed.

Lemma int_str (p : Z) : 0 <= p -> int (str p) = Ok p.
Proof.
  intros Hp. rewrite <- (string_app_nil_r (str p)).
  apply int_str_nonneg_app; [assumption | reflexivity].
Qed.

Lemma all_digits_digits_aux (fuel : nat) (n : Z) (acc : string) :
  0 <= n -> all_digits acc = true -> all_digits (digits_aux fuel n acc) = true.
Proof.
  revert n acc. induction fuel as [| fuel IH]; intros n acc Hn Hacc; [exact Hacc |].
  cbn [digits_aux]. cbv zeta.
  assert (Hmod : 0 <= n mod 10 < 10) by (apply Z.mod_pos_bound; lia).
  assert (Hcons : all_digits (String (digit_char (n mod 10)) acc) = true).
  { cbn [all_digits]. rewrite digit_val_char by assumption.
    rewrite bool_decide_eq_true_2 by eauto. exact Hacc. }
  destruct (n / 10 =? 0); [exact Hcons |].
  apply IH; [apply Z.div_pos; lia | exact Hcons].
Qed.

Lemma isdigit_str (p : Z) : 0 <= p -> isdigit (str p) = true.
Proof.
  intros Hp. unfold str. destruct (Z.ltb_spec p 0) as [? | _]; [lia |].
  assert (Hall : all_digits (str_nonneg p) = true)
    by (apply all_digits_digits_aux; [assumption | reflexivity]).
  destruct (str_nonneg_head p Hp) as (c & rest & d & Hs & _).
  rewrite Hs in *. exact Hall.
Qed.

Lemma all_digits_int_digits (s : string) (a : Z) :
  all_digits s = true -> 0 <= a -> exists p, int_digits a s = Some p /\ 0 <= p.
Proof.
  revert a. induction s as [| c s IH]; intros a Hall Ha.
  - exists a. split; [reflexivity | assumption].
  - cbn [all_digits] in Hall. apply andb_prop in Hall as [Hc Hs].
    apply bool_decide_eq_true_1 in Hc as [d Hd].
    rewrite int_digits_cons, Hd. apply IH; [assumption |].
    unfold digit_val in Hd. cbv zeta in Hd.
    destruct ((48 <=? Z.of_nat (nat_of_ascii c)) && (Z.of_nat (nat_of_ascii c) <=? 57)) eqn:E;
      [| discriminate].
    injection Hd as <-. apply andb_prop in E as [E1 E2]. lia.
Qed.

(** A text that passes [isdigit] is read by [int] as a non-negative number. *)
Lemma isdigit_int (s : string) :
  isdigit s = true -> exists p, int s = Ok p /\ 0 <= p.
Proof.
  destruct s as [| c s]; [discriminate |]. intros Hall.
  change (isdigit (String c s)) with (all_digits (String c s)) in Hall.
  destruct (all_digits_int_digits _ 0 Hall ltac:(lia)) as (p & Hp & Hp0).
  exists p. split; [| assumption].
  cbn [all_digits] in Hall. apply andb_prop in Hall as [Hc _].
  apply bool_decide_eq_true_1 in Hc as [d Hd].
  unfold int. destruct (digit_val_not_sign c d Hd) as [-> ->].
  unfold int_unsigned. rewrite Hp. reflexivity.
Qed.

(** ** Finishing order *)

(** Lines 266-277 on the raw [position] text [s] of a result ([''] when the
    key is absent). *)
Lemma position_fields_text (d : list (string * Extract.json)) (s : string) :
  default (Extract.JStr "") (Extract.assoc "position" d) = Extract.JStr s ->
  Extract.position_fields (Extract.JDict d) =
  if isdigit s then p ← int s; mret (Int p, Int p) else mret (NaN, Int 999).
Proof.
  intros Hs. unfold Extract.position_fields.
  cbn [Extract.get]. rewrite Hs.
  change (Ok (Extract.JStr s) ≫= ?k) with (k (Extract.JStr s)).
  cbn [Extract.json_isdigit].
  change (Ok (isdigit s) ≫= ?k) with (k (isdigit s)). cbv beta.
  destruct (isdigit s) eqn:Hd.
  - assert (Hkey : Extract.assoc "position" d = Some (Extract.JStr s)).
    { destruct (Extract.assoc "position" d) as [j |]; [simpl in Hs; congruence |].
      simpl in Hs. injection Hs as <-. discriminate Hd. }
    rewrite Hkey. cbn [default Extract.py_int id]. res_step.
    destruct (isdigit_int s Hd) as (p & Hp & _). rewrite Hp. res_step.
    cbn [id Extract.py_int]. rewrite Hp. reflexivity.
  - reflexivity.
Qed.

(** Lines 186-188 on a column of integers: nothing changes. *)
Lemma assign_position_order_present (df : DataFrame) (zs : list Z) :
  df_lookup "position_order" df = Some (map Int zs) ->
  Steps.assign_position_order df = Ok (df_set "position_order" (map Int zs) df).
Proof.
  intros Hcol. unfold Steps.assign_position_order.
  assert (Hhas : df_has "position_order" df = true) by (unfold df_has; rewrite Hcol; reflexivity).
  rewrite Hhas. cbn [negb]. res_step.
  rewrite (df_get_Some _ _ _ Hcol). res_step.
  assert (Hnum : fillna (Int 999) (to_numeric (map Int zs)) = map Int zs).
  { unfold fillna, to_numeric. rewrite !map_map. reflexivity. }
  rewrite Hnum, astype_int_ints. reflexivity.
Qed.

(** Lines 184-188 when the column is absent: it is built from [position],
    a missing position giving 999. *)
Lemma assign_position_order_absent (df : DataFrame) (ps : list (option Z)) :
  df_lookup "position_order" df = None ->
  df_lookup "position" df = Some (map opt_cell ps) ->
  Steps.assign_position_order df
  = Ok (df_set "position_order" (map (fun o => Int (default 999 o)) ps) df).
Proof.
  intros Habsent Hpos. unfold Steps.assign_position_order.
  assert (Hhas : df_has "position_order" df = false) by (apply df_has_lookup; exact Habsent).
  rewrite Hhas. cbn [negb].
  rewrite (df_get_Some _ _ _ Hpos). res_step.
  rewrite (df_get_Some _ _ _ (df_lookup_set_eq _ _ _)). res_step.
  assert (Hnum : fillna (Int 999) (to_numeric (fillna (Int 999) (map opt_cell ps)))
                 = map Int (map (default 999) ps)).
  { unfold fillna, to_numeric. rewrite !map_map. apply map_ext. intros [z |]; reflexivity. }
  rewrite Hnum, astype_int_ints. res_step.
  rewrite map_map.
  assert (Hagain : forall c s s' f, df_set c s (df_set c s' f) = df_set c s f).
  { intros c s s' f. induction f as [| [c' t] f IH]; simpl.
    - rewrite String.eqb_refl. reflexivity.
    - destruct (String.eqb c c') eqn:E; simpl; rewrite ?E, ?String.eqb_refl; [reflexivity |].
      f_equal. exact IH. }
  rewrite Hagain. reflexivity.
Qed.

(** ** What each step of [transform_results] assigns *)

Lemma bind_Ok {A B : Type} (m : res A) (k : A -> res B) (b : B) :
  m ≫= k = Ok b -> exists a, m = Ok a /\ k a = Ok b.
Proof. destruct m as [a | e]; [eauto | discriminate]. Qed.

Lemma try_except_cases {A : Type} (P : A -> Prop) (m : res A) (h : A) :
  (forall a, m = Ok a -> P a) -> P h -> P (try_except m h).
Proof. intros Hok Hh. destruct m as [a | e]; simpl; auto. Qed.

Lemma resolve_assigns (key_col id_col : string) (d : gmap string cell)
    (df df' : DataFrame) :
  rectangular df -> Steps.resolve key_col id_col d df = Ok df' ->
  assigns [id_col] df df'.
Proof.
  intros Hrect H. unfold Steps.resolve in H.
  apply bind_Ok in H as (ks & Hks & H). injection H as <-.
  unfold df_get in Hks. destruct (df_lookup key_col df) as [s |] eqn:E; [| discriminate].
  injection Hks as <-.
  apply assigns_set; [assumption |].
  rewrite map_dict_length. eapply rectangular_lookup; eassumption.
Qed.

Lemma resolve_driver_assigns (drivers : res DataFrame) (df : DataFrame) :
  rectangular df -> assigns ["driver_id"] df (Steps.resolve_driver drivers df).
Proof.
  intros Hrect. unfold Steps.resolve_driver. apply try_except_cases.
  - intros df' H.
    apply bind_Ok in H as (drivers_df & _ & H).
    apply bind_Ok in H as (driver_map & _ & H).
    eapply resolve_assigns; eassumption.
  - apply assigns_fill. assumption.
Qed.

Lemma resolve_constructor_assigns (constructors : res DataFrame) (df : DataFrame) :
  rectangular df -> assigns ["constructor_id"] df (Steps.resolve_constructor constructors df).
Proof.
  intros Hrect. unfold Steps.resolve_constructor. apply try_except_cases.
  - intros df' H.
    apply bind_Ok in H as (constructors_df & _ & H).
    apply bind_Ok in H as (constructor_map & _ & H).
    eapply resolve_assigns; eassumption.
  - apply assigns_fill. assumption.
Qed.

Lemma coerce_position_assigns (df : DataFrame) :
  rectangular df -> assigns ["position"] df (Steps.coerce_position df).
Proof.
  intros Hrect. unfold Steps.coerce_position.
  destruct (df_lookup "position" df) as [s |] eqn:E.
  - apply assigns_set; [assumption |].
    rewrite to_numeric_length. eapply rectangular_lookup; eassumption.
  - apply assigns_refl. assumption.
Qed.

(** A column replaced by [astype_int] of a same-length column. *)
Lemma assigns_astype (c : string) (s s' : Series) (df : DataFrame) :
  rectangular df -> length s = df_len df -> astype_int s = Ok s' ->
  assigns [c] df (df_set c s' df).
Proof.
  intros Hrect Hs H. apply assigns_set; [assumption |].
  rewrite (astype_int_length _ _ H). exact Hs.
Qed.

Lemma fill_int_column_assigns (df df' : DataFrame) (col : string) :
  rectangular df -> Steps.fill_int_column df col = Ok df' -> assigns [col] df df'.
Proof.
  intros Hrect H. unfold Steps.fill_int_column in H.
  destruct (df_lookup col df) as [s |] eqn:E.
  - apply bind_Ok in H as (s' & Hs' & H). injection H as <-.
    eapply assigns_astype; [assumption | | exact Hs'].
    rewrite fillna_length. eapply rectangular_lookup; eassumption.
  - injection H as <-. apply assigns_refl. assumption.
Qed.

Lemma fill_int_columns_assigns (cols : list string) (df df' : DataFrame) :
  rectangular df -> Steps.fill_int_columns cols df = Ok df' -> assigns cols df df'.
Proof.
  revert df. induction cols as [| col cols IH]; intros df Hrect H.
  - injection H as <-. apply assigns_refl. assumption.
  - cbn [Steps.fill_int_columns] in H. apply bind_Ok in H as (df1 & H1 & H).
    pose proof (fill_int_column_assigns _ _ _ Hrect H1) as A1.
    change (col :: cols) with ([col] ++ cols)%list.
    eapply assigns_trans; [exact A1 |]. apply IH; [apply A1 | exact H].
Qed.

Lemma result_milliseconds_assigns (df df' : DataFrame) :
  rectangular df -> Steps.result_milliseconds df = Ok df' -> assigns ["milliseconds"] df df'.
Proof.
  intros Hrect H. unfold Steps.result_milliseconds in H.
  destruct (df_lookup "milliseconds" df) as [s |] eqn:E.
  - apply bind_Ok in H as (s' & Hs' & H). injection H as <-.
    eapply assigns_astype; [assumption | | exact Hs'].
    rewrite fillna_length, to_numeric_length. eapply rectangular_lookup; eassumption.
  - injection H as <-. apply assigns_fill. assumption.
Qed.

Lemma assign_status_id_assigns (df : DataFrame) :
  rectangular df -> assigns ["status_id"] df (Steps.assign_status_id df).
Proof.
  intros Hrect. unfold Steps.assign_status_id.
  destruct (df_lookup "status" df) as [s |] eqn:E.
  - apply assigns_set; [assumption |].
    rewrite fillna_length, map_dict_length. eapply rectangular_lookup; eassumption.
  - apply assigns_fill. assumption.
Qed.

Lemma assign_position_order_assigns (df df' : DataFrame) :
  rectangular df -> Steps.assign_position_order df = Ok df' ->
  assigns ["position_order"] df df'.
Proof.
  intros Hrect H. unfold Steps.assign_position_order in H.
  apply bind_Ok in H as (df1 & H1 & H).
  assert (A1 : assigns ["position_order"] df df1).
  { destruct (negb (df_has "position_order" df)).
    - apply bind_Ok in H1 as (p & Hp & H1). injection H1 as <-.
      unfold df_get in Hp. destruct (df_lookup "position" df) as [s |] eqn:E; [| discriminate].
      injection Hp as <-. apply assigns_set; [assumption |].
      rewrite fillna_length. eapply rectangular_lookup; eassumption.
    - injection H1 as <-. apply assigns_refl. assumption. }
  apply bind_Ok in H as (po & Hpo & H).
  apply bind_Ok in H as (po' & Hpo' & H). injection H as <-.
  unfold df_get in Hpo. destruct (df_lookup "position_order" df1) as [s |] eqn:E; [| discriminate].
  injection Hpo as <-.
  assert (A2 : assigns ["position_order"] df1 (df_set "position_order" po' df1)).
  { eapply assigns_astype; [apply A1 | | exact Hpo'].
    rewrite fillna_length, to_numeric_length. eapply rectangular_lookup; [apply A1 | exact E]. }
  eapply assigns_weaken; [| eapply assigns_trans; [exact A1 | exact A2]].
  intros c Hc. rewrite elem_of_app in Hc. tauto.
Qed.

(** ** [transform_results] end to end *)

(** Whenever the body of [transform_results] returns, its result is the
    status and finishing-order steps applied to a frame that differs from
    the input in the earlier columns only. *)
Lemma results_frame_inv (drivers constructors : res DataFrame) (df out : DataFrame) :
  rectangular df ->
  Steps.results_frame drivers constructors df = Ok out ->
  exists df5,
    assigns Steps.results_first_columns df df5 /\
    Steps.assign_position_order (Steps.assign_status_id df5) = Ok out.
Proof.
  intros Hrect H. unfold Steps.results_frame in H.
  pose proof (resolve_driver_assigns drivers df Hrect) as A1.
  set (df1 := Steps.resolve_driver drivers df) in *.
  pose proof (resolve_constructor_assigns constructors df1 (proj1 A1)) as A2.
  set (df2 := Steps.resolve_constructor constructors df1) in *.
  pose proof (coerce_position_assigns df2 (proj1 A2)) as A3.
  set (df3 := Steps.coerce_position df2) in *.
  apply bind_Ok in H as (df4 & H4 & H).
  pose proof (fill_int_columns_assigns _ _ _ (proj1 A3) H4) as A4.
  apply bind_Ok in H as (df5 & H5 & H).
  pose proof (result_milliseconds_assigns _ _ (proj1 A4) H5) as A5.
  exists df5. split; [| exact H].
  pose proof (assigns_trans _ _ _ _ _
                (assigns_trans _ _ _ _ _
                   (assigns_trans _ _ _ _ _ (assigns_trans _ _ _ _ _ A1 A2) A3) A4) A5) as A.
  eapply assigns_weaken; [| exact A].
  unfold Steps.results_first_columns, Steps.numeric_cols.
  intros c Hc. simpl in Hc |- *.
  rewrite !elem_of_cons, elem_of_nil in Hc. rewrite !elem_of_cons, elem_of_nil. tauto.
Qed.

Lemma results_frame_status_present
    (drivers constructors : res DataFrame) (df out : DataFrame) (col : Series) :
  rectangular df ->
  Steps.results_frame drivers constructors df = Ok out ->
  df_lookup "status" df = Some col ->
  df_lookup "status_id" out = Some (map Steps.status_id_cell col).
Proof.
  intros Hrect H Hcol.
  destruct (results_frame_inv _ _ _ _ Hrect H) as (df5 & (R5 & L5 & K5) & Hout).
  destruct (assign_position_order_assigns _ _ (proj1 (assign_status_id_assigns df5 R5)) Hout)
    as (_ & _ & K).
  rewrite K by (rewrite list_elem_of_singleton; discriminate).
  apply assign_status_id_present. rewrite K5; [exact Hcol |].
  unfold Steps.results_first_columns, Steps.numeric_cols. simpl.
  rewrite !elem_of_cons, elem_of_nil. intuition discriminate.
Qed.

Lemma results_frame_status_absent
    (drivers constructors : res DataFrame) (df out : DataFrame) :
  rectangular df ->
  Steps.results_frame drivers constructors df = Ok out ->
  df_has "status" df = false ->
  df_lookup "status_id" out = Some (replicate (df_len df) (Int 1)).
Proof.
  intros Hrect H Habsent. apply df_has_lookup in Habsent.
  destruct (results_frame_inv _ _ _ _ Hrect H) as (df5 & (R5 & L5 & K5) & Hout).
  destruct (assign_position_order_assigns _ _ (proj1 (assign_status_id_assigns df5 R5)) Hout)
    as (_ & _ & K).
  rewrite K by (rewrite list_elem_of_singleton; discriminate).
  unfold Steps.assign_status_id. rewrite K5, Habsent.
  - unfold df_fill. rewrite df_lookup_set_eq, L5. reflexivity.
  - unfold Steps.results_first_columns, Steps.numeric_cols. simpl.
    rewrite !elem_of_cons, elem_of_nil. intuition discriminate.
Qed.

Lemma df_lookup_set_again (c : string) (s s' : Series) (df : DataFrame) :
  df_lookup c (df_set c s (df_set c s' df)) = Some s.
Proof. apply df_lookup_set_eq. Qed.

Lemma results_frame_position_order
    (drivers constructors : res DataFrame) (df out : DataFrame) (zs : list Z) :
  rectangular df ->
  Steps.results_frame drivers constructors df = Ok out ->
  df_lookup "position_order" df = Some (map Int zs) ->
  df_lookup "position_order" out = Some (map Int zs).
Proof.
  intros Hrect H Hcol.
  destruct (results_frame_inv _ _ _ _ Hrect H) as (df5 & (R5 & L5 & K5) & Hout).
  destruct (assign_status_id_assigns df5 R5) as (R6 & L6 & K6).
  assert (Hcol6 : df_lookup "position_order" (Steps.assign_status_id df5) = Some (map Int zs)).
  { rewrite K6 by (rewrite list_elem_of_singleton; discriminate).
    rewrite K5; [exact Hcol |].
    unfold Steps.results_first_columns, Steps.numeric_cols. simpl.
    rewrite !elem_of_cons, elem_of_nil. intuition discriminate. }
  rewrite (assign_position_order_present _ _ Hcol6) in Hout. injection Hout as <-.
  apply df_lookup_set_eq.
Qed.

(** C2. The status mapping is total: every cell of the status column, text
    or not, gets one of the nine codes; the nine words of the vocabulary get
    their own code; any other text gets 14; and whenever [transform_results]
    returns, its [status_id] column is this mapping applied to each cell of
    the [status] column. *)
Theorem status_mapping_total (c : cell) :
  (exists n, Steps.status_id_cell c = Int n /\ (n ∈ Steps.status_codes)) /\
  (Steps.status_id_cell (Str "Finished") = Int 1 /\
   Steps.status_id_cell (Str "Disqualified") = Int 2 /\
   Steps.status_id_cell (Str "Accident") = Int 3 /\
   Steps.status_id_cell (Str "Collision") = Int 4 /\
   Steps.status_id_cell (Str "Engine") = Int 5 /\
   Steps.status_id_cell (Str "+1 Lap") = Int 11 /\
   Steps.status_id_cell (Str "+2 Laps") = Int 12 /\
   Steps.status_id_cell (Str "+3 Laps") = Int 13 /\
   Steps.status_id_cell (Str "Retired") = Int 14) /\
  (forall s, s ∉ Steps.status_vocabulary -> Steps.status_id_cell (Str s) = Int 14) /\
  (forall drivers constructors df out col,
     rectangular df ->
     Steps.results_frame drivers constructors df = Ok out ->
     df_lookup "status" df = Some col ->
     df_lookup "status_id" out = Some (map Steps.status_id_cell col)).
Proof.
  split; [| split; [| split]].
  - apply status_id_cell_code.
  - repeat split; vm_compute; reflexivity.
  - apply status_id_cell_other.
  - apply results_frame_status_present.
Qed.

(** C10. When the staged results table has no [status] column,
    [transform_results] gives [status_id = 1] to every row; an unrecognised
    status text in a column that is there gets 14. *)
Theorem status_column_absent_gives_finished
    (drivers constructors : res DataFrame) (df out : DataFrame) :
  rectangular df ->
  df_has "status" df = false ->
  Steps.results_frame drivers constructors df = Ok out ->
  df_lookup "status_id" out = Some (replicate (df_len df) (Int 1)) /\
  df_lookup "status_id" (Steps.assign_status_id df) = Some (replicate (df_len df) (Int 1)) /\
  (forall s col, s ∉ Steps.status_vocabulary ->
     df_lookup "status_id" (Steps.assign_status_id (df_set "status" (Str s :: col) df))
     = Some (Int 14 :: map Steps.status_id_cell col)).
Proof.
  intros Hrect Habsent Hout. split; [| split].
  - eapply results_frame_status_absent; eassumption.
  - apply df_has_lookup in Habsent.
    unfold Steps.assign_status_id. rewrite Habsent. unfold df_fill.
    apply df_lookup_set_eq.
  - intros s col Hs.
    rewrite (assign_status_id_present _ (Str s :: col)) by apply df_lookup_set_eq.
    simpl. rewrite status_id_cell_other by assumption. reflexivity.
Qed.

Lemma status_column_absent_witness :
  exists out,
    Steps.results_frame (Ok Fixtures.drivers) (Ok Fixtures.constructors)
      Fixtures.results_without_status = Ok out /\
    df_lookup "status_id" out = Some [Int 1; Int 1; Int 1].
Proof.
  eexists. split; [vm_compute; reflexivity |].
  eapply (status_column_absent_gives_finished
            (Ok Fixtures.drivers) (Ok Fixtures.constructors) Fixtures.results_without_status).
  - repeat constructor.
  - reflexivity.
  - vm_compute. reflexivity.
Defined.

(** Whatever [astype(int)] returns holds integers only. *)
Lemma astype_int_integers (s s' : Series) :
  astype_int s = Ok s' -> exists zs, s' = map Int zs.
Proof.
  unfold astype_int. revert s'. induction s as [| c s IH]; intros s' H.
  - injection H as <-. exists []. reflexivity.
  - cbn [traverse] in H.
    destruct (astype_int_cell c) as [c' | e] eqn:Hc; cbn [bind] in H; [| discriminate].
    destruct (traverse astype_int_cell s) as [s0 | e]; cbn [bind] in H; [| discriminate].
    injection H as <-. destruct (IH s0 eq_refl) as (zs & ->).
    assert (Hint : exists z, c' = Int z).
    { destruct c as [| z | x | t]; cbn in Hc.
      - discriminate.
      - injection Hc as <-. eauto.
      - destruct (F64.trunc x); cbn in Hc; [injection Hc as <-; eauto | discriminate].
      - destruct (int t); cbn in Hc; [injection Hc as <-; eauto | discriminate]. }
    destruct Hint as (z & ->). exists (z :: zs). reflexivity.
Qed.

(** Whenever the finishing-order step returns, the column holds a number on
    every row. *)
Lemma assign_position_order_integers (df df' : DataFrame) :
  Steps.assign_position_order df = Ok df' ->
  exists zs, df_lookup "position_order" df' = Some (map Int zs).
Proof.
  intros H. unfold Steps.assign_position_order in H.
  apply bind_Ok in H as (df1 & _ & H).
  apply bind_Ok in H as (po & _ & H).
  apply bind_Ok in H as (po' & Hpo' & H). injection H as <-.
  destruct (astype_int_integers _ _ Hpo') as (zs & ->).
  exists zs. apply df_lookup_set_eq.
Qed.

Lemma results_frame_position_order_integers
    (drivers constructors : res DataFrame) (df out : DataFrame) :
  Steps.results_frame drivers constructors df = Ok out ->
  exists zs, df_lookup "position_order" out = Some (map Int zs).
Proof.
  intros H. unfold Steps.results_frame in H.
  apply bind_Ok in H as (df4 & _ & H).
  apply bind_Ok in H as (df5 & _ & H).
  eapply assign_position_order_integers. exact H.
Qed.



(** The staged results of the fixture go through [transform_results] with
    their finishing order unchanged and every row ordered. *)
Example results_fixture_position_order :
  exists out,
    Steps.results_frame (Ok Fixtures.drivers) (Ok Fixtures.constructors) Fixtures.results
    = Ok out /\
    df_lookup "position_order" out = Some [Int 1; Int 2; Int 999] /\
    df_lookup "status_id" out = Some [Int 1; Int 1; Int 14].
Proof. eexists. vm_compute. repeat split. Qed.

(** ** Pit-stop durations *)

(** A pit stop of 16.002 seconds is given 16001 milliseconds on every path:
    [float("16.002") * 1000] is just below 16002 and is truncated.  A stop
    of 21.5 seconds is given 21500. *)
Example pit_stop_16_002 :
  Extract.duration_milliseconds (Extract.JStr "16.002") = Ok (Int 16001) /\
  Extract.duration_milliseconds (Extract.JStr "21.5") = Ok (Int 21500) /\
  (exists row, Extract.pit_stop_row 202401 (Fixtures.pit_stop_json "16.002") = Ok row /\
               record_get "milliseconds" row = Int 16001) /\
  (exists out, Steps.pit_stops_frame (Ok Fixtures.drivers) Fixtures.pit_stops = Ok out /\
               df_lookup "milliseconds" out = Some [Int 16001; Int 21500]) /\
  (exists out, Steps.pit_stops_frame (Ok Fixtures.drivers)
                 Fixtures.pit_stops_without_milliseconds = Ok out /\
               df_lookup "milliseconds" out = Some [Int 16001; Int 21500]).
Proof.
  split; [vm_compute; reflexivity |].
  split; [vm_compute; reflexivity |].
  split; [eexists; split; vm_compute; reflexivity |].
  split; eexists; split; vm_compute; reflexivity.
Qed.


Lemma df_set_set (c : string) (s s' : Series) (df : DataFrame) :
  df_set c s (df_set c s' df) = df_set c s df.
Proof.
  induction df as [| [c' t] df IH]; cbn [df_set].
  - rewrite String.eqb_refl. reflexivity.
  - destruct (String.eqb c c') eqn:E; cbn [df_set].
    + rewrite String.eqb_refl. reflexivity.
    + rewrite E, IH. reflexivity.
Qed.

Lemma isna_all_with_integer (before after : list Z) (z : Z) :
  isna_all (map Int (before ++ z :: after)) = false.
Proof.
  unfold isna_all. induction before as [| b before IH]; reflexivity.
Qed.

(** Lines 258-268 when the staged column holds integers: it is kept. *)
Lemma pit_stop_milliseconds_kept (df : DataFrame) (before after : list Z) (z : Z) :
  df_lookup "milliseconds" df = Some (map Int (before ++ z :: after)) ->
  Steps.pit_stop_milliseconds df
  = Ok (df_set "milliseconds" (map Int (before ++ z :: after)) df).
Proof.
  intros Hcol. unfold Steps.pit_stop_milliseconds, Steps.derive_milliseconds.
  rewrite Hcol, isna_all_with_integer. res_step.
  rewrite (df_get_Some _ _ _ Hcol). res_step.
  assert (Hnum : fillna (Int 0) (to_numeric (map Int (before ++ z :: after)))
                 = map Int (before ++ z :: after)).
  { unfold fillna, to_numeric. rewrite !map_map. reflexivity. }
  rewrite Hnum, astype_int_ints. reflexivity.
Qed.

Lemma mul_scalar_floats (k : Z) (xs : list spec_float) :
  mul_scalar k (map Flt xs) = Ok (map (fun x => Flt (F64.mul x (F64.of_Z k))) xs).
Proof.
  unfold mul_scalar. induction xs as [| x xs IH]; [reflexivity |].
  cbn [map traverse mul_cell bind]. rewrite IH. reflexivity.
Qed.

Lemma astype_int_floats (ys : list spec_float) (zs : list Z) :
  Forall2 (fun y z => F64.trunc y = Ok z) ys zs ->
  astype_int (map Flt ys) = Ok (map Int zs).
Proof.
  unfold astype_int. induction 1 as [| y z ys zs Hyz _ IH]; [reflexivity |].
  cbn [map traverse astype_int_cell]. rewrite Hyz. cbn [bind]. rewrite IH. reflexivity.
Qed.

(** Lines 258-268 when the frame has no [milliseconds] column: each row is
    the truncated product of its duration by 1000. *)
Lemma pit_stop_milliseconds_derived (df : DataFrame) (xs : list spec_float) (zs : list Z) :
  df_lookup "milliseconds" df = None ->
  df_lookup "duration" df = Some (map Flt xs) ->
  Forall2 (fun x z => F64.trunc (F64.mul x (F64.of_Z 1000)) = Ok z) xs zs ->
  Steps.pit_stop_milliseconds df = Ok (df_set "milliseconds" (map Int zs) df).
Proof.
  intros Habsent Hdur Hrel. unfold Steps.pit_stop_milliseconds, Steps.derive_milliseconds.
  rewrite Habsent, Hdur.
  assert (Hnum : to_numeric (map Flt xs) = map Flt xs).
  { unfold to_numeric. rewrite map_map. reflexivity. }
  rewrite Hnum, mul_scalar_floats. res_step.
  rewrite (df_get_Some _ _ _ (df_lookup_set_eq _ _ _)). res_step.
  assert (Hagain : fillna (Int 0)
                     (to_numeric (map (fun x => Flt (F64.mul x (F64.of_Z 1000))) xs))
                   = map Flt (map (fun x => F64.mul x (F64.of_Z 1000)) xs)).
  { unfold fillna, to_numeric. rewrite !map_map. reflexivity. }
  rewrite Hagain.
  rewrite (astype_int_floats _ zs).
  - res_step. rewrite df_set_set. reflexivity.
  - clear -Hrel. induction Hrel; constructor; assumption.
Qed.



(** The column-wide test of line 258: a row without milliseconds in a column
    where another row has them is not derived from its duration; it gets 0. *)
Example pit_stop_milliseconds_mixed_column :
  exists out,
    Steps.pit_stop_milliseconds
      [("duration", [Fixtures.seconds "21.5"; Fixtures.seconds "22.0"]);
       ("milliseconds", [NaN; Int 22000])] = Ok out /\
    df_lookup "milliseconds" out = Some [Int 0; Int 22000].
Proof. eexists. split; vm_compute; reflexivity. Qed.

(** ** Pagination *)

Section PaginateFacts.

Variable api : Extract.Api.
Variable endpoint table_name : string.
Variable limit : Z.
Variable rows_of : Extract.json -> res (list record).

Local Abbreviation page_step := (Extract.page_step api endpoint table_name limit rows_of).
Local Abbreviation paginate := (Extract.paginate api endpoint table_name limit rows_of).
Local Abbreviation after_pages := (Extract.after_pages api endpoint table_name limit rows_of).
Local Abbreviation full_page := (Extract.full_page api endpoint table_name limit rows_of).

(** A transport failure leaves the loop with the rows collected so far. *)
Lemma page_step_failure (offset : Z) (acc : list record) :
  api endpoint limit offset = None -> page_step offset acc = Extract.Break (Ok acc).
Proof.
  intros H. unfold Extract.page_step, Extract.make_request. rewrite H. reflexivity.
Qed.

(** The loop goes on to the next page exactly after a full page. *)
Lemma page_step_next (offset : Z) (acc acc' : list record) :
  page_step offset acc = Extract.Next acc' <->
  exists rows, full_page offset rows /\ acc' = (acc ++ rows)%list.
Proof.
  unfold Extract.page_step, Extract.full_page. split.
  - destruct (Extract.make_request api endpoint limit offset) as [data |] eqn:Hreq;
      [| discriminate].
    destruct data as [| kv data]; [discriminate |].
    destruct (Extract.extract_table (kv :: data) table_name) as [items | e] eqn:Htab;
      [| discriminate].
    destruct (Extract.truthy items) eqn:Htruthy; cbn [negb]; [| discriminate].
    destruct (Extract.py_iter items) as [l | e] eqn:Hiter; res_step; [| discriminate].
    destruct (traverse rows_of l) as [rs | e] eqn:Hrows; res_step; [| discriminate].
    destruct (Extract.py_len items) as [n | e] eqn:Hlen; res_step; [| discriminate].
    destruct (Z.ltb_spec n limit) as [Hlt | Hge]; [discriminate |].
    intros [= <-]. exists (concat rs). split; [| reflexivity].
    exists (kv :: data), items, l, rs, n.
    split; [reflexivity |]. split; [discriminate |]. auto 10.
  - intros (rows & (data & items & l & rs & n & Hreq & Hne & Htab & Htruthy & Hiter
                    & Hrows & Hlen & Hge & ->) & ->).
    rewrite Hreq. destruct data as [| kv data]; [contradiction |].
    rewrite Htab, Htruthy. cbn [negb]. rewrite Hiter. res_step.
    rewrite Hrows. res_step. rewrite Hlen. res_step.
    destruct (Z.ltb_spec n limit) as [Hlt | _]; [lia | reflexivity].
Qed.

Lemma after_pages_offset (k : nat) (offset offset' : Z) (acc acc' : list record) :
  after_pages k offset acc = Some (offset', acc') ->
  offset' = offset + Z.of_nat k * limit.
Proof.
  revert offset acc. induction k as [| k IH]; intros offset acc H.
  - injection H as <- <-. lia.
  - cbn [Extract.after_pages] in H.
    destruct (page_step offset acc) as [r | acc1]; [discriminate |].
    apply IH in H. lia.
Qed.

(** With [k] full pages and then a pass that leaves the loop with [r], the
    loop returns [r] as soon as it may run more than [k] passes, and has not
    returned before. *)
Lemma paginate_after (k : nat) (offset offset' : Z) (acc acc' : list record)
    (r : res (list record)) (fuel : nat) :
  after_pages k offset acc = Some (offset', acc') ->
  page_step offset' acc' = Extract.Break r ->
  paginate fuel offset acc = if (k <? fuel)%nat then Some r else None.
Proof.
  revert offset acc fuel. induction k as [| k IH]; intros offset acc fuel Hafter Hstep.
  - injection Hafter as <- <-. destruct fuel as [| fuel]; [reflexivity |].
    cbn [Extract.paginate]. rewrite Hstep. reflexivity.
  - cbn [Extract.after_pages] in Hafter.
    destruct (page_step offset acc) as [r1 | acc1] eqn:E; [discriminate |].
    destruct fuel as [| fuel]; [reflexivity |].
    cbn [Extract.paginate]. rewrite E.
    rewrite (IH _ _ fuel Hafter Hstep). reflexivity.
Qed.

(** While every page is full the loop keeps running. *)
Lemma paginate_running (k : nat) (offset offset' : Z) (acc acc' : list record) :
  after_pages k offset acc = Some (offset', acc') ->
  paginate k offset acc = None.
Proof.
  revert offset acc. induction k as [| k IH]; intros offset acc Hafter; [reflexivity |].
  cbn [Extract.after_pages] in Hafter. cbn [Extract.paginate].
  destruct (page_step offset acc) as [r1 | acc1]; [discriminate |].
  apply IH. exact Hafter.
Qed.

End PaginateFacts.



(** Every paginated extractor is this loop; a failure on a later page of
    circuits leaves the frame of the rows read so far. *)
Lemma extract_circuits_failure (api : Extract.Api) (k fuel : nat) (offset' : Z)
    (acc' : list record) :
  Extract.after_pages api "circuits" "CircuitsTable" 100 Extract.circuit_rows k 0 []
  = Some (offset', acc') ->
  api "circuits" 100 offset' = None ->
  (k < fuel)%nat ->
  Extract.extract_circuits api fuel = Some (Ok (frame_of_records acc')).
Proof.
  intros Hafter Hfail Hfuel. unfold Extract.extract_circuits.
  rewrite (paginate_after api "circuits" "CircuitsTable" 100 Extract.circuit_rows k 0 offset'
             [] acc' (Ok acc') fuel Hafter
             (page_step_failure api "circuits" "CircuitsTable" 100 Extract.circuit_rows
                offset' acc' Hfail)).
  destruct (Nat.ltb_spec k fuel); [reflexivity | lia].
Qed.

(** In a year-scoped extractor a failure on the first request of a year
    ends that year only: the years that follow are still requested. *)
Lemma per_year_failure (api : Extract.Api) (suffix : string)
    (rows_of : Z -> Extract.json -> res (list record)) (fuel : nat)
    (year : Z) (years : list Z) (acc : list record) :
  api (str year ++ suffix) 100 0 = None ->
  Extract.per_year api suffix rows_of (S fuel) (year :: years) acc
  = Extract.per_year api suffix rows_of (S fuel) years acc.
Proof.
  intros Hfail. cbn [Extract.per_year Extract.paginate].
  rewrite page_step_failure by exact Hfail. reflexivity.
Qed.

(** A short page ends the loop with its rows included. *)
Example pagination_short_page :
  exists rows,
    Extract.paginate Fixtures.api_short "circuits" "CircuitsTable" 2
      Extract.circuit_rows 5 0 [] = Some (Ok rows) /\
    map (record_get "circuit_ref") rows = [Str "bahrain"; Str "jeddah"; Str "albert_park"] /\
    Extract.paginate Fixtures.api_short "circuits" "CircuitsTable" 2
      Extract.circuit_rows 1 0 [] = None.
Proof. eexists. split; [| split]; vm_compute; reflexivity. Qed.

(** ** Pipelines without read-after-write hazards *)

Section Hazards.

Lemma apply_writes_cons (k : loc) (v : obj) (ws : writes) (s : store) :
  apply_writes ((k, v) :: ws) s = apply_writes ws (<[k := v]> s).
Proof. reflexivity. Qed.

(** A location that is not written keeps its object. *)
Lemma apply_writes_other (ws : writes) (s : store) (k : loc) :
  k ∉ map fst ws -> apply_writes ws s !! k = s !! k.
Proof.
  revert s. induction ws as [| [k0 v0] ws IH]; intros s Hk; [reflexivity |].
  rewrite apply_writes_cons. cbn [map fst] in Hk.
  rewrite not_elem_of_cons in Hk. destruct Hk as [Hne Hk].
  rewrite IH by assumption. apply lookup_insert_ne. congruence.
Qed.

(** A location that is written, or on which two stores agree, is the same
    after the same writes. *)
Lemma apply_writes_agree (ws : writes) (s t : store) (k : loc) :
  k ∈ map fst ws \/ s !! k = t !! k ->
  apply_writes ws s !! k = apply_writes ws t !! k.
Proof.
  revert s t. induction ws as [| [k0 v0] ws IH]; intros s t Hk.
  - destruct Hk as [Hin | Heq]; [| exact Heq].
    cbn [map] in Hin. apply elem_of_nil in Hin. contradiction.
  - rewrite !apply_writes_cons. apply IH.
    destruct (decide (k = k0)) as [-> | Hne].
    + right. rewrite !lookup_insert_eq. reflexivity.
    + destruct Hk as [Hin | Heq].
      * left. cbn [map fst] in Hin. rewrite elem_of_cons in Hin.
        destruct Hin as [? | Hin]; [contradiction | exact Hin].
      * right. rewrite !lookup_insert_ne by congruence. exact Heq.
Qed.

Lemma disjointb_spec (xs ys : list loc) (k : loc) :
  disjointb xs ys = true -> k ∈ xs -> k ∉ ys.
Proof.
  unfold disjointb. rewrite forallb_forall. intros H Hin.
  apply list_elem_of_In, H in Hin. apply negb_true_iff in Hin.
  apply bool_decide_eq_false in Hin. exact Hin.
Qed.

Lemma respects_keys (a : act) (fp : footprint) (s : store) (k : loc) :
  respects a fp -> k ∈ map fst (a s).1 -> k ∈ fp_writes fp.
Proof.
  intros [_ Hw] Hin. apply list_elem_of_fmap in Hin as ([k' v] & -> & Hin).
  eapply Hw. exact Hin.
Qed.

(** A run changes only what its methods may write. *)
Lemma run_frame (p : list act) (fps : list footprint) (s : store) (k : loc) :
  Forall2 respects p fps -> k ∉ all_writes fps -> (run p s).1 !! k = s !! k.
Proof.
  intros Hall. revert s. induction Hall as [| a fp p fps Hresp _ IH]; intros s Hk;
    [reflexivity |].
  unfold all_writes in Hk. cbn [map concat] in Hk. rewrite elem_of_app in Hk.
  assert (Hstep : apply_writes (a s).1 s !! k = s !! k).
  { apply apply_writes_other. intros Hin. apply Hk. left.
    eapply respects_keys; eassumption. }
  cbn [run]. destruct (a s).2; cbn [fst]; [| exact Hstep | exact Hstep].
  rewrite IH; [exact Hstep |]. intros Hin. apply Hk. right. exact Hin.
Qed.

(** The second run, started from a store that differs from the first run's
    only where the first run's final objects already are, repeats it. *)
Lemma run_replay (p : list act) (fps : list footprint) :
  Forall2 respects p fps -> hazard_free fps = true ->
  forall s t : store,
    (forall k, t !! k = s !! k \/ (k ∈ all_writes fps /\ t !! k = (run p s).1 !! k)) ->
    run p t = run p s.
Proof.
  intros Hall. induction Hall as [| a fp p fps Hresp Hrest IH]; intros Hfree s t Hinv.
  - cbn [run]. f_equal. apply map_eq. intros k.
    destruct (Hinv k) as [Heq | [Hin _]]; [exact Heq |].
    apply elem_of_nil in Hin. contradiction.
  - cbn [hazard_free] in Hfree. apply andb_prop in Hfree as [Hdisj Hfree].
    assert (Hact : a t = a s).
    { apply Hresp. intros k Hk.
      destruct (Hinv k) as [Heq | [Hin _]]; [exact Heq |].
      exfalso. eapply disjointb_spec; [exact Hdisj | exact Hk |]. exact Hin. }
    cbn [run] in *. rewrite Hact.
    set (ws := (a s).1) in *.
    assert (Hstep : forall k, k ∉ map fst ws -> t !! k = s !! k \/
                      (k ∈ all_writes (fp :: fps) /\
                       t !! k = (match (a s).2 with
                                 | Finished => run p (apply_writes ws s)
                                 | e => (apply_writes ws s, e)
                                 end).1 !! k)).
    { intros k _. apply Hinv. }
    destruct (a s).2 eqn:Hend.
    + apply IH; [exact Hfree |]. intros k.
      destruct (decide (k ∈ map fst ws)) as [Hin | Hout].
      * left. apply apply_writes_agree. left. exact Hin.
      * rewrite !apply_writes_other by assumption.
        destruct (Hstep k Hout) as [Heq | [Hin Hfin]]; [left; exact Heq |].
        unfold all_writes in Hin. cbn [map concat] in Hin. rewrite elem_of_app in Hin.
        destruct (decide (k ∈ all_writes fps)) as [Hlater | Hnot].
        -- right. split; [exact Hlater | exact Hfin].
        -- left. rewrite Hfin.
           rewrite (run_frame p fps _ k Hrest Hnot). apply apply_writes_other. exact Hout.
    + f_equal. apply map_eq. intros k.
      destruct (decide (k ∈ map fst ws)) as [Hin | Hout].
      * apply apply_writes_agree. left. exact Hin.
      * apply apply_writes_agree. right.
        destruct (Hstep k Hout) as [Heq | [_ Hfin]]; [exact Heq |].
        rewrite Hfin. cbn [fst]. apply apply_writes_other. exact Hout.
    + f_equal. apply map_eq. intros k.
      destruct (decide (k ∈ map fst ws)) as [Hin | Hout].
      * apply apply_writes_agree. left. exact Hin.
      * apply apply_writes_agree. right.
        destruct (Hstep k Hout) as [Heq | [_ Hfin]]; [exact Heq |].
        rewrite Hfin. cbn [fst]. apply apply_writes_other. exact Hout.
Qed.

(** A hazard-free pipeline run again on the store it left reproduces that
    store and ends the same way. *)
Lemma hazard_free_idempotent (p : list act) (fps : list footprint) (s : store) :
  Forall2 respects p fps -> hazard_free fps = true ->
  run p (run p s).1 = run p s.
Proof.
  intros Hall Hfree. apply (run_replay p fps Hall Hfree).
  intros k. destruct (decide (k ∈ all_writes fps)) as [Hin | Hout].
  - right. split; [exact Hin | reflexivity].
  - left. eapply run_frame; eassumption.
Qed.

End Hazards.

(** ** The footprint of every method of the pipeline *)

Section Footprints.

Variable read_csv : string -> res DataFrame.
Variable to_csv : DataFrame -> string.
Variable to_datetime : Series -> Series.
Variable dt_date : Series -> Series.
Variable connect : res unit.
Variable api : Extract.Api.
Variable fuel : nat.

Lemma finish_keys (path : loc) (r : res DataFrame) (k : loc) (v : obj) :
  (k, v) ∈ (Pipeline.finish to_csv path r).1 -> k = path.
Proof.
  destruct r as [df | e]; cbn; intros Hin.
  - apply list_elem_of_singleton in Hin. congruence.
  - apply elem_of_nil in Hin. contradiction.
Qed.

Lemma finish_run_keys (path : loc) (r : Extract.run DataFrame) (k : loc) (v : obj) :
  (k, v) ∈ (Pipeline.finish_run to_csv path r).1 -> k = path.
Proof.
  destruct r as [r |]; cbn [Pipeline.finish_run].
  - apply finish_keys.
  - cbn. intros Hin. apply elem_of_nil in Hin. contradiction.
Qed.

Lemma write_frame_keys (path : loc) (df : DataFrame) (k : loc) (v : obj) :
  (k, v) ∈ Pipeline.write_frame to_csv path df -> k = path.
Proof. intros Hin. apply list_elem_of_singleton in Hin. congruence. Qed.

Lemma load_table_keys (df : DataFrame) (name : string) (k : loc) (v : obj) :
  (k, v) ∈ Pipeline.load_table df name -> k = Table name.
Proof.
  unfold Pipeline.load_table. destruct (df_empty df); intros Hin.
  - apply elem_of_nil in Hin. contradiction.
  - apply list_elem_of_singleton in Hin. congruence.
Qed.

(** A method that ignores the store and writes one file at the end. *)
Lemma respects_constant_run (path : loc) (r : Extract.run DataFrame) :
  respects (fun _ => Pipeline.finish_run to_csv path r) (Pipeline.writes_only [path]).
Proof.
  split; [reflexivity |].
  intros s k v Hin. apply finish_run_keys in Hin as ->. list_member.
Qed.

Lemma respects_extract_seasons :
  respects (Pipeline.extract_seasons to_csv api)
           (Pipeline.writes_only [Pipeline.raw "seasons.csv"]).
Proof.
  split; [reflexivity |].
  intros s k v. unfold Pipeline.extract_seasons.
  destruct (Extract.extract_seasons api) as [[df |] | e]; cbn [fst]; intros Hin.
  - apply write_frame_keys in Hin as ->. list_member.
  - apply elem_of_nil in Hin. contradiction.
  - apply elem_of_nil in Hin. contradiction.
Qed.

Lemma respects_extract_standings (start_year end_year : Z) :
  respects (Pipeline.extract_standings to_csv api start_year end_year)
           (Pipeline.writes_only [Pipeline.raw "constructor_standings.csv";
                                  Pipeline.raw "driver_standings.csv"]).
Proof.
  split; [reflexivity |].
  intros s k v. unfold Pipeline.extract_standings.
  destruct (Extract.extract_standings api start_year end_year) as [[dc dd] | e];
    cbn [fst]; intros Hin.
  - apply elem_of_app in Hin as [Hin | Hin]; apply write_frame_keys in Hin as ->; list_member.
  - apply elem_of_nil in Hin. contradiction.
Qed.

Lemma respects_extract_all (start_year end_year : Z) :
  Forall2 respects (Pipeline.extract_all to_csv api fuel start_year end_year)
          Pipeline.extract_footprints.
Proof.
  unfold Pipeline.extract_all, Pipeline.extract_footprints.
  repeat first
    [ apply Forall2_nil_2
    | apply Forall2_cons_2;
      [ first [ apply respects_constant_run
              | apply respects_extract_seasons
              | apply respects_extract_standings ] | ] ].
Qed.

Lemma pd_read_csv_agree (s s' : store) (path : loc) :
  s !! path = s' !! path ->
  Pipeline.pd_read_csv read_csv s path = Pipeline.pd_read_csv read_csv s' path.
Proof. intros H. unfold Pipeline.pd_read_csv. rewrite H. reflexivity. Qed.

Lemma missing_or_small_agree (s s' : store) (path : loc) :
  s !! path = s' !! path ->
  Pipeline.missing_or_small s path = Pipeline.missing_or_small s' path.
Proof. intros H. unfold Pipeline.missing_or_small. rewrite H. reflexivity. Qed.

(** Replaces every read of [s] by the same read of [s'], given that the
    stores agree on the declared reads. *)
Ltac same_reads s s' H :=
  cbn [fp_reads] in H;
  repeat match goal with
         | |- context [Pipeline.pd_read_csv read_csv s ?k] =>
             rewrite (pd_read_csv_agree s s' k) by (apply H; list_member)
         | |- context [Pipeline.missing_or_small s ?k] =>
             rewrite (missing_or_small_agree s s' k) by (apply H; list_member)
         end;
  reflexivity.

(** Reads off where a guarded method writes. *)
Ltac one_write Hin :=
  first [ apply finish_keys in Hin as ->
        | apply write_frame_keys in Hin as ->
        | apply load_table_keys in Hin as ->
        | apply elem_of_nil in Hin; contradiction ];
  cbn [fp_writes]; list_member.

Lemma respects_transform_circuits :
  respects (Pipeline.transform_circuits read_csv to_csv)
           (nth 0 Pipeline.transform_footprints (Pipeline.writes_only [])).
Proof.
  cbn [nth Pipeline.transform_footprints]. split.
  - intros s s' H. unfold Pipeline.transform_circuits. cbv zeta. same_reads s s' H.
  - intros s k v. unfold Pipeline.transform_circuits. cbv zeta.
    destruct (Pipeline.missing_or_small s _); cbn [fst]; intros Hin; one_write Hin.
Qed.

Lemma respects_transform_drivers :
  respects (Pipeline.transform_drivers read_csv to_csv to_datetime)
           (nth 1 Pipeline.transform_footprints (Pipeline.writes_only [])).
Proof.
  cbn [nth Pipeline.transform_footprints]. split.
  - intros s s' H. unfold Pipeline.transform_drivers. same_reads s s' H.
  - intros s k v. unfold Pipeline.transform_drivers. intros Hin; one_write Hin.
Qed.

Lemma respects_transform_races :
  respects (Pipeline.transform_races read_csv to_csv to_datetime)
           (nth 2 Pipeline.transform_footprints (Pipeline.writes_only [])).
Proof.
  cbn [nth Pipeline.transform_footprints]. split.
  - intros s s' H. unfold Pipeline.transform_races. same_reads s s' H.
  - intros s k v. unfold Pipeline.transform_races. intros Hin; one_write Hin.
Qed.

Lemma respects_transform_results :
  respects (Pipeline.transform_results read_csv to_csv)
           (nth 3 Pipeline.transform_footprints (Pipeline.writes_only [])).
Proof.
  cbn [nth Pipeline.transform_footprints]. split.
  - intros s s' H. unfold Pipeline.transform_results. cbv zeta. same_reads s s' H.
  - intros s k v. unfold Pipeline.transform_results. cbv zeta.
    destruct (Pipeline.missing_or_small s _); cbn [fst]; intros Hin; one_write Hin.
Qed.

Lemma respects_transform_qualifying :
  respects (Pipeline.transform_qualifying read_csv to_csv)
           (nth 4 Pipeline.transform_footprints (Pipeline.writes_only [])).
Proof.
  cbn [nth Pipeline.transform_footprints]. split.
  - intros s s' H. unfold Pipeline.transform_qualifying. same_reads s s' H.
  - intros s k v. unfold Pipeline.transform_qualifying. intros Hin; one_write Hin.
Qed.

Lemma respects_transform_pit_stops :
  respects (Pipeline.transform_pit_stops read_csv to_csv)
           (nth 5 Pipeline.transform_footprints (Pipeline.writes_only [])).
Proof.
  cbn [nth Pipeline.transform_footprints]. split.
  - intros s s' H. unfold Pipeline.transform_pit_stops. cbv zeta. same_reads s s' H.
  - intros s k v. unfold Pipeline.transform_pit_stops. cbv zeta.
    destruct (Pipeline.missing_or_small s _); cbn [fst]; intros Hin; one_write Hin.
Qed.

Lemma standings_part_keys (s : store) (input output : loc)
    (frame : DataFrame -> res DataFrame) (ws : writes) (k : loc) (v : obj) :
  Pipeline.standings_part read_csv to_csv s input output frame = Ok ws ->
  (k, v) ∈ ws -> k = output.
Proof.
  unfold Pipeline.standings_part. intros H Hin.
  apply bind_Ok in H as (df & _ & H).
  destruct (negb (df_empty df)).
  - apply bind_Ok in H as (df' & _ & H). injection H as <-.
    apply write_frame_keys in Hin. exact Hin.
  - injection H as <-. apply elem_of_nil in Hin. contradiction.
Qed.

Lemma respects_transform_standings :
  respects (Pipeline.transform_standings read_csv to_csv)
           (nth 6 Pipeline.transform_footprints (Pipeline.writes_only [])).
Proof.
  cbn [nth Pipeline.transform_footprints]. split.
  - intros s s' H. unfold Pipeline.transform_standings, Pipeline.standings_part.
    same_reads s s' H.
  - intros s k v. unfold Pipeline.transform_standings.
    destruct (Pipeline.standings_part read_csv to_csv s _ _ _) as [ws1 | e] eqn:E1;
      [| cbn [fst]; intros Hin; apply elem_of_nil in Hin; contradiction].
    destruct (Pipeline.standings_part read_csv to_csv s
                (Pipeline.raw "driver_standings.csv") _ _) as [ws2 | e] eqn:E2;
      cbn [fst]; intros Hin.
    + apply elem_of_app in Hin as [Hin | Hin].
      * rewrite (standings_part_keys _ _ _ _ _ _ _ E1 Hin). cbn [fp_writes]. list_member.
      * rewrite (standings_part_keys _ _ _ _ _ _ _ E2 Hin). cbn [fp_writes]. list_member.
    + rewrite (standings_part_keys _ _ _ _ _ _ _ E1 Hin). cbn [fp_writes]. list_member.
Qed.

Lemma respects_transform_all :
  Forall2 respects (Pipeline.transform_all read_csv to_csv to_datetime)
          Pipeline.transform_footprints.
Proof.
  unfold Pipeline.transform_all.
  pose proof respects_transform_circuits. pose proof respects_transform_drivers.
  pose proof respects_transform_races. pose proof respects_transform_results.
  pose proof respects_transform_qualifying. pose proof respects_transform_pit_stops.
  pose proof respects_transform_standings.
  unfold Pipeline.transform_footprints in *. cbn [nth] in *.
  repeat first [apply Forall2_nil_2 | apply Forall2_cons_2; [assumption |]].
Qed.

Lemma respects_connect_database :
  respects (Pipeline.connect_database connect) (Pipeline.writes_only []).
Proof.
  split; [reflexivity |].
  intros s k v. unfold Pipeline.connect_database.
  destruct connect; cbn [fst]; intros Hin; apply elem_of_nil in Hin; contradiction.
Qed.

Lemma respects_load_from (path : loc) (prepare : DataFrame -> DataFrame) (name : string) :
  respects (Pipeline.load_from read_csv path prepare name)
           {| fp_reads := [path]; fp_writes := [Table name] |}.
Proof.
  split.
  - intros s s' H. unfold Pipeline.load_from. same_reads s s' H.
  - intros s k v. unfold Pipeline.load_from.
    destruct (Pipeline.pd_read_csv read_csv s path); cbn [fst]; intros Hin; one_write Hin.
Qed.

Lemma respects_load_standings :
  respects (Pipeline.load_standings read_csv)
           (nth 9 Pipeline.load_footprints (Pipeline.writes_only [])).
Proof.
  cbn [nth Pipeline.load_footprints]. split.
  - intros s s' H. unfold Pipeline.load_standings. cbv zeta. same_reads s s' H.
  - intros s k v. unfold Pipeline.load_standings. cbv zeta.
    destruct (Pipeline.pd_read_csv read_csv s _) as [dc | e];
      [| cbn [fst]; intros Hin; apply elem_of_nil in Hin; contradiction].
    destruct (Pipeline.pd_read_csv read_csv s _) as [dd | e]; cbn [fst]; intros Hin.
    + apply elem_of_app in Hin as [Hin | Hin]; one_write Hin.
    + one_write Hin.
Qed.

Lemma respects_load_all :
  Forall2 respects (Pipeline.load_all read_csv to_datetime dt_date connect)
          Pipeline.load_footprints.
Proof.
  unfold Pipeline.load_all.
  pose proof respects_load_standings as Hstandings.
  unfold Pipeline.load_footprints in *. cbn [nth] in Hstandings.
  repeat first
    [ apply Forall2_nil_2
    | apply Forall2_cons_2;
      [ first [ apply respects_connect_database
              | apply respects_load_from
              | exact Hstandings ] | ] ].
Qed.

Lemma respects_pipeline (start_year end_year : Z)
    (skip_extract skip_transform skip_load : bool) :
  Forall2 respects
    (Pipeline.pipeline read_csv to_csv to_datetime dt_date connect api fuel
       start_year end_year skip_extract skip_transform skip_load)
    (Pipeline.pipeline_footprints skip_extract skip_transform skip_load).
Proof.
  unfold Pipeline.pipeline, Pipeline.pipeline_footprints.
  repeat apply Forall2_app.
  - destruct skip_extract; [constructor | apply respects_extract_all].
  - destruct skip_transform; [constructor | apply respects_transform_all].
  - destruct skip_load; [constructor | apply respects_load_all].
Qed.

Lemma pipeline_hazard_free (skip_extract skip_transform skip_load : bool) :
  hazard_free (Pipeline.pipeline_footprints skip_extract skip_transform skip_load) = true.
Proof. destruct skip_extract, skip_transform, skip_load; vm_compute; reflexivity. Qed.

End Footprints.

(** The loader's relative paths name the staged raw files. *)
Example loader_raw_paths :
  Pipeline.processed "../raw/seasons.csv" = File "data/raw/seasons.csv" /\
  Pipeline.processed "../raw/constructors.csv" = Pipeline.raw "constructors.csv".
Proof. split; reflexivity. Qed.

(** C9. Run again on the store that a first run left, over the same upstream
    snapshot and with the same collaborators, the pipeline leaves every
    staged file and every loaded table as it found them, surrogate ids
    included, and ends the same way; as a function of the snapshot and the
    store it is deterministic by construction. *)
Theorem pipeline_idempotent
    (read_csv : string -> res DataFrame) (to_csv : DataFrame -> string)
    (to_datetime dt_date : Series -> Series) (connect : res unit)
    (api : Extract.Api) (fuel : nat) (start_year end_year : Z)
    (skip_extract skip_transform skip_load : bool) (s : store) :
  Pipeline.run_full_pipeline read_csv to_csv to_datetime dt_date connect api fuel
    start_year end_year skip_extract skip_transform skip_load
    (Pipeline.run_full_pipeline read_csv to_csv to_datetime dt_date connect api fuel
       start_year end_year skip_extract skip_transform skip_load s).1
  = Pipeline.run_full_pipeline read_csv to_csv to_datetime dt_date connect api fuel
      start_year end_year skip_extract skip_transform skip_load s.
Proof.
  unfold Pipeline.run_full_pipeline.
  eapply hazard_free_idempotent.
  - apply respects_pipeline.
  - apply pipeline_hazard_free.
Qed.

(** Surrogate ids are the row numbers, in encounter order (lines 143 and 183). *)
Lemma surrogate_ids_by_row_order (c : string) (df df' : DataFrame) :
  df_insert_ids c df = Ok df' ->
  df_lookup c df' = Some (map (fun i => Int (Z.of_nat i)) (seq 1 (df_len df))).
Proof.
  unfold df_insert_ids. destruct (df_has c df); [discriminate |].
  intros [= <-]. cbn [df_lookup]. rewrite String.eqb_refl. reflexivity.
Qed.

(** ** A missing staged input *)

Lemma run_app (p q : list act) (s : store) :
  run (p ++ q) s =
  match (run p s).2 with
  | Finished => run q (run p s).1
  | _ => run p s
  end.
Proof.
  revert s. induction p as [| a p IH]; intros s; [reflexivity |].
  cbn [app run]. destruct (a s).2; [apply IH | reflexivity | reflexivity].
Qed.

Section MissingInput.

Variable read_csv : string -> res DataFrame.
Variable to_csv : DataFrame -> string.
Variable to_datetime : Series -> Series.

Local Abbreviation transform_all := (Pipeline.transform_all read_csv to_csv to_datetime).

(** The four methods that run before [transform_qualifying]. *)
Lemma transform_all_split :
  transform_all =
  ([Pipeline.transform_circuits read_csv to_csv;
    Pipeline.transform_drivers read_csv to_csv to_datetime;
    Pipeline.transform_races read_csv to_csv to_datetime;
    Pipeline.transform_results read_csv to_csv]
   ++ Pipeline.transform_qualifying read_csv to_csv
   :: [Pipeline.transform_pit_stops read_csv to_csv;
       Pipeline.transform_standings read_csv to_csv])%list.
Proof. reflexivity. Qed.

Lemma respects_before_qualifying :
  Forall2 respects
    [Pipeline.transform_circuits read_csv to_csv;
     Pipeline.transform_drivers read_csv to_csv to_datetime;
     Pipeline.transform_races read_csv to_csv to_datetime;
     Pipeline.transform_results read_csv to_csv]
    (take 4 Pipeline.transform_footprints).
Proof.
  pose proof (respects_transform_all read_csv to_csv to_datetime) as H.
  apply (Forall2_take _ _ _ 4) in H. exact H.
Qed.

Lemma transform_qualifying_missing (s : store) :
  s !! Pipeline.raw "qualifying.csv" = None ->
  Pipeline.transform_qualifying read_csv to_csv s = ([], Failed FileNotFoundError).
Proof.
  intros H. unfold Pipeline.transform_qualifying, Pipeline.pd_read_csv.
  rewrite H. reflexivity.
Qed.

(** Without [qualifying.csv] the run of [transform_all] does not finish, and
    changes no file that is not an output of the methods before
    [transform_qualifying]. *)
Lemma transform_all_missing_qualifying (s : store) :
  s !! Pipeline.raw "qualifying.csv" = None ->
  (run transform_all s).2 <> Finished /\
  forall k, k ∉ all_writes (take 4 Pipeline.transform_footprints) ->
            (run transform_all s).1 !! k = s !! k.
Proof.
  intros Hmissing. rewrite transform_all_split, run_app.
  set (before := [Pipeline.transform_circuits read_csv to_csv;
                  Pipeline.transform_drivers read_csv to_csv to_datetime;
                  Pipeline.transform_races read_csv to_csv to_datetime;
                  Pipeline.transform_results read_csv to_csv]).
  pose proof (fun k => run_frame before _ s k respects_before_qualifying) as Hframe.
  fold before in Hframe.
  destruct (run before s).2 eqn:Hend.
  - assert (Hstill : (run before s).1 !! Pipeline.raw "qualifying.csv" = None).
    { rewrite Hframe; [exact Hmissing |].
      not_member. }
    cbn [run]. rewrite (transform_qualifying_missing _ Hstill). cbn [fst snd apply_writes fold_left].
    split; [discriminate | exact Hframe].
  - rewrite Hend. split; [discriminate | exact Hframe].
  - rewrite Hend. split; [discriminate | exact Hframe].
Qed.

End MissingInput.

(** C6. Without the staged [qualifying.csv], [transform_qualifying] raises
    [FileNotFoundError] and writes no output table; [transform_all] lets the
    exception through, so the run does not finish and the entities after it
    (pit stops, standings) are not normalised.  [transform_drivers] and
    [transform_races] read their input the same unguarded way.  The guarded
    methods do what the claim says: without [circuits.csv],
    [transform_circuits] writes an empty table and returns. *)
Theorem missing_qualifying_aborts_run
    (read_csv : string -> res DataFrame) (to_csv : DataFrame -> string)
    (to_datetime : Series -> Series) (s : store) :
  let s' := delete (Pipeline.raw "qualifying.csv") s in
  Pipeline.transform_qualifying read_csv to_csv s' = ([], Failed FileNotFoundError) /\
  (run (Pipeline.transform_all read_csv to_csv to_datetime) s').2 <> Finished /\
  (run (Pipeline.transform_all read_csv to_csv to_datetime) s').1
    !! Pipeline.processed "qualifying_clean.csv"
  = s !! Pipeline.processed "qualifying_clean.csv" /\
  (run (Pipeline.transform_all read_csv to_csv to_datetime) s').1
    !! Pipeline.processed "pit_stops_clean.csv"
  = s !! Pipeline.processed "pit_stops_clean.csv" /\
  Pipeline.transform_drivers read_csv to_csv to_datetime
    (delete (Pipeline.raw "drivers.csv") s) = ([], Failed FileNotFoundError) /\
  Pipeline.transform_races read_csv to_csv to_datetime
    (delete (Pipeline.raw "races.csv") s) = ([], Failed FileNotFoundError) /\
  Pipeline.transform_circuits read_csv to_csv (delete (Pipeline.raw "circuits.csv") s)
  = ([(Pipeline.processed "circuits_clean.csv", Text (to_csv empty_frame))], Finished).
Proof.
  intros s'.
  assert (Hmissing : s' !! Pipeline.raw "qualifying.csv" = None) by apply lookup_delete_eq.
  destruct (transform_all_missing_qualifying read_csv to_csv to_datetime s' Hmissing)
    as [Hend Hframe].
  split; [apply transform_qualifying_missing; exact Hmissing |].
  split; [exact Hend |].
  split; [| split; [| split; [| split]]].
  - rewrite Hframe by not_member.
    apply lookup_delete_ne. discriminate.
  - rewrite Hframe by not_member.
    apply lookup_delete_ne. discriminate.
  - unfold Pipeline.transform_drivers, Pipeline.pd_read_csv.
    rewrite lookup_delete_eq. reflexivity.
  - unfold Pipeline.transform_races, Pipeline.pd_read_csv.
    rewrite lookup_delete_eq. reflexivity.
  - unfold Pipeline.transform_circuits, Pipeline.missing_or_small. cbv zeta.
    rewrite lookup_delete_eq. reflexivity.
Qed.

(** * Further properties of the extraction *)

(** ** [_extract_table] *)

Lemma first_list_is_list (d : list (string * Extract.json)) (v : Extract.json) :
  Extract.first_list d = Some v -> Extract.is_list v = true.
Proof.
  induction d as [| [k w] d IH]; cbn [Extract.first_list]; [discriminate |].
  destruct (Extract.is_list w) eqn:E; [intros [= <-]; exact E | exact IH].
Qed.

Lemma first_list_none (d : list (string * Extract.json)) (k : string) (v : Extract.json) :
  Extract.first_list d = None -> Extract.assoc k d = Some v -> Extract.is_list v = false.
Proof.
  induction d as [| [k' w] d IH]; cbn [Extract.first_list Extract.assoc]; [discriminate |].
  destruct (Extract.is_list w) eqn:E; [discriminate |].
  destruct (String.eqb k k'); [intros _ [= <-]; exact E | exact IH].
Qed.



(** X2. A table that the response holds under another name than the requested
    one is still found: the first key of [MRData] that ends in [Table] is
    taken (lines 35-40), and its first list is returned. *)
Theorem extract_table_other_name
    (json_data : Extract.response) (table_name : string)
    (mr d : list (string * Extract.json)) (v : Extract.json) :
  Extract.assoc "MRData" json_data = Some (Extract.JDict mr) ->
  Extract.assoc table_name mr = None ->
  Extract.first_table mr = Some (Extract.JDict d) ->
  Extract.first_list d = Some v ->
  Extract.extract_table json_data table_name = Ok v.
Proof.
  intros Hmr Hname Htable Hlist. unfold Extract.extract_table.
  destruct json_data as [| kv data]; [discriminate Hmr |].
  rewrite Hmr. cbn [Extract.get]. rewrite Hname. res_step.
  cbn [from_option Extract.truthy negb]. rewrite Htable. res_step.
  cbn [from_option id].
  destruct d as [| e d]; [discriminate Hlist |].
  cbn [Extract.truthy negb]. rewrite Hlist. reflexivity.
Qed.

Lemma extract_table_other_name_witness :
  Extract.extract_table
    (Fixtures.circuits_page [Fixtures.circuit_json "bahrain" "Bahrain International Circuit"])
    "CircuitsTable"
  = Ok (Extract.JList [Fixtures.circuit_json "bahrain" "Bahrain International Circuit"]).
Proof.
  eapply extract_table_other_name; reflexivity.
Defined.

(** ** Rows collected by the paginated loops *)

Section CollectedRows.

Variable api : Extract.Api.
Variable endpoint table_name : string.
Variable limit : Z.
Variable rows_of : Extract.json -> res (list record).

Local Abbreviation page_step := (Extract.page_step api endpoint table_name limit rows_of).
Local Abbreviation paginate := (Extract.paginate api endpoint table_name limit rows_of).

Lemma traverse_Forall {A B : Type} (Q : B -> Prop) (f : A -> res B)
    (xs : list A) (ys : list B) :
  (forall x y, f x = Ok y -> Q y) -> traverse f xs = Ok ys -> Forall Q ys.
Proof.
  intros Hf. revert ys. induction xs as [| x xs IH]; intros ys H; cbn [traverse] in H.
  - injection H as <-. constructor.
  - destruct (f x) as [y | e] eqn:E; cbn [bind] in H; [| discriminate H].
    destruct (traverse f xs) as [ys' | e]; cbn [bind] in H; [| discriminate H].
    injection H as <-. constructor; [eapply Hf; eassumption | apply IH; reflexivity].
Qed.

(** One pass through the loop body keeps what was collected, and adds only
    rows that the row mapper gave. *)
Lemma page_step_rows (P : record -> Prop) (offset : Z) (acc : list record) :
  (forall item rows, rows_of item = Ok rows -> Forall P rows) ->
  match page_step offset acc with
  | Extract.Break (Ok rows) => exists more, rows = (acc ++ more)%list /\ Forall P more
  | Extract.Break (Raise _) => True
  | Extract.Next rows => exists more, rows = (acc ++ more)%list /\ Forall P more
  end.
Proof.
  intros Hrows. unfold Extract.page_step.
  assert (Hnone : exists more : list record, acc = (acc ++ more)%list /\ Forall P more).
  { exists []. split; [symmetry; apply app_nil_r | constructor]. }
  destruct (Extract.make_request api endpoint limit offset) as [[| kv data] |];
    try exact Hnone.
  destruct (Extract.extract_table (kv :: data) table_name) as [items | e]; [| exact I].
  destruct (negb (Extract.truthy items)); [exact Hnone |].
  destruct (Extract.py_iter items) as [l | e]; res_step; [| exact I].
  destruct (traverse rows_of l) as [rs | e] eqn:Hrs; res_step; [| exact I].
  destruct (Extract.py_len items) as [n | e]; res_step; [| exact I].
  assert (Hall : Forall P (concat rs)).
  { apply Forall_concat. eapply traverse_Forall; [| exact Hrs]. exact Hrows. }
  destruct (n <? limit); exists (concat rs); split; auto.
Qed.

Lemma paginate_rows (P : record -> Prop) (fuel : nat) (offset : Z)
    (acc rows : list record) :
  (forall item rows, rows_of item = Ok rows -> Forall P rows) ->
  paginate fuel offset acc = Some (Ok rows) ->
  exists more, rows = (acc ++ more)%list /\ Forall P more.
Proof.
  intros Hrows. revert offset acc.
  induction fuel as [| fuel IH]; intros offset acc H; [discriminate H |].
  cbn [Extract.paginate] in H.
  pose proof (page_step_rows P offset acc Hrows) as Hstep.
  destruct (page_step offset acc) as [[r | e] | acc1].
  - injection H as <-. exact Hstep.
  - discriminate H.
  - destruct Hstep as (m1 & -> & H1). apply IH in H as (m2 & -> & H2).
    exists (m1 ++ m2)%list. split; [symmetry; apply app_assoc | apply Forall_app; auto].
Qed.

(** While every page is full, no number of passes ends the loop. *)
Lemma paginate_all_full (fuel : nat) (offset : Z) (acc : list record) :
  (forall offset acc, exists acc', page_step offset acc = Extract.Next acc') ->
  paginate fuel offset acc = None.
Proof.
  intros Hfull. revert offset acc.
  induction fuel as [| fuel IH]; intros offset acc; [reflexivity |].
  cbn [Extract.paginate]. destruct (Hfull offset acc) as (acc' & ->). apply IH.
Qed.

End CollectedRows.

Lemma per_year_rows (P : record -> Prop) (api : Extract.Api) (suffix : string)
    (rows_of : Z -> Extract.json -> res (list record)) (fuel : nat)
    (years : list Z) (acc rows : list record) :
  (forall year item rows, rows_of year item = Ok rows -> Forall P rows) ->
  Extract.per_year api suffix rows_of fuel years acc = Some (Ok rows) ->
  exists more, rows = (acc ++ more)%list /\ Forall P more.
Proof.
  intros Hrows. revert acc.
  induction years as [| year years IH]; intros acc H; cbn [Extract.per_year] in H.
  - injection H as <-. exists []. split; [symmetry; apply app_nil_r | constructor].
  - destruct (Extract.paginate api (str year ++ suffix) "RaceTable" 100 (rows_of year) fuel 0 acc)
      as [[acc1 | e] |] eqn:E; cbn [Extract.run_bind] in H; try discriminate H.
    apply (paginate_rows _ _ _ _ _ P) in E as (m1 & -> & H1); [| apply Hrows].
    apply IH in H as (m2 & -> & H2).
    exists (m1 ++ m2)%list. split; [symmetry; apply app_assoc | apply Forall_app; auto].
Qed.

(** X3. Rows already collected are never dropped or reordered: what a
    paginated loop returns starts with the rows it was entered with, and the
    same holds across the years of a year-scoped extractor. *)
Theorem collected_rows_are_kept :
  (forall api endpoint table_name limit rows_of fuel offset acc rows,
      Extract.paginate api endpoint table_name limit rows_of fuel offset acc = Some (Ok rows) ->
      exists more, rows = (acc ++ more)%list) /\
  (forall api suffix rows_of fuel years acc rows,
      Extract.per_year api suffix rows_of fuel years acc = Some (Ok rows) ->
      exists more, rows = (acc ++ more)%list).
Proof.
  split.
  - intros api endpoint table_name limit rows_of fuel offset acc rows H.
    apply (paginate_rows _ _ _ _ _ (fun _ => True)) in H as (more & -> & _).
    + exists more. reflexivity.
    + intros item rs _. apply Forall_forall. intros; exact I.
  - intros api suffix rows_of fuel years acc rows H.
    apply (per_year_rows (fun _ => True)) in H as (more & -> & _).
    + exists more. reflexivity.
    + intros year item rs _. apply Forall_forall. intros; exact I.
Qed.

Lemma collected_rows_are_kept_witness :
  exists rows more,
    Extract.paginate Fixtures.api_short "circuits" "CircuitsTable" 2
      Extract.circuit_rows 5 2 [[("circuit_ref", Str "bahrain")]] = Some (Ok rows) /\
    rows = ([[("circuit_ref", Str "bahrain")]] ++ more)%list.
Proof.
  assert (H : exists rows,
             Extract.paginate Fixtures.api_short "circuits" "CircuitsTable" 2
               Extract.circuit_rows 5 2 [[("circuit_ref", Str "bahrain")]] = Some (Ok rows)).
  { eexists. vm_compute. reflexivity. }
  destruct H as (rows & H).
  destruct (proj1 collected_rows_are_kept _ _ _ _ _ _ _ _ _ H) as (more & Hmore).
  exists rows, more. split; assumption.
Defined.

(** X4. The loop has no bound of its own: against an upstream whose every page
    is full (one that ignores the offset, say) it never returns, whatever
    the number of passes allowed. *)
Theorem paginate_full_pages_never_end
    (api : Extract.Api) (endpoint table_name : string) (limit : Z)
    (rows_of : Extract.json -> res (list record)) :
  (forall offset acc, exists acc',
      Extract.page_step api endpoint table_name limit rows_of offset acc = Extract.Next acc') ->
  forall fuel offset acc,
    Extract.paginate api endpoint table_name limit rows_of fuel offset acc = None.
Proof.
  intros Hfull fuel offset acc. apply paginate_all_full. exact Hfull.
Qed.

Lemma paginate_full_pages_never_end_witness :
  Extract.paginate Fixtures.api_same_page "circuits" "CircuitsTable" 2
    Extract.circuit_rows 1000 0 [] = None.
Proof.
  apply paginate_full_pages_never_end.
  intros offset acc. eexists. vm_compute. reflexivity.
Defined.

(** ** Year ranges *)

Lemma year_range_empty (start_year end_year : Z) :
  end_year < start_year -> Extract.year_range start_year end_year = [].
Proof.
  intros H. unfold Extract.year_range, seqZ.
  replace (Z.to_nat (end_year + 1 - start_year)) with 0%nat by lia. reflexivity.
Qed.

(** X5. With [end_year < start_year] the year loops run no pass: the four
    year-scoped extractors and the standings return an empty table without
    a single request, whatever the upstream and even with no pass allowed. *)
Theorem empty_year_range_extracts_nothing
    (api : Extract.Api) (fuel : nat) (start_year end_year : Z) :
  end_year < start_year ->
  Extract.extract_races api fuel start_year end_year = Some (Ok empty_frame) /\
  Extract.extract_results api fuel start_year end_year = Some (Ok empty_frame) /\
  Extract.extract_qualifying api fuel start_year end_year = Some (Ok empty_frame) /\
  Extract.extract_pit_stops api fuel start_year end_year = Some (Ok empty_frame) /\
  Extract.extract_standings api start_year end_year = Ok (empty_frame, empty_frame).
Proof.
  intros H.
  unfold Extract.extract_races, Extract.extract_results, Extract.extract_qualifying,
    Extract.extract_pit_stops, Extract.extract_standings.
  rewrite (year_range_empty _ _ H). repeat split.
Qed.

Lemma empty_year_range_extracts_nothing_witness :
  Extract.extract_races Fixtures.api_same_page 0 2024 2023 = Some (Ok empty_frame) /\
  Extract.extract_results Fixtures.api_same_page 0 2024 2023 = Some (Ok empty_frame) /\
  Extract.extract_qualifying Fixtures.api_same_page 0 2024 2023 = Some (Ok empty_frame) /\
  Extract.extract_pit_stops Fixtures.api_same_page 0 2024 2023 = Some (Ok empty_frame) /\
  Extract.extract_standings Fixtures.api_same_page 2024 2023 = Ok (empty_frame, empty_frame).
Proof. apply empty_year_range_extracts_nothing. lia. Defined.

(** X6. [extract_all] never asks for the pit stops of a season before 2012
    (line 497): the years requested lie between [max(2012, start_year)] and
    [end_year], and a range that ends before 2012 stages an empty
    [pit_stops.csv] without any request. *)
Theorem pit_stops_start_in_2012
    (to_csv : DataFrame -> string) (api : Extract.Api) (fuel : nat)
    (start_year end_year : Z) (s : store) :
  end_year < 2012 ->
  nth_error (Pipeline.extract_all to_csv api fuel start_year end_year) 7
  = Some (Pipeline.extract_pit_stops to_csv api fuel (Z.max 2012 start_year) end_year) /\
  Pipeline.extract_pit_stops to_csv api fuel (Z.max 2012 start_year) end_year s
  = ([(Pipeline.raw "pit_stops.csv", Text (to_csv empty_frame))], Finished) /\
  forall start_year' end_year' year,
    year ∈ Extract.year_range (Z.max 2012 start_year') end_year' ->
    2012 <= year /\ start_year' <= year <= end_year'.
Proof.
  intros H. split; [reflexivity |]. split.
  - unfold Pipeline.extract_pit_stops, Extract.extract_pit_stops.
    rewrite year_range_empty by lia. reflexivity.
  - intros start_year' end_year' year Hin. unfold Extract.year_range in Hin.
    apply elem_of_seqZ in Hin. lia.
Qed.

Lemma pit_stops_start_in_2012_witness :
  nth_error (Pipeline.extract_all Fixtures.csv_text Fixtures.api_same_page 0 2005 2010) 7
  = Some (Pipeline.extract_pit_stops Fixtures.csv_text Fixtures.api_same_page 0
            (Z.max 2012 2005) 2010) /\
  Pipeline.extract_pit_stops Fixtures.csv_text Fixtures.api_same_page 0
    (Z.max 2012 2005) 2010 ∅
  = ([(Pipeline.raw "pit_stops.csv", Text (Fixtures.csv_text empty_frame))], Finished) /\
  forall start_year' end_year' year,
    year ∈ Extract.year_range (Z.max 2012 start_year') end_year' ->
    2012 <= year /\ start_year' <= year <= end_year'.
Proof. apply pit_stops_start_in_2012. lia. Defined.

(** ** Surrogate ids given at extraction *)

Lemma df_lookup_map_cols (f : string -> Series) (cols : list string) (c : string) :
  c ∈ cols -> df_lookup c (map (fun c => (c, f c)) cols) = Some (f c).
Proof.
  induction cols as [| c' cols IH]; intros Hin.
  - apply elem_of_nil in Hin. contradiction.
  - cbn [map df_lookup]. destruct (String.eqb_spec c c') as [-> | Hne]; [reflexivity |].
    apply IH. apply elem_of_cons in Hin as [-> | Hin]; [contradiction | exact Hin].
Qed.

Lemma df_lookup_map_cols_none (f : string -> Series) (cols : list string) (c : string) :
  c ∉ cols -> df_lookup c (map (fun c => (c, f c)) cols) = None.
Proof.
  induction cols as [| c' cols IH]; intros Hout; [reflexivity |].
  apply not_elem_of_cons in Hout as [Hne Hout].
  cbn [map df_lookup]. destruct (String.eqb_spec c c') as [-> | _]; [contradiction |].
  apply IH. exact Hout.
Qed.

(** Records that all carry the keys [cols] make a frame with those columns. *)
Lemma frame_of_records_uniform (cols : list string) (rows : list record) :
  Forall (fun r => map fst r = cols) rows -> rows <> [] ->
  frame_of_records rows = map (fun c => (c, map (record_get c) rows)) cols.
Proof.
  destruct rows as [| r rows]; [contradiction |].
  intros H _. apply Forall_cons in H as [Hr _].
  cbn [frame_of_records]. rewrite Hr. reflexivity.
Qed.

Lemma lookup_map {A B : Type} (f : A -> B) (l : list A) (i : nat) :
  map f l !! i = option_map f (l !! i).
Proof.
  revert i. induction l as [| x l IH]; intros [| i]; cbn; auto.
Qed.

Lemma range_ids_lookup (n i : nat) :
  (i < n)%nat -> range_ids n !! i = Some (Int (Z.of_nat i + 1)).
Proof.
  intros Hi. unfold range_ids.
  etransitivity; [apply lookup_map |].
  rewrite lookup_seq_lt by exact Hi.
  cbn [option_map]. do 2 f_equal. lia.
Qed.

Lemma range_ids_length (n : nat) : length (range_ids n) = n.
Proof. unfold range_ids. rewrite length_map. apply length_seq. Qed.

(** [df.insert(0, id_col, range(1, len(df) + 1))] on the frame of uniform
    records: it succeeds, and row [i] holds the id [i + 1] beside the fields
    of the [i]-th record. *)
Lemma insert_ids_cells (id_col ref_col : string) (cols : list string) (rows : list record) :
  Forall (fun r => map fst r = cols) rows -> (ref_col ∈ cols) -> (id_col ∉ cols) ->
  exists df,
    df_insert_ids id_col (frame_of_records rows) = Ok df /\
    df_len df = length rows /\
    forall i row, rows !! i = Some row ->
      df_cell id_col i df = Some (Int (Z.of_nat i + 1)) /\
      df_cell ref_col i df = Some (record_get ref_col row).
Proof.
  intros Hkeys Hin Hout.
  destruct rows as [| r rows].
  - exists [(id_col, [])]. split; [reflexivity |]. split; [reflexivity |].
    intros i row Hrow. rewrite lookup_nil in Hrow. discriminate Hrow.
  - set (rs := r :: rows) in *.
    assert (Hframe : frame_of_records rs
                     = map (fun c => (c, map (record_get c) rs)) cols)
      by (apply frame_of_records_uniform; [exact Hkeys | discriminate]).
    assert (Hlen : df_len (frame_of_records rs) = length rs).
    { rewrite Hframe. destruct cols as [| c cols]; [apply elem_of_nil in Hin; contradiction |].
      cbn [map df_len]. apply length_map. }
    assert (Hne : id_col <> ref_col) by (intros ->; contradiction).
    exists ((id_col, range_ids (df_len (frame_of_records rs))) :: frame_of_records rs).
    split.
    + unfold df_insert_ids, df_has. rewrite Hframe at 1.
      rewrite df_lookup_map_cols_none by exact Hout. reflexivity.
    + split; [cbn [df_len]; rewrite range_ids_length; exact Hlen |].
      intros i row Hrow. unfold df_cell. cbn [df_lookup].
      rewrite String.eqb_refl.
      destruct (String.eqb_spec ref_col id_col) as [E | _]; [congruence |].
      split.
      * apply range_ids_lookup. rewrite Hlen. eapply lookup_lt_Some. exact Hrow.
      * rewrite Hframe, df_lookup_map_cols by exact Hin.
        etransitivity; [apply lookup_map |]. rewrite Hrow. reflexivity.
Qed.

Lemma constructor_rows_keys (constructor : Extract.json) (rows : list record) :
  Extract.constructor_rows constructor = Ok rows ->
  Forall (fun r => map fst r = ["constructor_ref"; "constructor_name"; "nationality"; "url"])
         rows.
Proof.
  unfold Extract.constructor_rows. intros H.
  repeat (apply bind_Ok in H as (? & _ & H)).
  injection H as <-. repeat constructor.
Qed.

Lemma driver_rows_keys (driver : Extract.json) (rows : list record) :
  Extract.driver_rows driver = Ok rows ->
  Forall (fun r => map fst r = ["driver_ref"; "driver_number"; "code"; "forename";
                                "surname"; "dob"; "nationality"; "url"]) rows.
Proof.
  unfold Extract.driver_rows. intros H.
  repeat (apply bind_Ok in H as (? & _ & H)).
  injection H as <-. repeat constructor.
Qed.

(** X7. The ids that [extract_constructors] and [extract_drivers] stage follow
    the order of arrival: the insertion of the id column never fails, the
    frame has one row per collected item, and the [i]-th item (from 0) gets
    the id [i + 1] beside its own reference. *)
Theorem extracted_ids_follow_arrival_order :
  (forall api fuel rows,
      Extract.paginate api "constructors" "ConstructorTable" 100
        Extract.constructor_rows fuel 0 [] = Some (Ok rows) ->
      exists df,
        Extract.extract_constructors api fuel = Some (Ok df) /\
        df_len df = length rows /\
        forall i row, rows !! i = Some row ->
          df_cell "constructor_id" i df = Some (Int (Z.of_nat i + 1)) /\
          df_cell "constructor_ref" i df = Some (record_get "constructor_ref" row)) /\
  (forall api fuel rows,
      Extract.paginate api "drivers" "DriverTable" 100
        Extract.driver_rows fuel 0 [] = Some (Ok rows) ->
      exists df,
        Extract.extract_drivers api fuel = Some (Ok df) /\
        df_len df = length rows /\
        forall i row, rows !! i = Some row ->
          df_cell "driver_id" i df = Some (Int (Z.of_nat i + 1)) /\
          df_cell "driver_ref" i df = Some (record_get "driver_ref" row)).
Proof.
  split; intros api fuel rows H.
  - pose proof H as Hrows.
    apply (paginate_rows _ _ _ _ _ _ _ _ _ _ constructor_rows_keys) in Hrows
      as (more & -> & Hkeys).
    cbn [app] in *.
    destruct (insert_ids_cells "constructor_id" "constructor_ref" _ more Hkeys)
      as (df & Hdf & Hlen & Hcells); [list_member | not_member |].
    exists df. unfold Extract.extract_constructors. rewrite H.
    cbn [Extract.run_bind Extract.lift]. rewrite Hdf. auto.
  - pose proof H as Hrows.
    apply (paginate_rows _ _ _ _ _ _ _ _ _ _ driver_rows_keys) in Hrows
      as (more & -> & Hkeys).
    cbn [app] in *.
    destruct (insert_ids_cells "driver_id" "driver_ref" _ more Hkeys)
      as (df & Hdf & Hlen & Hcells); [list_member | not_member |].
    exists df. unfold Extract.extract_drivers. rewrite H.
    cbn [Extract.run_bind Extract.lift]. rewrite Hdf. auto.
Qed.

Lemma extracted_ids_follow_arrival_order_witness :
  exists df,
    Extract.extract_constructors Fixtures.api_constructors 3 = Some (Ok df) /\
    df_len df = 2%nat /\
    df_cell "constructor_id" 1 df = Some (Int 2) /\
    df_cell "constructor_ref" 1 df = Some (Str "ferrari").
Proof.
  assert (H : exists rows,
             Extract.paginate Fixtures.api_constructors "constructors" "ConstructorTable" 100
               Extract.constructor_rows 3 0 [] = Some (Ok rows) /\
             length rows = 2%nat /\
             exists row, rows !! 1%nat = Some row /\
                         record_get "constructor_ref" row = Str "ferrari").
  { eexists. split; [vm_compute; reflexivity |]. split; [reflexivity |].
    eexists. split; reflexivity. }
  destruct H as (rows & H & Hlen & row & Hrow & Href).
  destruct (proj1 extracted_ids_follow_arrival_order _ _ _ H) as (df & Hdf & Hn & Hcells).
  exists df. split; [exact Hdf |]. split; [congruence |].
  destruct (Hcells _ _ Hrow) as [Hid Hcell].
  split; [exact Hid | congruence].
Defined.

(** ** An upstream that answers nothing *)

Section Outage.

Variable api : Extract.Api.
Hypothesis api_is_down : forall endpoint limit offset, api endpoint limit offset = None.

Lemma paginate_down (endpoint table_name : string) (limit : Z)
    (rows_of : Extract.json -> res (list record)) (fuel : nat) (offset : Z)
    (acc : list record) :
  Extract.paginate api endpoint table_name limit rows_of (S fuel) offset acc = Some (Ok acc).
Proof.
  cbn [Extract.paginate]. rewrite page_step_failure by apply api_is_down. reflexivity.
Qed.

Lemma per_year_down (suffix : string) (rows_of : Z -> Extract.json -> res (list record))
    (fuel : nat) (years : list Z) (acc : list record) :
  Extract.per_year api suffix rows_of (S fuel) years acc = Some (Ok acc).
Proof.
  induction years as [| year years IH]; [reflexivity |].
  rewrite per_year_failure by apply api_is_down. exact IH.
Qed.

Lemma standings_rounds_down (kind list_key key_name ref_col ref_key : string)
    (year : Z) (rounds : list Z) (acc : list record) :
  Extract.standings_rounds api kind list_key key_name ref_col ref_key year rounds acc = Ok acc.
Proof.
  induction rounds as [| r rounds IH]; [reflexivity |].
  cbn [Extract.standings_rounds]. unfold Extract.standings_round, Extract.make_request.
  rewrite api_is_down. res_step. exact IH.
Qed.

Lemma standings_years_down (years : list Z) (acc_const acc_driver : list record) :
  Extract.standings_years api years acc_const acc_driver = Ok (acc_const, acc_driver).
Proof.
  induction years as [| year years IH]; [reflexivity |].
  cbn [Extract.standings_years]. rewrite !standings_rounds_down. res_step. exact IH.
Qed.

End Outage.

Lemma run_step (a : act) (p : list act) (s : store) (ws : writes) :
  a s = (ws, Finished) -> run (a :: p) s = run p (apply_writes ws s).
Proof. intros H. cbn [run]. rewrite H. reflexivity. Qed.

(** X8. When no request is answered, [extract_all] still runs to its end
    without an exception, and overwrites every staged file but
    [seasons.csv] with an empty table: the tables of an earlier extraction
    are lost.  [extract_seasons] alone returns before writing. *)
Theorem extraction_during_outage
    (to_csv : DataFrame -> string) (api : Extract.Api) (fuel : nat)
    (start_year end_year : Z) (s : store) :
  (forall endpoint limit offset, api endpoint limit offset = None) ->
  run (Pipeline.extract_all to_csv api (S fuel) start_year end_year) s
  = (apply_writes
       [(Pipeline.raw "circuits.csv", Text (to_csv empty_frame));
        (Pipeline.raw "constructors.csv", Text (to_csv [("constructor_id", [])]));
        (Pipeline.raw "drivers.csv", Text (to_csv [("driver_id", [])]));
        (Pipeline.raw "races.csv", Text (to_csv empty_frame));
        (Pipeline.raw "results.csv", Text (to_csv empty_frame));
        (Pipeline.raw "qualifying.csv", Text (to_csv empty_frame));
        (Pipeline.raw "pit_stops.csv", Text (to_csv empty_frame));
        (Pipeline.raw "constructor_standings.csv", Text (to_csv empty_frame));
        (Pipeline.raw "driver_standings.csv", Text (to_csv empty_frame))] s,
     Finished) /\
  (run (Pipeline.extract_all to_csv api (S fuel) start_year end_year) s).1
    !! Pipeline.raw "seasons.csv"
  = s !! Pipeline.raw "seasons.csv".
Proof.
  intros Hdown.
  assert (Hrun : run (Pipeline.extract_all to_csv api (S fuel) start_year end_year) s
                 = (apply_writes
                      [(Pipeline.raw "circuits.csv", Text (to_csv empty_frame));
                       (Pipeline.raw "constructors.csv", Text (to_csv [("constructor_id", [])]));
                       (Pipeline.raw "drivers.csv", Text (to_csv [("driver_id", [])]));
                       (Pipeline.raw "races.csv", Text (to_csv empty_frame));
                       (Pipeline.raw "results.csv", Text (to_csv empty_frame));
                       (Pipeline.raw "qualifying.csv", Text (to_csv empty_frame));
                       (Pipeline.raw "pit_stops.csv", Text (to_csv empty_frame));
                       (Pipeline.raw "constructor_standings.csv", Text (to_csv empty_frame));
                       (Pipeline.raw "driver_standings.csv", Text (to_csv empty_frame))] s,
                    Finished)).
  { unfold Pipeline.extract_all.
    rewrite (run_step _ _ _ [(Pipeline.raw "circuits.csv", Text (to_csv empty_frame))])
      by (unfold Pipeline.extract_circuits, Extract.extract_circuits;
          rewrite paginate_down by exact Hdown; reflexivity).
    rewrite (run_step _ _ _ [])
      by (unfold Pipeline.extract_seasons, Extract.extract_seasons, Extract.make_request;
          rewrite Hdown; reflexivity).
    rewrite (run_step _ _ _
               [(Pipeline.raw "constructors.csv", Text (to_csv [("constructor_id", [])]))])
      by (unfold Pipeline.extract_constructors, Extract.extract_constructors;
          rewrite paginate_down by exact Hdown; reflexivity).
    rewrite (run_step _ _ _ [(Pipeline.raw "drivers.csv", Text (to_csv [("driver_id", [])]))])
      by (unfold Pipeline.extract_drivers, Extract.extract_drivers;
          rewrite paginate_down by exact Hdown; reflexivity).
    rewrite (run_step _ _ _ [(Pipeline.raw "races.csv", Text (to_csv empty_frame))])
      by (unfold Pipeline.extract_races, Extract.extract_races;
          rewrite per_year_down by exact Hdown; reflexivity).
    rewrite (run_step _ _ _ [(Pipeline.raw "results.csv", Text (to_csv empty_frame))])
      by (unfold Pipeline.extract_results, Extract.extract_results;
          rewrite per_year_down by exact Hdown; reflexivity).
    rewrite (run_step _ _ _ [(Pipeline.raw "qualifying.csv", Text (to_csv empty_frame))])
      by (unfold Pipeline.extract_qualifying, Extract.extract_qualifying;
          rewrite per_year_down by exact Hdown; reflexivity).
    rewrite (run_step _ _ _ [(Pipeline.raw "pit_stops.csv", Text (to_csv empty_frame))])
      by (unfold Pipeline.extract_pit_stops, Extract.extract_pit_stops;
          rewrite per_year_down by exact Hdown; reflexivity).
    rewrite (run_step _ _ _
               [(Pipeline.raw "constructor_standings.csv", Text (to_csv empty_frame));
                (Pipeline.raw "driver_standings.csv", Text (to_csv empty_frame))])
      by (unfold Pipeline.extract_standings, Extract.extract_standings;
          rewrite standings_years_down by exact Hdown; reflexivity).
    reflexivity. }
  split; [exact Hrun |].
  rewrite Hrun. cbn [fst]. apply apply_writes_other. cbn [map fst]. not_member.
Qed.

Lemma extraction_during_outage_witness :
  (run (Pipeline.extract_all Fixtures.csv_text Fixtures.api_down 1 2005 2024)
       (<[Pipeline.raw "circuits.csv" := Text "circuit_ref"]> ∅)).2 = Finished /\
  (run (Pipeline.extract_all Fixtures.csv_text Fixtures.api_down 1 2005 2024)
       (<[Pipeline.raw "circuits.csv" := Text "circuit_ref"]> ∅)).1
    !! Pipeline.raw "circuits.csv"
  = Some (Text (Fixtures.csv_text empty_frame)).
Proof.
  destruct (extraction_during_outage Fixtures.csv_text Fixtures.api_down 0 2005 2024
              (<[Pipeline.raw "circuits.csv" := Text "circuit_ref"]> ∅))
    as [Hrun _]; [reflexivity |].
  rewrite Hrun. split; [reflexivity |].
  cbn [fst]. vm_compute. reflexivity.
Defined.

(** ** Qualifying rows *)

Lemma qualifying_row_race_id (race_id : Z) (qualifying : Extract.json) (row : record) :
  Extract.qualifying_row race_id qualifying = Ok row ->
  record_get "race_id" row = Int race_id.
Proof.
  unfold Extract.qualifying_row. intros H.
  repeat (apply bind_Ok in H as (? & _ & H)).
  injection H as <-. reflexivity.
Qed.

(** X9. The fallbacks of lines 322-323 ([round_num] and [race_id] 0 for a race
    that is falsy) never reach a row: a race that contributes a row is a
    non-empty dictionary, and each of its rows carries the key built from the
    year and the round of that race. *)
Theorem qualifying_rows_carry_the_race_key
    (year : Z) (race : Extract.json) (rows : list record) :
  Extract.qualifying_rows year race = Ok rows ->
  rows <> [] ->
  Extract.truthy race = true /\
  exists r round_num race_id,
    Extract.get race "round" (Extract.JNum 0) = Ok r /\
    Extract.py_int r = Ok round_num /\
    Extract.race_id_of year round_num = Ok race_id /\
    Forall (fun row => record_get "race_id" row = Int race_id) rows.
Proof.
  unfold Extract.qualifying_rows. intros H Hne.
  apply bind_Ok in H as (race_info & Hinfo & H).
  destruct race as [| | | | | d]; try discriminate Hinfo.
  destruct d as [| kv d].
  - cbn in Hinfo. injection Hinfo as <-. cbn in H. injection H as <-. contradiction.
  - cbn [Extract.truthy] in H |- *. split; [reflexivity |].
    apply bind_Ok in H as (round_num & Hround & H).
    apply bind_Ok in Hround as (r & Hr & Hround).
    apply bind_Ok in H as (race_id & Hid & H).
    exists r, round_num, race_id. repeat split; try assumption.
    eapply traverse_Forall; [| exact H].
    intros q row. apply qualifying_row_race_id.
Qed.

Lemma qualifying_rows_carry_the_race_key_witness :
  exists rows,
    Extract.qualifying_rows 2024 Fixtures.qualifying_race_json = Ok rows /\
    Forall (fun row => record_get "race_id" row = Int 202403) rows.
Proof.
  assert (H : exists rows,
             Extract.qualifying_rows 2024 Fixtures.qualifying_race_json = Ok rows /\
             rows <> []).
  { eexists. split; [vm_compute; reflexivity | discriminate]. }
  destruct H as (rows & H & Hne).
  destruct (qualifying_rows_carry_the_race_key _ _ _ H Hne)
    as (_ & r & round_num & race_id & Hr & Hround & Hid & Hall).
  exists rows. split; [exact H |].
  injection Hr as <-. injection Hround as <-. injection Hid as <-. exact Hall.
Defined.

(** ** A pit stop of more than a minute *)

Lemma int_digits_colon (before after : string) (a : Z) :
  int_digits a (before ++ String ":" after) = None.
Proof.
  revert a. induction before as [| c before IH]; intros a.
  - rewrite string_app_nil. reflexivity.
  - rewrite string_app_cons. cbn [int_digits].
    destruct (digit_val c); [apply IH | reflexivity].
Qed.

Lemma split_point_colon (before after : string) :
  exists b' a',
    (F64.split_point (before ++ String ":" after)).1
    ++ default EmptyString (F64.split_point (before ++ String ":" after)).2
    = b' ++ String ":" a'.
Proof.
  induction before as [| c before IH].
  - rewrite string_app_nil. cbn [F64.split_point].
    change (Ascii.eqb ":" ".") with false. cbv iota.
    destruct (F64.split_point after) as [a b]. cbn [fst snd].
    exists EmptyString, (a ++ default EmptyString b).
    rewrite string_app_cons, string_app_nil. reflexivity.
  - rewrite string_app_cons. cbn [F64.split_point].
    destruct (Ascii.eqb c ".").
    + cbn [fst snd from_option id]. exists before, after. apply string_app_nil.
    + destruct IH as (b0 & a0 & IH).
      destruct (F64.split_point (before ++ String ":" after)) as [a b]. cbn [fst snd] in *.
      exists (String c b0), a0. rewrite !string_app_cons. f_equal. exact IH.
Qed.

Lemma parse_unsigned_colon (before after : string) :
  F64.parse_unsigned (before ++ String ":" after) = Raise ValueError.
Proof.
  unfold F64.parse_unsigned.
  destruct (split_point_colon before after) as (b' & a' & H).
  destruct (F64.split_point (before ++ String ":" after)) as [ip fp]. cbn [fst snd] in H.
  rewrite H, int_digits_colon.
  destruct (_ =? _)%nat; reflexivity.
Qed.

(** [float] refuses a text with a colon. *)
Lemma parse_colon (before after : string) :
  F64.parse (before ++ String ":" after) = Raise ValueError.
Proof.
  destruct before as [| c before].
  - rewrite string_app_nil. unfold F64.parse.
    change (Ascii.eqb ":" "-") with false. change (Ascii.eqb ":" "+") with false.
    cbv iota. apply (parse_unsigned_colon EmptyString after).
  - rewrite string_app_cons. unfold F64.parse.
    destruct (Ascii.eqb c "-"); [rewrite parse_unsigned_colon; reflexivity |].
    destruct (Ascii.eqb c "+"); [apply parse_unsigned_colon |].
    apply (parse_unsigned_colon (String c before) after).
Qed.

Lemma duration_milliseconds_colon (before after : string) :
  Extract.duration_milliseconds (Extract.JStr (before ++ String ":" after))
  = Raise ValueError.
Proof.
  unfold Extract.duration_milliseconds. cbn [Extract.truthy Extract.py_float].
  rewrite parse_colon.
  destruct before; rewrite ?string_app_nil, ?string_app_cons; reflexivity.
Qed.

Lemma traverse_fails {A B : Type} (f : A -> res B) (xs : list A) (x : A) :
  x ∈ xs -> is_ok (f x) = false -> is_ok (traverse f xs) = false.
Proof.
  intros Hin Hx. induction xs as [| y xs IH]; [apply elem_of_nil in Hin; contradiction |].
  apply elem_of_cons in Hin as [<- | Hin]; cbn [traverse].
  - destruct (f x); [discriminate Hx | reflexivity].
  - destruct (f y); [| reflexivity]. cbn [bind].
    specialize (IH Hin). destruct (traverse f xs); [discriminate IH | reflexivity].
Qed.

Lemma pit_stop_row_colon (race_id : Z) (stop : list (string * Extract.json))
    (before after : string) :
  Extract.assoc "duration" stop = Some (Extract.JStr (before ++ String ":" after)) ->
  is_ok (Extract.pit_stop_row race_id (Extract.JDict stop)) = false.
Proof.
  intros Hdur.
  destruct (Extract.pit_stop_row race_id (Extract.JDict stop)) as [row |] eqn:E;
    [| reflexivity].
  exfalso. unfold Extract.pit_stop_row in E.
  apply bind_Ok in E as (driver & _ & E).
  apply bind_Ok in E as (time_of_day & _ & E).
  apply bind_Ok in E as (duration & Hd & E).
  cbn [Extract.get] in Hd. rewrite Hdur in Hd. cbn [from_option id] in Hd.
  injection Hd as <-.
  repeat (apply bind_Ok in E as (? & ? & E)).
  rewrite duration_milliseconds_colon in *. discriminate.
Qed.

Lemma pit_stop_rows_colon (year : Z) (race stop : list (string * Extract.json))
    (stops : list Extract.json) (before after : string) :
  Extract.assoc "PitStops" race = Some (Extract.JList stops) ->
  (Extract.JDict stop ∈ stops) ->
  Extract.assoc "duration" stop = Some (Extract.JStr (before ++ String ":" after)) ->
  is_ok (Extract.pit_stop_rows year (Extract.JDict race)) = false.
Proof.
  intros Hstops Hin Hdur.
  destruct (Extract.pit_stop_rows year (Extract.JDict race)) as [rows |] eqn:E;
    [| reflexivity].
  exfalso. unfold Extract.pit_stop_rows in E.
  apply bind_Ok in E as (r & _ & E).
  apply bind_Ok in E as (round_num & _ & E).
  apply bind_Ok in E as (race_id & _ & E).
  apply bind_Ok in E as (pit_stops & Hp & E).
  cbn [Extract.get] in Hp. rewrite Hstops in Hp. cbn [from_option id] in Hp.
  injection Hp as <-. cbn [Extract.as_list] in E.
  pose proof (traverse_fails (Extract.pit_stop_row race_id) stops _ Hin
                (pit_stop_row_colon race_id stop before after Hdur)) as Hfail.
  rewrite E in Hfail. discriminate Hfail.
Qed.

(** An item whose rows cannot be built ends the loop with the exception. *)
Lemma page_step_raises (api : Extract.Api) (endpoint table_name : string) (limit : Z)
    (rows_of : Extract.json -> res (list record)) (offset : Z) (acc : list record)
    (data : Extract.response) (items : list Extract.json) (item : Extract.json) :
  api endpoint limit offset = Some data ->
  Extract.extract_table data table_name = Ok (Extract.JList items) ->
  (item ∈ items) ->
  is_ok (rows_of item) = false ->
  exists e, Extract.page_step api endpoint table_name limit rows_of offset acc
            = Extract.Break (Raise e).
Proof.
  intros Hreq Htab Hin Hfail. unfold Extract.page_step, Extract.make_request.
  rewrite Hreq. destruct data as [| kv data].
  - cbn in Htab. injection Htab as <-. apply elem_of_nil in Hin. contradiction.
  - rewrite Htab. destruct items as [| i0 items]; [apply elem_of_nil in Hin; contradiction |].
    cbn [Extract.truthy negb Extract.py_iter]. res_step.
    pose proof (traverse_fails rows_of (i0 :: items) item Hin Hfail) as Hrows.
    destruct (traverse rows_of (i0 :: items)) as [rs | e]; [discriminate Hrows |].
    exists e. reflexivity.
Qed.

(** X10. A pit stop whose duration is written with a colon (a stop of more than
    a minute, as in [1:02.345]) cannot be converted by line 388: [float]
    raises [ValueError], nothing catches it, and [extract_pit_stops] ends
    with an exception before writing [pit_stops.csv]. *)
Theorem pit_stop_duration_with_colon_aborts
    (api : Extract.Api) (year : Z) (data : Extract.response)
    (races stops : list Extract.json) (race stop : list (string * Extract.json))
    (before after : string) :
  api (str year ++ "/pitstops") 100 0 = Some data ->
  Extract.extract_table data "RaceTable" = Ok (Extract.JList races) ->
  (Extract.JDict race ∈ races) ->
  Extract.assoc "PitStops" race = Some (Extract.JList stops) ->
  (Extract.JDict stop ∈ stops) ->
  Extract.assoc "duration" stop = Some (Extract.JStr (before ++ String ":" after)) ->
  Extract.duration_milliseconds (Extract.JStr (before ++ String ":" after))
  = Raise ValueError /\
  forall (fuel : nat) (end_year : Z) (to_csv : DataFrame -> string) (s : store),
    year <= end_year ->
    exists e,
      Extract.extract_pit_stops api (S fuel) year end_year = Some (Raise e) /\
      Pipeline.extract_pit_stops to_csv api (S fuel) year end_year s = ([], Failed e).
Proof.
  intros Hreq Htab Hrace Hstops Hstop Hdur.
  split; [apply duration_milliseconds_colon |].
  intros fuel end_year to_csv s Hle.
  destruct (page_step_raises api (str year ++ "/pitstops") "RaceTable" 100
              (Extract.pit_stop_rows year) 0 [] data races (Extract.JDict race)
              Hreq Htab Hrace
              (pit_stop_rows_colon year race stop stops before after Hstops Hstop Hdur))
    as (e & Hstep).
  exists e.
  assert (Hrun : Extract.extract_pit_stops api (S fuel) year end_year = Some (Raise e)).
  { unfold Extract.extract_pit_stops, Extract.year_range.
    rewrite seqZ_cons by lia.
    cbn [Extract.per_year Extract.paginate]. rewrite Hstep. reflexivity. }
  split; [exact Hrun |].
  unfold Pipeline.extract_pit_stops. rewrite Hrun. reflexivity.
Qed.

Lemma pit_stop_duration_with_colon_aborts_witness :
  Extract.duration_milliseconds (Extract.JStr "1:02.345") = Raise ValueError /\
  exists e,
    Extract.extract_pit_stops Fixtures.api_long_stop 1 2023 2024 = Some (Raise e) /\
    Pipeline.extract_pit_stops Fixtures.csv_text Fixtures.api_long_stop 1 2023 2024 ∅
    = ([], Failed e).
Proof.
  destruct (pit_stop_duration_with_colon_aborts Fixtures.api_long_stop 2023
              [("MRData", Extract.JDict
                 [("RaceTable", Extract.JDict
                    [("season", Extract.JStr "2023");
                     ("Races", Extract.JList
                        [Extract.JDict
                           [("round", Extract.JStr "14");
                            ("PitStops", Extract.JList
                               [Fixtures.pit_stop_json "23.114";
                                Fixtures.pit_stop_json "1:02.345"])]])])])]
              [Extract.JDict
                 [("round", Extract.JStr "14");
                  ("PitStops", Extract.JList
                     [Fixtures.pit_stop_json "23.114"; Fixtures.pit_stop_json "1:02.345"])]]
              [Fixtures.pit_stop_json "23.114"; Fixtures.pit_stop_json "1:02.345"]
              [("round", Extract.JStr "14");
               ("PitStops", Extract.JList
                  [Fixtures.pit_stop_json "23.114"; Fixtures.pit_stop_json "1:02.345"])]
              [("driverId", Extract.JStr "max_verstappen");
               ("stop", Extract.JStr "1"); ("lap", Extract.JStr "12");
               ("time", Extract.JStr "15:05:16");
               ("duration", Extract.JStr "1:02.345")]
              "1" "02.345")
    as [Hms Hrun]; try reflexivity; try list_member.
  split; [exact Hms |].
  apply (Hrun 0%nat 2024 Fixtures.csv_text ∅). lia.
Defined.

(** * Further properties of the transformation *)

(** ** The lookup [dict(zip(keys, ids))] *)

Section Lookup.

Local Abbreviation zip_step :=
  (fun (d : gmap string cell) (kv : cell * cell) =>
     match kv.1 with
     | Str k => <[k := kv.2]> d
     | _ => d
     end).

Lemma fold_zip_absent (k : string) (ks vs : list cell) (d0 : gmap string cell) :
  Str k ∉ ks -> fold_left zip_step (zip ks vs) d0 !! k = d0 !! k.
Proof.
  revert vs d0. induction ks as [| c ks IH]; intros [| v vs] d0 Hout; try reflexivity.
  apply not_elem_of_cons in Hout as [Hne Hout].
  cbn [zip zip_with fold_left]. rewrite IH by exact Hout. cbn [fst snd].
  destruct c as [| z | x | k']; try reflexivity.
  apply lookup_insert_ne. congruence.
Qed.

(** A key of the table resolves to the id of the last row that carries it. *)
Lemma fold_zip_last (k : string) (ks vs : list cell) (d0 : gmap string cell)
    (i : nat) (v : cell) :
  ks !! i = Some (Str k) -> vs !! i = Some v ->
  (forall j, (i < j)%nat -> ks !! j <> Some (Str k)) ->
  fold_left zip_step (zip ks vs) d0 !! k = Some v.
Proof.
  revert vs d0 i. induction ks as [| c ks IH]; intros [| v0 vs] d0 i Hk Hv Hlast;
    try (rewrite lookup_nil in Hk; discriminate Hk);
    try (rewrite lookup_nil in Hv; discriminate Hv).
  destruct i as [| i]; rewrite lookup_cons in Hk, Hv.
  - injection Hk as ->. injection Hv as ->.
    cbn [zip zip_with fold_left fst snd]. rewrite fold_zip_absent.
    + apply lookup_insert_eq.
    + intros Hin. apply list_elem_of_lookup_1 in Hin as (j & Hj).
      apply (Hlast (S j)); [lia | exact Hj].
  - cbn [zip zip_with fold_left]. eapply IH; [exact Hk | exact Hv |].
    intros j Hj. apply (Hlast (S j)). lia.
Qed.

End Lookup.

Lemma dict_zip_absent (k : string) (ks vs : list cell) :
  Str k ∉ ks -> dict_zip ks vs !! k = None.
Proof.
  intros Hout. unfold dict_zip. rewrite fold_zip_absent by exact Hout. apply lookup_empty.
Qed.

Lemma dict_zip_last (k : string) (ks vs : list cell) (i : nat) (v : cell) :
  ks !! i = Some (Str k) -> vs !! i = Some v ->
  (forall j, (i < j)%nat -> ks !! j <> Some (Str k)) ->
  dict_zip ks vs !! k = Some v.
Proof. intros Hk Hv Hlast. unfold dict_zip. eapply fold_zip_last; eassumption. Qed.

(** [df[id_col] = df[key_col].map(dict(zip(ref[key_col], ref[id_col])))],
    read at one row. *)
Lemma resolve_row (key_col id_col : string) (ks vs refs : list cell) (df : DataFrame)
    (n : nat) (k : string) :
  df_lookup key_col df = Some refs ->
  refs !! n = Some (Str k) ->
  df_cell id_col n (df_set id_col (map_dict (dict_zip ks vs) refs) df)
  = Some (default NaN (dict_zip ks vs !! k)).
Proof.
  intros Hrefs Hn. unfold df_cell. rewrite df_lookup_set_eq. unfold map_dict.
  etransitivity; [apply lookup_map |]. rewrite Hn. reflexivity.
Qed.

Lemma resolve_driver_unfold (dfd df : DataFrame) (ks vs refs : list cell) :
  df_lookup "driver_ref" (Steps.ensure_ids "driver_id" dfd) = Some ks ->
  df_lookup "driver_id" (Steps.ensure_ids "driver_id" dfd) = Some vs ->
  df_lookup "driver_ref" df = Some refs ->
  Steps.resolve_driver (Ok dfd) df
  = df_set "driver_id" (map_dict (dict_zip ks vs) refs) df.
Proof.
  intros Hks Hvs Hrefs. unfold Steps.resolve_driver, Steps.build_lookup, Steps.resolve.
  res_step. rewrite (df_get_Some _ _ _ Hks), (df_get_Some _ _ _ Hvs). res_step.
  rewrite (df_get_Some _ _ _ Hrefs). reflexivity.
Qed.

Lemma resolve_constructor_unfold (dfc df : DataFrame) (ks vs refs : list cell) :
  df_lookup "constructor_ref" dfc = Some ks ->
  df_lookup "constructor_id" dfc = Some vs ->
  df_lookup "constructor_ref" df = Some refs ->
  Steps.resolve_constructor (Ok dfc) df
  = df_set "constructor_id" (map_dict (dict_zip ks vs) refs) df.
Proof.
  intros Hks Hvs Hrefs. unfold Steps.resolve_constructor, Steps.build_lookup, Steps.resolve.
  res_step. rewrite (df_get_Some _ _ _ Hks), (df_get_Some _ _ _ Hvs). res_step.
  rewrite (df_get_Some _ _ _ Hrefs). reflexivity.
Qed.

(** The ids of a reference table after lines 128-129: its own column, or
    the row numbers from 1. *)
Lemma ensure_ids_columns (id_col key_col : string) (ref : DataFrame) (ks : list cell) :
  id_col <> key_col ->
  df_lookup key_col ref = Some ks ->
  df_lookup key_col (Steps.ensure_ids id_col ref) = Some ks /\
  df_lookup id_col (Steps.ensure_ids id_col ref)
  = Some (match df_lookup id_col ref with
          | Some vs => vs
          | None => range_ids (df_len ref)
          end).
Proof.
  intros Hne Hks. unfold Steps.ensure_ids, df_has.
  destruct (df_lookup id_col ref) as [vs |] eqn:E; cbn [negb].
  - split; [exact Hks | exact E].
  - split; [rewrite df_lookup_set_ne by congruence; exact Hks | apply df_lookup_set_eq].
Qed.

(** X11. A dependent row whose reference is in the reference table gets the id
    of the last row of that table that carries the reference: the id staged
    in the table or, for drivers staged without ids, the row number from 1.
    A reference that is not in the table gets a missing id. *)
Theorem known_references_resolve_by_row :
  (forall (dfd df : DataFrame) (ks refs : list cell) (n : nat) (k : string),
      rectangular dfd ->
      df_lookup "driver_ref" dfd = Some ks ->
      df_lookup "driver_ref" df = Some refs ->
      refs !! n = Some (Str k) ->
      (forall i, ks !! i = Some (Str k) ->
                 (forall j, (i < j)%nat -> ks !! j <> Some (Str k)) ->
                 df_cell "driver_id" n (Steps.resolve_driver (Ok dfd) df)
                 = match df_lookup "driver_id" dfd with
                   | Some vs => vs !! i
                   | None => Some (Int (Z.of_nat i + 1))
                   end) /\
      (Str k ∉ ks ->
       df_cell "driver_id" n (Steps.resolve_driver (Ok dfd) df) = Some NaN)) /\
  (forall (dfc df : DataFrame) (ks vs refs : list cell) (n : nat) (k : string),
      rectangular dfc ->
      df_lookup "constructor_ref" dfc = Some ks ->
      df_lookup "constructor_id" dfc = Some vs ->
      df_lookup "constructor_ref" df = Some refs ->
      refs !! n = Some (Str k) ->
      (forall i, ks !! i = Some (Str k) ->
                 (forall j, (i < j)%nat -> ks !! j <> Some (Str k)) ->
                 df_cell "constructor_id" n (Steps.resolve_constructor (Ok dfc) df)
                 = vs !! i) /\
      (Str k ∉ ks ->
       df_cell "constructor_id" n (Steps.resolve_constructor (Ok dfc) df) = Some NaN)).
Proof.
  split.
  - intros dfd df ks refs n k Hrect Hks Hrefs Hn.
    destruct (ensure_ids_columns "driver_id" "driver_ref" dfd ks ltac:(discriminate) Hks)
      as [Hks' Hvs'].
    rewrite (resolve_driver_unfold dfd df ks _ refs Hks' Hvs' Hrefs).
    rewrite (resolve_row "driver_ref" "driver_id" _ _ refs df n k Hrefs Hn).
    pose proof (rectangular_lookup _ _ _ Hrect Hks) as Hlen.
    split.
    + intros i Hi Hlast.
      assert (Hlt : (i < df_len dfd)%nat) by (rewrite <- Hlen; eapply lookup_lt_Some; exact Hi).
      destruct (df_lookup "driver_id" dfd) as [vs |] eqn:E.
      * pose proof (rectangular_lookup _ _ _ Hrect E) as Hvs.
        destruct (lookup_lt_is_Some_2 vs i ltac:(lia)) as [v Hv].
        rewrite (dict_zip_last k ks vs i v Hi Hv Hlast). symmetry. exact Hv.
      * rewrite (dict_zip_last k ks _ i _ Hi (range_ids_lookup _ _ Hlt) Hlast). reflexivity.
    + intros Hout. rewrite dict_zip_absent by exact Hout. reflexivity.
  - intros dfc df ks vs refs n k Hrect Hks Hvs Hrefs Hn.
    rewrite (resolve_constructor_unfold dfc df ks vs refs Hks Hvs Hrefs).
    rewrite (resolve_row "constructor_ref" "constructor_id" _ _ refs df n k Hrefs Hn).
    pose proof (rectangular_lookup _ _ _ Hrect Hks) as Hlen.
    pose proof (rectangular_lookup _ _ _ Hrect Hvs) as Hlen'.
    split.
    + intros i Hi Hlast.
      assert (Hlt : (i < length vs)%nat)
        by (rewrite Hlen', <- Hlen; eapply lookup_lt_Some; exact Hi).
      destruct (lookup_lt_is_Some_2 vs i Hlt) as [v Hv].
      rewrite (dict_zip_last k ks vs i v Hi Hv Hlast). symmetry. exact Hv.
    + intros Hout. rewrite dict_zip_absent by exact Hout. reflexivity.
Qed.

Lemma known_references_resolve_by_row_witness :
  df_cell "driver_id" 2 (Steps.resolve_driver (Ok Fixtures.drivers_without_ids) Fixtures.results)
  = Some (Int 2) /\
  df_cell "constructor_id" 1
    (Steps.resolve_constructor (Ok Fixtures.constructors) Fixtures.results)
  = Some (Int 2).
Proof.
  split.
  - refine (proj1 (proj1 known_references_resolve_by_row
                     Fixtures.drivers_without_ids Fixtures.results
                     [Str "max_verstappen"; Str "perez"]
                     [Str "max_verstappen"; Str "unknown_driver"; Str "perez"]
                     2%nat "perez" _ eq_refl eq_refl eq_refl) 1%nat eq_refl _).
    + repeat constructor.
    + intros [| [| j]] Hj; try lia; discriminate.
  - refine (proj1 (proj2 known_references_resolve_by_row
                     Fixtures.constructors Fixtures.results
                     [Str "red_bull"; Str "ferrari"] [Int 1; Int 2]
                     [Str "red_bull"; Str "ferrari"; Str "red_bull"]
                     1%nat "ferrari" _ eq_refl eq_refl eq_refl eq_refl) 1%nat eq_refl _).
    + repeat constructor.
    + intros [| [| j]] Hj; try lia; discriminate.
Defined.

(** ** What [transform_results] leaves in its table *)

(** Every column the body of [transform_results] may assign. *)
Lemma results_frame_assigns (drivers constructors : res DataFrame) (df out : DataFrame) :
  rectangular df ->
  Steps.results_frame drivers constructors df = Ok out ->
  assigns (Steps.results_first_columns ++ ["status_id"; "position_order"]) df out.
Proof.
  intros Hrect H.
  destruct (results_frame_inv _ _ _ _ Hrect H) as (df5 & A5 & Hout).
  pose proof (assign_status_id_assigns df5 (proj1 A5)) as A6.
  pose proof (assign_position_order_assigns _ _ (proj1 A6) Hout) as A7.
  pose proof (assigns_trans _ _ _ _ _ A5 (assigns_trans _ _ _ _ _ A6 A7)) as A.
  exact A.
Qed.

(** X12. [transform_results] drops no row, adds none, and leaves every column
    it does not normalise as it was staged: only the two resolved ids, the
    position, the six numeric columns, the milliseconds, the status code and
    the finishing order are assigned. *)
Theorem results_keep_rows_and_other_columns
    (drivers constructors : res DataFrame) (df out : DataFrame) :
  rectangular df ->
  Steps.results_frame drivers constructors df = Ok out ->
  rectangular out /\
  df_len out = df_len df /\
  forall c,
    c ∉ ["driver_id"; "constructor_id"; "position"; "points"; "laps"; "grid"; "number";
         "fastest_lap"; "fastest_lap_rank"; "milliseconds"; "status_id"; "position_order"] ->
    df_lookup c out = df_lookup c df.
Proof.
  intros Hrect H. destruct (results_frame_assigns _ _ _ _ Hrect H) as (R & L & K).
  split; [exact R |]. split; [exact L |]. exact K.
Qed.

Lemma results_keep_rows_and_other_columns_witness :
  exists out,
    Steps.results_frame (Ok Fixtures.drivers) (Ok Fixtures.constructors) Fixtures.results
    = Ok out /\
    df_len out = 3%nat /\
    df_lookup "position_text" out = Some [Str "1"; Str "2"; Str "R"].
Proof.
  assert (H : exists out,
             Steps.results_frame (Ok Fixtures.drivers) (Ok Fixtures.constructors)
               Fixtures.results = Ok out).
  { eexists. vm_compute. reflexivity. }
  destruct H as (out & H). exists out. split; [exact H |].
  destruct (results_keep_rows_and_other_columns
              (Ok Fixtures.drivers) (Ok Fixtures.constructors) Fixtures.results out
              ltac:(repeat constructor) H) as (_ & L & K).
  split; [exact L |]. rewrite K by not_member. reflexivity.
Defined.

(** An integer column stays one through [fillna(0).astype(int)] of any
    column. *)
Lemma fill_int_column_integers (df df' : DataFrame) (col c : string) :
  Steps.fill_int_column df col = Ok df' ->
  (col = c \/ forall s, df_lookup c df = Some s -> exists zs, s = map Int zs) ->
  forall s, df_lookup c df' = Some s -> exists zs, s = map Int zs.
Proof.
  unfold Steps.fill_int_column. intros H Hc s Hs.
  destruct (df_lookup col df) as [s0 |] eqn:E.
  - apply bind_Ok in H as (s1 & H1 & H). injection H as <-.
    destruct (String.eqb_spec c col) as [-> | Hne].
    + rewrite df_lookup_set_eq in Hs. injection Hs as <-.
      eapply astype_int_integers. exact H1.
    + rewrite df_lookup_set_ne in Hs by exact Hne.
      destruct Hc as [-> | Hc]; [contradiction | eauto].
  - injection H as <-. destruct Hc as [-> | Hc]; [congruence | eauto].
Qed.

Lemma fill_int_columns_integers (cols : list string) (df df' : DataFrame) (c : string) :
  Steps.fill_int_columns cols df = Ok df' ->
  (c ∈ cols \/ forall s, df_lookup c df = Some s -> exists zs, s = map Int zs) ->
  forall s, df_lookup c df' = Some s -> exists zs, s = map Int zs.
Proof.
  revert df. induction cols as [| col cols IH]; intros df H Hc.
  - injection H as <-. destruct Hc as [Hin | Hc]; [apply elem_of_nil in Hin; contradiction |].
    exact Hc.
  - cbn [Steps.fill_int_columns] in H. apply bind_Ok in H as (df1 & H1 & H).
    apply (IH df1 H).
    destruct (decide (c ∈ cols)) as [Hin | Hout]; [left; exact Hin | right].
    eapply fill_int_column_integers; [exact H1 |].
    destruct Hc as [Hin | Hc]; [| right; exact Hc].
    apply elem_of_cons in Hin as [-> | Hin]; [left; reflexivity | contradiction].
Qed.

Lemma replicate_Int (n : nat) (z : Z) : replicate n (Int z) = map Int (replicate n z).
Proof. induction n as [| n IH]; cbn; [reflexivity | rewrite IH; reflexivity]. Qed.

Lemma result_milliseconds_integers (df df' : DataFrame) :
  Steps.result_milliseconds df = Ok df' ->
  exists zs, df_lookup "milliseconds" df' = Some (map Int zs).
Proof.
  unfold Steps.result_milliseconds. intros H.
  destruct (df_lookup "milliseconds" df) as [s |].
  - apply bind_Ok in H as (s' & Hs' & H). injection H as <-.
    destruct (astype_int_integers _ _ Hs') as (zs & ->).
    exists zs. apply df_lookup_set_eq.
  - injection H as <-. exists (replicate (df_len df) 0).
    unfold df_fill. rewrite df_lookup_set_eq, replicate_Int. reflexivity.
Qed.

Lemma assign_status_id_codes (df : DataFrame) :
  exists codes,
    df_lookup "status_id" (Steps.assign_status_id df) = Some (map Int codes) /\
    Forall (fun n => n ∈ Steps.status_codes) codes.
Proof.
  unfold Steps.assign_status_id. destruct (df_lookup "status" df) as [col |].
  - rewrite df_lookup_set_eq. unfold map_dict. rewrite fillna_map.
    change (fun c => if isna (map_cell Steps.status_map c) then Int 14
                     else map_cell Steps.status_map c) with Steps.status_id_cell.
    induction col as [| c col (codes & IH & Hall)].
    + exists []. split; [reflexivity | constructor].
    + destruct (status_id_cell_code c) as (n & Hn & Hin).
      exists (n :: codes). cbn [map]. rewrite Hn. injection IH as ->.
      split; [reflexivity | constructor; assumption].
  - exists (replicate (df_len df) 1). unfold df_fill.
    rewrite df_lookup_set_eq, replicate_Int. split; [reflexivity |].
    apply Forall_replicate. list_member.
Qed.

(** X13. In the table [transform_results] writes, the six numeric columns (those
    that were staged), the milliseconds and the finishing order hold
    integers only, with no missing value, and every status code is one of
    the nine codes; the last three columns and the two ids are always
    there. *)
Theorem results_columns_are_integers
    (drivers constructors : res DataFrame) (df out : DataFrame) :
  rectangular df ->
  Steps.results_frame drivers constructors df = Ok out ->
  (forall c s,
      c ∈ ["points"; "laps"; "grid"; "number"; "fastest_lap"; "fastest_lap_rank"] ->
      df_lookup c out = Some s -> exists zs, s = map Int zs) /\
  (exists zs, df_lookup "milliseconds" out = Some (map Int zs)) /\
  (exists zs, df_lookup "position_order" out = Some (map Int zs)) /\
  (exists codes, df_lookup "status_id" out = Some (map Int codes) /\
                 Forall (fun n => n ∈ Steps.status_codes) codes) /\
  df_has "driver_id" out = true /\ df_has "constructor_id" out = true.
Proof.
  intros Hrect H. pose proof H as H0. unfold Steps.results_frame in H0.
  pose proof (resolve_driver_assigns drivers df Hrect) as A1.
  set (df1 := Steps.resolve_driver drivers df) in *.
  pose proof (resolve_constructor_assigns constructors df1 (proj1 A1)) as A2.
  set (df2 := Steps.resolve_constructor constructors df1) in *.
  pose proof (coerce_position_assigns df2 (proj1 A2)) as A3.
  set (df3 := Steps.coerce_position df2) in *.
  apply bind_Ok in H0 as (df4 & H4 & H0).
  pose proof (fill_int_columns_assigns _ _ _ (proj1 A3) H4) as A4.
  apply bind_Ok in H0 as (df5 & H5 & H0).
  pose proof (result_milliseconds_assigns _ _ (proj1 A4) H5) as A5.
  pose proof (assign_status_id_assigns df5 (proj1 A5)) as A6.
  pose proof (assign_position_order_assigns _ _ (proj1 A6) H0) as A7.
  destruct A5 as (_ & _ & K5). destruct A6 as (_ & _ & K6). destruct A7 as (_ & _ & K7).
  assert (Hlater : forall c, c <> "milliseconds" -> c <> "status_id" -> c <> "position_order" ->
                             df_lookup c out = df_lookup c df4).
  { intros c N1 N2 N3.
    rewrite K7, K6, K5; [reflexivity | | |]; rewrite list_elem_of_singleton; assumption. }
  split; [| split; [| split; [| split; [| split]]]].
  - intros c s Hc Hs.
    rewrite Hlater in Hs
      by (intros ->; revert Hc; not_member).
    eapply (fill_int_columns_integers Steps.numeric_cols df3 df4 c H4); [left; exact Hc | exact Hs].
  - destruct (result_milliseconds_integers _ _ H5) as (zs & Hzs). exists zs.
    rewrite K7, K6; [exact Hzs | |]; rewrite list_elem_of_singleton; discriminate.
  - eapply assign_position_order_integers. exact H0.
  - destruct (assign_status_id_codes df5) as (codes & Hcodes & Hall). exists codes.
    split; [| exact Hall].
    rewrite K7; [exact Hcodes |]. rewrite list_elem_of_singleton. discriminate.
  - destruct A4 as (_ & _ & K4). destruct A3 as (_ & _ & K3). destruct A2 as (_ & _ & K2).
    unfold df_has. rewrite Hlater, K4, K3, K2 by (try discriminate; not_member).
    change (df_has "driver_id" df1 = true).
    unfold df1, Steps.resolve_driver. apply try_except_cases.
    + intros df' Hd. apply bind_Ok in Hd as (? & _ & Hd). apply bind_Ok in Hd as (? & _ & Hd).
      unfold Steps.resolve in Hd. apply bind_Ok in Hd as (? & _ & Hd). injection Hd as <-.
      unfold df_has. rewrite df_lookup_set_eq. reflexivity.
    + unfold df_has, df_fill. rewrite df_lookup_set_eq. reflexivity.
  - destruct A4 as (_ & _ & K4). destruct A3 as (_ & _ & K3).
    unfold df_has. rewrite Hlater, K4, K3 by (try discriminate; not_member).
    change (df_has "constructor_id" df2 = true).
    unfold df2, Steps.resolve_constructor. apply try_except_cases.
    + intros df' Hd. apply bind_Ok in Hd as (? & _ & Hd). apply bind_Ok in Hd as (? & _ & Hd).
      unfold Steps.resolve in Hd. apply bind_Ok in Hd as (? & _ & Hd). injection Hd as <-.
      unfold df_has. rewrite df_lookup_set_eq. reflexivity.
    + unfold df_has, df_fill. rewrite df_lookup_set_eq. reflexivity.
Qed.

Lemma results_columns_are_integers_witness :
  exists out,
    Steps.results_frame (Ok Fixtures.drivers) (Ok Fixtures.constructors) Fixtures.results
    = Ok out /\
    (exists zs, df_lookup "milliseconds" out = Some (map Int zs)) /\
    (exists zs, df_lookup "position_order" out = Some (map Int zs)).
Proof.
  assert (H : exists out,
             Steps.results_frame (Ok Fixtures.drivers) (Ok Fixtures.constructors)
               Fixtures.results = Ok out).
  { eexists. vm_compute. reflexivity. }
  destruct H as (out & H). exists out. split; [exact H |].
  destruct (results_columns_are_integers
              (Ok Fixtures.drivers) (Ok Fixtures.constructors) Fixtures.results out
              ltac:(repeat constructor) H) as (_ & Hms & Hpo & _).
  split; assumption.
Defined.

(** ** Points *)

Lemma astype_int_floats_inv (xs : list spec_float) (s : Series) :
  astype_int (map Flt xs) = Ok s ->
  exists zs, Forall2 (fun x z => F64.trunc x = Ok z) xs zs /\ s = map Int zs.
Proof.
  unfold astype_int. revert s. induction xs as [| x xs IH]; intros s H; cbn [map traverse] in H.
  - injection H as <-. exists []. split; [constructor | reflexivity].
  - cbn [astype_int_cell] in H.
    destruct (F64.trunc x) as [z | e] eqn:Hz; cbn [bind] in H; [| discriminate H].
    destruct (traverse astype_int_cell (map Flt xs)) as [s0 | e]; cbn [bind] in H;
      [| discriminate H].
    injection H as <-. destruct (IH s0 eq_refl) as (zs & Hall & ->).
    exists (z :: zs). split; [constructor; assumption | reflexivity].
Qed.

Lemma fillna_floats (v : cell) (xs : list spec_float) : fillna v (map Flt xs) = map Flt xs.
Proof. unfold fillna. rewrite map_map. reflexivity. Qed.



(** ** The finishing order needs a position *)

(** X15. A staged results table with neither a [position_order] nor a
    [position] column cannot be transformed: line 185 reads [df["position"]]
    and the [KeyError] leaves [transform_results]. *)
Theorem results_need_a_position_column
    (drivers constructors : res DataFrame) (df : DataFrame) :
  rectangular df ->
  df_has "position_order" df = false ->
  df_has "position" df = false ->
  is_ok (Steps.results_frame drivers constructors df) = false /\
  (forall df5, df_has "position_order" df5 = false -> df_has "position" df5 = false ->
               Steps.assign_position_order df5 = Raise KeyError).
Proof.
  intros Hrect Hpo Hp.
  assert (Hstep : forall df5, df_has "position_order" df5 = false ->
                              df_has "position" df5 = false ->
                              Steps.assign_position_order df5 = Raise KeyError).
  { intros df5 H1 H2. unfold Steps.assign_position_order. rewrite H1. cbn [negb].
    apply df_has_lookup in H2. unfold df_get. rewrite H2. reflexivity. }
  split; [| exact Hstep].
  destruct (Steps.results_frame drivers constructors df) as [out |] eqn:H; [| reflexivity].
  exfalso. unfold Steps.results_frame in H.
  apply df_has_lookup in Hpo. apply df_has_lookup in Hp.
  pose proof (resolve_driver_assigns drivers df Hrect) as A1.
  set (df1 := Steps.resolve_driver drivers df) in *.
  pose proof (resolve_constructor_assigns constructors df1 (proj1 A1)) as A2.
  set (df2 := Steps.resolve_constructor constructors df1) in *.
  assert (Hp2 : df_lookup "position" df2 = None).
  { destruct A1 as (_ & _ & K1). destruct A2 as (_ & _ & K2).
    rewrite K2, K1 by not_member. exact Hp. }
  assert (Hpo2 : df_lookup "position_order" df2 = None).
  { destruct A1 as (_ & _ & K1). destruct A2 as (_ & _ & K2).
    rewrite K2, K1 by not_member. exact Hpo. }
  unfold Steps.coerce_position in H. rewrite Hp2 in H.
  apply bind_Ok in H as (df4 & H4 & H).
  pose proof (fill_int_columns_assigns _ _ _ (proj1 A2) H4) as A4.
  apply bind_Ok in H as (df5 & H5 & H).
  pose proof (result_milliseconds_assigns _ _ (proj1 A4) H5) as A5.
  pose proof (assign_status_id_assigns df5 (proj1 A5)) as A6.
  destruct A4 as (_ & _ & K4). destruct A5 as (_ & _ & K5). destruct A6 as (_ & _ & K6).
  rewrite Hstep in H; [discriminate H | |]; apply df_has_lookup;
    rewrite K6, K5, K4 by not_member; assumption.
Qed.

Lemma results_need_a_position_column_witness :
  is_ok (Steps.results_frame (Ok Fixtures.drivers) (Ok Fixtures.constructors)
           [("driver_ref", [Str "perez"]); ("constructor_ref", [Str "red_bull"])]) = false.
Proof.
  apply (results_need_a_position_column (Ok Fixtures.drivers) (Ok Fixtures.constructors)
           [("driver_ref", [Str "perez"]); ("constructor_ref", [Str "red_bull"])]).
  - repeat constructor.
  - reflexivity.
  - reflexivity.
Defined.

(** ** Column selection *)

Lemma df_select_is_ok (cs : list string) (df : DataFrame) :
  is_ok (df_select cs df) = forallb (fun c => df_has c df) cs.
Proof.
  induction cs as [| c cs IH]; [reflexivity |].
  cbn [df_select forallb]. unfold df_get, df_has at 1.
  destruct (df_lookup c df); cbn [bind andb]; [| reflexivity].
  rewrite <- IH. destruct (df_select cs df); reflexivity.
Qed.

Lemma df_select_raises (cs : list string) (df : DataFrame) (e : exn) :
  df_select cs df = Raise e -> e = KeyError.
Proof.
  induction cs as [| c cs IH]; [discriminate |].
  cbn [df_select]. unfold df_get.
  destruct (df_lookup c df); cbn [bind]; [| congruence].
  destruct (df_select cs df); cbn [bind]; [discriminate | intros [= <-]; apply IH; reflexivity].
Qed.

Lemma df_select_columns (cs : list string) (df out : DataFrame) :
  df_select cs df = Ok out ->
  columns out = cs /\ forall c, c ∈ cs -> df_lookup c out = df_lookup c df.
Proof.
  revert out. induction cs as [| c cs IH]; intros out H.
  - injection H as <-. split; [reflexivity |].
    intros c Hc. apply elem_of_nil in Hc. contradiction.
  - cbn [df_select] in H. unfold df_get in H.
    destruct (df_lookup c df) as [s |] eqn:E; cbn [bind] in H; [| discriminate H].
    destruct (df_select cs df) as [rest |]; cbn [bind] in H; [| discriminate H].
    injection H as <-. destruct (IH rest eq_refl) as [Hcols Hlook].
    split; [cbn; rewrite <- Hcols; reflexivity |].
    intros c' Hc'. cbn [df_lookup].
    destruct (String.eqb_spec c' c) as [-> | Hne]; [symmetry; exact E |].
    apply Hlook. apply elem_of_cons in Hc' as [-> | Hc']; [contradiction | exact Hc'].
Qed.

(** ** [transform_drivers] *)

Section DriversFrame.

Variable to_datetime : Series -> Series.

Lemma add_missing_column_has (df : DataFrame) (col c : string) :
  df_has c (Pipeline.add_missing_column df col) = df_has c df || String.eqb c col.
Proof.
  unfold Pipeline.add_missing_column.
  destruct (df_has col df) eqn:E.
  - destruct (String.eqb_spec c col) as [-> | _]; [rewrite E; reflexivity |].
    rewrite orb_false_r. reflexivity.
  - unfold df_has, df_fill.
    destruct (String.eqb_spec c col) as [-> | Hne].
    + rewrite df_lookup_set_eq, orb_true_r. reflexivity.
    + rewrite df_lookup_set_ne, orb_false_r by exact Hne. reflexivity.
Qed.

Lemma add_missing_columns_have (cols : list string) (df : DataFrame) (c : string) :
  c ∈ cols -> df_has c (fold_left Pipeline.add_missing_column cols df) = true.
Proof.
  assert (Hkeep : forall cols df, df_has c df = true ->
                                  df_has c (fold_left Pipeline.add_missing_column cols df) = true).
  { clear. intros cols. induction cols as [| col cols IH]; intros df H; [exact H |].
    cbn [fold_left]. apply IH. rewrite add_missing_column_has, H. reflexivity. }
  revert df. induction cols as [| col cols IH]; intros df Hin.
  - apply elem_of_nil in Hin. contradiction.
  - cbn [fold_left]. apply elem_of_cons in Hin as [-> | Hin]; [| apply IH; exact Hin].
    apply Hkeep. rewrite add_missing_column_has, String.eqb_refl. apply orb_true_r.
Qed.

Lemma select_after_add_missing (df : DataFrame) :
  is_ok (df_select Pipeline.drivers_required_cols
           (fold_left Pipeline.add_missing_column Pipeline.drivers_required_cols df)) = true.
Proof.
  rewrite df_select_is_ok. apply forallb_forall. intros c Hc.
  apply add_missing_columns_have. apply list_elem_of_In. exact Hc.
Qed.

(** X16. [transform_drivers] supplies every column it selects, so the only
    failure of its body is a [driver_number] that [astype(int)] refuses; and
    the table it writes has the nine columns of line 61, in that order,
    whatever columns were staged. *)
Theorem drivers_frame_supplies_missing_columns (df : DataFrame) :
  is_ok (Pipeline.drivers_frame to_datetime df)
  = match df_lookup "driver_number" df with
    | Some n => is_ok (astype_int (fillna (Int 0) n))
    | None => true
    end /\
  forall out, Pipeline.drivers_frame to_datetime df = Ok out ->
              columns out = Pipeline.drivers_required_cols.
Proof.
  split.
  - unfold Pipeline.drivers_frame.
    set (df1 := Steps.ensure_ids "driver_id" df).
    assert (H1 : df_lookup "driver_number" df1 = df_lookup "driver_number" df).
    { unfold df1, Steps.ensure_ids. destruct (negb (df_has "driver_id" df)); [| reflexivity].
      apply df_lookup_set_ne. discriminate. }
    set (df2 := match df_lookup "dob" df1 with
                | Some d => df_set "dob" (to_datetime d) df1
                | None => df1
                end).
    assert (H2 : df_lookup "driver_number" df2 = df_lookup "driver_number" df).
    { unfold df2. destruct (df_lookup "dob" df1); [| exact H1].
      rewrite df_lookup_set_ne by discriminate. exact H1. }
    rewrite H2. destruct (df_lookup "driver_number" df) as [n |].
    + destruct (astype_int (fillna (Int 0) n)) as [n' | e]; res_step; [| reflexivity].
      apply select_after_add_missing.
    + res_step. apply select_after_add_missing.
  - intros out H. unfold Pipeline.drivers_frame in H.
    apply bind_Ok in H as (df3 & _ & H).
    apply df_select_columns in H as [Hcols _]. exact Hcols.
Qed.

End DriversFrame.

(** ** [transform_circuits] *)

Lemma circuits_frame_unfold (df : DataFrame) (alt : Series) :
  df_lookup "altitude" df = Some alt ->
  Steps.circuits_frame df
  = df_select ["circuit_id"; "circuit_ref"; "circuit_name"; "location"; "country";
               "lat"; "lng"; "altitude"; "url"]
      (df_set "altitude" (fillna (Int 0) alt)
         (df_set "circuit_id" (range_ids (df_len df)) df)).
Proof.
  intros Halt. unfold Steps.circuits_frame. cbv zeta. unfold df_get.
  rewrite df_lookup_set_ne by discriminate. rewrite Halt. reflexivity.
Qed.

(** What a table written by [transform_circuits] holds. *)
Lemma circuits_frame_columns (df out : DataFrame) :
  Steps.circuits_frame df = Ok out ->
  df_lookup "circuit_id" out = Some (range_ids (df_len df)) /\
  forall c, c ∈ ["circuit_ref"; "circuit_name"; "location"; "country"; "lat"; "lng"; "url"] ->
            df_lookup c out = df_lookup c df.
Proof.
  intros H.
  destruct (df_lookup "altitude" df) as [alt |] eqn:Halt.
  - rewrite (circuits_frame_unfold df alt Halt) in H.
    destruct (df_select_columns _ _ _ H) as [_ Hlook]. split.
    + rewrite Hlook by list_member.
      rewrite df_lookup_set_ne by discriminate. apply df_lookup_set_eq.
    + intros c Hc. rewrite Hlook.
      * rewrite !df_lookup_set_ne; [reflexivity | |]; intros ->; revert Hc; not_member.
      * apply list_elem_of_further.
        repeat (apply elem_of_cons in Hc as [-> | Hc]; [list_member |]).
        apply elem_of_nil in Hc. contradiction.
  - unfold Steps.circuits_frame in H. cbv zeta in H. unfold df_get in H.
    rewrite df_lookup_set_ne in H by discriminate. rewrite Halt in H. discriminate H.
Qed.

(** X17. [transform_circuits] numbers the circuits from 1 in row order, whatever
    [circuit_id] was staged, fills the missing altitudes with 0 and keeps the
    other seven columns as staged; its body fails, with a [KeyError], exactly
    when one of the eight staged columns it reads is absent. *)
Theorem circuits_frame_renumbers (df : DataFrame) :
  (forallb (fun c => df_has c df)
     ["altitude"; "circuit_ref"; "circuit_name"; "location"; "country"; "lat"; "lng"; "url"]
   = false ->
   Steps.circuits_frame df = Raise KeyError) /\
  (forallb (fun c => df_has c df)
     ["altitude"; "circuit_ref"; "circuit_name"; "location"; "country"; "lat"; "lng"; "url"]
   = true ->
   exists out alt,
     Steps.circuits_frame df = Ok out /\
     columns out = ["circuit_id"; "circuit_ref"; "circuit_name"; "location"; "country";
                    "lat"; "lng"; "altitude"; "url"] /\
     df_lookup "circuit_id" out = Some (range_ids (df_len df)) /\
     df_lookup "altitude" df = Some alt /\
     df_lookup "altitude" out = Some (fillna (Int 0) alt) /\
     forall c, c ∈ ["circuit_ref"; "circuit_name"; "location"; "country"; "lat"; "lng"; "url"] ->
               df_lookup c out = df_lookup c df).
Proof.
  cbn [forallb].
  destruct (df_lookup "altitude" df) as [alt |] eqn:Halt.
  - rewrite (circuits_frame_unfold df alt Halt).
    set (df2 := df_set "altitude" (fillna (Int 0) alt)
                  (df_set "circuit_id" (range_ids (df_len df)) df)).
    assert (Hother : forall c, c <> "altitude" -> c <> "circuit_id" ->
                               df_lookup c df2 = df_lookup c df).
    { intros c N1 N2. unfold df2. rewrite !df_lookup_set_ne by assumption. reflexivity. }
    assert (Hok : is_ok (df_select ["circuit_id"; "circuit_ref"; "circuit_name"; "location";
                                    "country"; "lat"; "lng"; "altitude"; "url"] df2)
                  = (df_has "altitude" df && (df_has "circuit_ref" df &&
                     (df_has "circuit_name" df && (df_has "location" df &&
                     (df_has "country" df && (df_has "lat" df && (df_has "lng" df &&
                     (df_has "url" df && true))))))))).
    { rewrite df_select_is_ok. cbn [forallb]. unfold df_has.
      rewrite (Hother "circuit_ref"), (Hother "circuit_name"), (Hother "location"),
        (Hother "country"), (Hother "lat"), (Hother "lng"), (Hother "url") by discriminate.
      unfold df2.
      rewrite df_lookup_set_eq, df_lookup_set_ne, df_lookup_set_eq by discriminate.
      rewrite Halt. cbn [andb].
      repeat match goal with |- context [df_lookup ?c df] => destruct (df_lookup c df) end;
        reflexivity. }
    split; intros Hall; rewrite Hall in Hok.
    + destruct (df_select _ df2) as [out | e] eqn:E; [discriminate Hok |].
      apply df_select_raises in E as ->. reflexivity.
    + destruct (df_select _ df2) as [out | e] eqn:E; [| discriminate Hok].
      destruct (df_select_columns _ _ _ E) as [Hcols Hlook].
      exists out, alt. split; [reflexivity |]. split; [exact Hcols |].
      split; [| split; [reflexivity | split]].
      * rewrite Hlook by list_member. unfold df2.
        rewrite df_lookup_set_ne by discriminate. apply df_lookup_set_eq.
      * rewrite Hlook by list_member. apply df_lookup_set_eq.
      * intros c Hc. rewrite Hlook.
        -- apply Hother; intros ->; revert Hc; not_member.
        -- apply list_elem_of_further.
           repeat (apply elem_of_cons in Hc as [-> | Hc]; [list_member |]).
           apply elem_of_nil in Hc. contradiction.
  - split; [| unfold df_has at 1; rewrite Halt; discriminate].
    intros _. unfold Steps.circuits_frame. cbv zeta. unfold df_get.
    rewrite df_lookup_set_ne by discriminate. rewrite Halt. reflexivity.
Qed.

Lemma drivers_frame_supplies_missing_columns_witness :
  exists out,
    Pipeline.drivers_frame id [("driver_ref", [Str "max_verstappen"; Str "perez"])] = Ok out /\
    columns out = Pipeline.drivers_required_cols.
Proof.
  assert (H : exists out,
             Pipeline.drivers_frame id [("driver_ref", [Str "max_verstappen"; Str "perez"])]
             = Ok out).
  { eexists. vm_compute. reflexivity. }
  destruct H as (out & H). exists out. split; [exact H |].
  exact (proj2 (drivers_frame_supplies_missing_columns id
                  [("driver_ref", [Str "max_verstappen"; Str "perez"])]) out H).
Defined.

Lemma circuits_frame_renumbers_witness :
  exists out,
    Steps.circuits_frame (("circuit_id", [Int 70; Int 9]) :: Fixtures.circuits) = Ok out /\
    df_lookup "circuit_id" out = Some [Int 1; Int 2].
Proof.
  destruct (proj2 (circuits_frame_renumbers (("circuit_id", [Int 70; Int 9]) :: Fixtures.circuits))
              eq_refl) as (out & alt & H & _ & Hid & _).
  exists out. split; [exact H | exact Hid].
Defined.

(** ** Circuits of the races *)

Section LookupValues.

Local Abbreviation zip_step :=
  (fun (d : gmap string cell) (kv : cell * cell) =>
     match kv.1 with
     | Str k => <[k := kv.2]> d
     | _ => d
     end).

Lemma fold_zip_values (P : cell -> Prop) (ks vs : list cell) (d0 : gmap string cell) :
  Forall P vs ->
  (forall k v, d0 !! k = Some v -> P v) ->
  forall k v, fold_left zip_step (zip ks vs) d0 !! k = Some v -> P v.
Proof.
  revert vs d0. induction ks as [| c ks IH]; intros [| v0 vs] d0 Hvs Hd0; try exact Hd0.
  apply Forall_cons in Hvs as [Hv0 Hvs].
  cbn [zip zip_with fold_left]. apply IH; [exact Hvs |].
  cbn [fst snd]. destruct c as [| z | x | k']; try exact Hd0.
  intros k v. destruct (decide (k' = k)) as [-> | Hne].
  - rewrite lookup_insert_eq. intros [= <-]. exact Hv0.
  - rewrite lookup_insert_ne by exact Hne. apply Hd0.
Qed.

End LookupValues.

Lemma dict_zip_values (P : cell -> Prop) (ks vs : list cell) (k : string) (v : cell) :
  Forall P vs -> dict_zip ks vs !! k = Some v -> P v.
Proof.
  intros Hvs. unfold dict_zip. apply fold_zip_values; [exact Hvs |].
  intros k0 v0 H. rewrite lookup_empty in H. discriminate H.
Qed.

Lemma range_ids_integers (n : nat) : Forall (fun v => exists z, v = Int z) (range_ids n).
Proof.
  unfold range_ids. apply Forall_forall. intros v Hv.
  apply list_elem_of_In, in_map_iff in Hv as (i & <- & _). eauto.
Qed.

(** [.map(lookup).fillna(0).astype(int)] over a lookup of integers: each
    key gets its integer, or 0. *)
Lemma map_fill_integers (d : gmap string cell) (keys : list cell) :
  (forall k v, d !! k = Some v -> exists z, v = Int z) ->
  astype_int (fillna (Int 0) (map_dict d keys))
  = Ok (map (fun c => if isna (map_cell d c) then Int 0 else map_cell d c) keys).
Proof.
  intros Hd. unfold map_dict. rewrite fillna_map.
  assert (Hints : exists zs,
             map (fun c => if isna (map_cell d c) then Int 0 else map_cell d c) keys
             = map Int zs).
  { induction keys as [| c keys (zs & IH)]; [exists []; reflexivity |].
    assert (Hc : exists z, (if isna (map_cell d c) then Int 0 else map_cell d c) = Int z).
    { destruct c as [| z | x | k]; cbn [map_cell isna]; try (exists 0; reflexivity).
      destruct (d !! k) as [v |] eqn:E; cbn [from_option id].
      - destruct (Hd k v E) as (z & ->). exists z. reflexivity.
      - exists 0. reflexivity. }
    destruct Hc as (z & Hz). exists (z :: zs). cbn [map]. rewrite Hz, IH. reflexivity. }
  destruct Hints as (zs & ->). apply astype_int_ints.
Qed.

Lemma resolve_circuit_unfold (circuits races : DataFrame) (ks keys : list cell) :
  rectangular circuits ->
  df_has "circuit_id" circuits = false ->
  df_lookup "circuit_ref" circuits = Some ks ->
  df_lookup "circuit_ref" races = Some keys ->
  Steps.resolve_circuit (Ok circuits) races
  = df_set "circuit_id"
      (map (fun c => if isna (map_cell (dict_zip ks (range_ids (length ks))) c) then Int 0
                     else map_cell (dict_zip ks (range_ids (length ks))) c) keys)
      races.
Proof.
  intros Hrect Hid Hks Hkeys.
  pose proof (rectangular_lookup _ _ _ Hrect Hks) as Hlen.
  destruct (ensure_ids_columns "circuit_id" "circuit_ref" circuits ks ltac:(discriminate) Hks)
    as [Hks' Hvs'].
  apply df_has_lookup in Hid. rewrite Hid in Hvs'.
  unfold Steps.resolve_circuit, df_has. rewrite Hkeys.
  unfold Steps.build_lookup. res_step.
  rewrite (df_get_Some _ _ _ Hks'), (df_get_Some _ _ _ Hvs'). res_step.
  rewrite (df_get_Some _ _ _ Hkeys). res_step.
  rewrite <- Hlen. rewrite map_fill_integers.
  - reflexivity.
  - intros k v Hv. eapply (dict_zip_values (fun v => exists z, v = Int z)); [| exact Hv].
    apply range_ids_integers.
Qed.

(** X18. The circuit of a race and the table of circuits agree: with
    [circuits.csv] staged without ids (as [extract_circuits] writes it), the
    [circuit_id] that [transform_races] gives to a race is the one that
    [transform_circuits] gives to the last row carrying the same
    [circuit_ref], and a reference that is in no row gets 0. *)
Theorem race_circuit_ids_agree_with_circuits
    (circuits races clean : DataFrame) (ks keys : list cell) (n : nat) (k : string) :
  rectangular circuits ->
  df_has "circuit_id" circuits = false ->
  df_lookup "circuit_ref" circuits = Some ks ->
  df_lookup "circuit_ref" races = Some keys ->
  Steps.circuits_frame circuits = Ok clean ->
  keys !! n = Some (Str k) ->
  (forall i, ks !! i = Some (Str k) ->
             (forall j, (i < j)%nat -> ks !! j <> Some (Str k)) ->
             df_cell "circuit_id" n (Steps.resolve_circuit (Ok circuits) races)
             = Some (Int (Z.of_nat i + 1)) /\
             df_cell "circuit_id" i clean = Some (Int (Z.of_nat i + 1)) /\
             df_cell "circuit_ref" i clean = Some (Str k)) /\
  (Str k ∉ ks ->
   df_cell "circuit_id" n (Steps.resolve_circuit (Ok circuits) races) = Some (Int 0)).
Proof.
  intros Hrect Hid Hks Hkeys Hclean Hn.
  rewrite (resolve_circuit_unfold circuits races ks keys Hrect Hid Hks Hkeys).
  pose proof (rectangular_lookup _ _ _ Hrect Hks) as Hlen.
  assert (Hcell : forall v : cell,
             (if isna (map_cell (dict_zip ks (range_ids (length ks))) (Str k)) then Int 0
              else map_cell (dict_zip ks (range_ids (length ks))) (Str k)) = v ->
             df_cell "circuit_id" n
               (df_set "circuit_id"
                  (map (fun c => if isna (map_cell (dict_zip ks (range_ids (length ks))) c)
                                 then Int 0
                                 else map_cell (dict_zip ks (range_ids (length ks))) c) keys)
                  races) = Some v).
  { intros v <-. unfold df_cell. rewrite df_lookup_set_eq.
    etransitivity; [apply lookup_map |]. rewrite Hn. reflexivity. }
  split.
  - intros i Hi Hlast.
    assert (Hlt : (i < length ks)%nat) by (eapply lookup_lt_Some; exact Hi).
    split; [| split].
    + apply Hcell. cbn [map_cell].
      rewrite (dict_zip_last k ks _ i _ Hi (range_ids_lookup _ _ Hlt) Hlast). reflexivity.
    + destruct (circuits_frame_columns circuits clean Hclean) as [Hcid _].
      unfold df_cell. rewrite Hcid. apply range_ids_lookup. rewrite <- Hlen. exact Hlt.
    + destruct (circuits_frame_columns circuits clean Hclean) as [_ Hother].
      unfold df_cell. rewrite Hother by list_member. rewrite Hks. exact Hi.
  - intros Hout. apply Hcell. cbn [map_cell].
    rewrite dict_zip_absent by exact Hout. reflexivity.
Qed.

Lemma race_circuit_ids_agree_with_circuits_witness :
  exists clean,
    Steps.circuits_frame Fixtures.circuits = Ok clean /\
    df_cell "circuit_id" 0 (Steps.resolve_circuit (Ok Fixtures.circuits) Fixtures.races)
    = Some (Int 1) /\
    df_cell "circuit_id" 0 clean = Some (Int 1) /\
    df_cell "circuit_ref" 0 clean = Some (Str "bahrain").
Proof.
  assert (H : exists clean, Steps.circuits_frame Fixtures.circuits = Ok clean).
  { eexists. vm_compute. reflexivity. }
  destruct H as (clean & H). exists clean. split; [exact H |].
  refine (proj1 (race_circuit_ids_agree_with_circuits
                   Fixtures.circuits Fixtures.races clean
                   [Str "bahrain"; Str "silverstone"] [Str "bahrain"; Str "unknown_circuit"]
                   0%nat "bahrain" _ eq_refl eq_refl eq_refl H eq_refl) 0%nat eq_refl _).
  - repeat constructor.
  - intros [| [| j]] Hj; try lia; discriminate.
Defined.

(** X19. Whatever [circuits.csv] holds, and whether or not it can be read, a
    race table with a [circuit_ref] column gets a [circuit_id] column of
    integers, one per race and none missing (lines 93-102); without that
    column the table is left alone. *)
Theorem race_circuit_id_is_never_missing
    (circuits : res DataFrame) (df : DataFrame) (keys : list cell) :
  rectangular df ->
  df_lookup "circuit_ref" df = Some keys ->
  (exists zs, df_lookup "circuit_id" (Steps.resolve_circuit circuits df) = Some (map Int zs) /\
              length zs = length keys) /\
  (forall df', df_has "circuit_ref" df' = false -> Steps.resolve_circuit circuits df' = df').
Proof.
  intros Hrect Hkeys. split.
  - unfold Steps.resolve_circuit, df_has. rewrite Hkeys.
    apply try_except_cases.
    + intros out H.
      apply bind_Ok in H as (circuits_df & _ & H).
      apply bind_Ok in H as (circuit_map & _ & H).
      apply bind_Ok in H as (ks0 & Hks0 & H).
      rewrite (df_get_Some _ _ _ Hkeys) in Hks0. injection Hks0 as <-.
      apply bind_Ok in H as (ids & Hids & H). injection H as <-.
      destruct (astype_int_integers _ _ Hids) as (zs & ->).
      exists zs. split; [apply df_lookup_set_eq |].
      apply astype_int_length in Hids.
      rewrite length_map, fillna_length, map_dict_length in Hids. exact Hids.
    + exists (replicate (df_len df) 0). unfold df_fill.
      rewrite df_lookup_set_eq, replicate_Int. split; [reflexivity |].
      rewrite length_replicate. symmetry. eapply rectangular_lookup; eassumption.
  - intros df' H. unfold Steps.resolve_circuit. rewrite H. reflexivity.
Qed.

Lemma race_circuit_id_is_never_missing_witness :
  exists zs,
    df_lookup "circuit_id" (Steps.resolve_circuit (Raise FileNotFoundError) Fixtures.races)
    = Some (map Int zs) /\
    length zs = 2%nat.
Proof.
  destruct (race_circuit_id_is_never_missing (Raise FileNotFoundError) Fixtures.races
              [Str "bahrain"; Str "unknown_circuit"] ltac:(repeat constructor) eq_refl)
    as [(zs & Hzs & Hlen) _].
  exists zs. split; assumption.
Defined.

(** ** [transform_qualifying] *)

Lemma fillna_no_missing (v : cell) (s : Series) :
  isna v = false -> Forall (fun x => isna x = false) (fillna v s).
Proof.
  intros Hv. unfold fillna. apply Forall_forall. intros x Hx.
  apply list_elem_of_In, in_map_iff in Hx as (c & <- & _).
  destruct (isna c) eqn:E; assumption.
Qed.

Lemma fill_or_create_no_missing (v : cell) (df : DataFrame) (col : string) :
  isna v = false ->
  exists s, df_lookup col (Steps.fill_or_create v df col) = Some s /\
            Forall (fun x => isna x = false) s.
Proof.
  intros Hv. unfold Steps.fill_or_create. destruct (df_lookup col df) as [s |].
  - exists (fillna v s). split; [apply df_lookup_set_eq | apply fillna_no_missing; exact Hv].
  - exists (replicate (df_len df) v). unfold df_fill.
    split; [apply df_lookup_set_eq | apply Forall_replicate; exact Hv].
Qed.

Lemma fill_or_create_other (v : cell) (df : DataFrame) (col c : string) :
  c <> col -> df_lookup c (Steps.fill_or_create v df col) = df_lookup c df.
Proof.
  intros Hne. unfold Steps.fill_or_create, df_fill.
  destruct (df_lookup col df); apply df_lookup_set_ne; exact Hne.
Qed.

Lemma numeric_int_column_other (df df' : DataFrame) (col c : string) :
  Steps.numeric_int_column df col = Ok df' -> c <> col ->
  df_lookup c df' = df_lookup c df.
Proof.
  unfold Steps.numeric_int_column. intros H Hne.
  destruct (df_lookup col df).
  - apply bind_Ok in H as (s' & _ & H). injection H as <-.
    apply df_lookup_set_ne. exact Hne.
  - injection H as <-. reflexivity.
Qed.

Lemma numeric_int_column_integers (df df' : DataFrame) (col : string) (s : Series) :
  Steps.numeric_int_column df col = Ok df' -> df_lookup col df' = Some s ->
  exists zs, s = map Int zs.
Proof.
  unfold Steps.numeric_int_column. intros H Hs.
  destruct (df_lookup col df) eqn:E.
  - apply bind_Ok in H as (s' & Hs' & H). injection H as <-.
    rewrite df_lookup_set_eq in Hs. injection Hs as <-.
    eapply astype_int_integers. exact Hs'.
  - injection H as <-. congruence.
Qed.

(** X20. In the table [transform_qualifying] writes, the three session times are
    always there and hold no missing value (a missing time is the empty
    text), and the position and the number, when staged, are integers. *)
Theorem qualifying_times_are_never_missing
    (drivers constructors : res DataFrame) (df out : DataFrame) :
  Steps.qualifying_frame drivers constructors df = Ok out ->
  (forall c, c ∈ ["q1"; "q2"; "q3"] ->
             exists s, df_lookup c out = Some s /\ Forall (fun x => isna x = false) s) /\
  (forall c s, c ∈ ["position"; "number"] -> df_lookup c out = Some s ->
               exists zs, s = map Int zs).
Proof.
  unfold Steps.qualifying_frame. cbn [fold_left]. intros H.
  set (df2 := Steps.resolve_constructor constructors (Steps.resolve_driver drivers df)) in *.
  set (f1 := Steps.fill_or_create (Str "") df2 "q1") in *.
  set (f2 := Steps.fill_or_create (Str "") f1 "q2") in *.
  set (f3 := Steps.fill_or_create (Str "") f2 "q3") in *.
  apply bind_Ok in H as (dfp & Hp & Hn).
  assert (Hq : forall c, c <> "position" -> c <> "number" ->
                         df_lookup c out = df_lookup c f3).
  { intros c N1 N2.
    rewrite (numeric_int_column_other _ _ _ c Hn N2).
    apply (numeric_int_column_other _ _ _ c Hp N1). }
  split.
  - intros c Hc. rewrite Hq by (intros ->; revert Hc; not_member).
    apply elem_of_cons in Hc as [-> | Hc];
      [| apply elem_of_cons in Hc as [-> | Hc];
         [| apply list_elem_of_singleton in Hc as ->]].
    + unfold f3, f2. rewrite !fill_or_create_other by discriminate.
      apply fill_or_create_no_missing. reflexivity.
    + unfold f3. rewrite fill_or_create_other by discriminate.
      apply fill_or_create_no_missing. reflexivity.
    + apply fill_or_create_no_missing. reflexivity.
  - intros c s Hc Hs.
    apply elem_of_cons in Hc as [-> | Hc]; [| apply list_elem_of_singleton in Hc as ->].
    + rewrite (numeric_int_column_other _ _ _ "position" Hn) in Hs by discriminate.
      exact (numeric_int_column_integers _ _ _ _ Hp Hs).
    + exact (numeric_int_column_integers _ _ _ _ Hn Hs).
Qed.

Lemma qualifying_times_are_never_missing_witness :
  exists out,
    Steps.qualifying_frame (Ok Fixtures.drivers) (Ok Fixtures.constructors)
      [("driver_ref", [Str "perez"; Str "max_verstappen"]);
       ("constructor_ref", [Str "red_bull"; Str "red_bull"]);
       ("position", [Int 2; Int 1]);
       ("q1", [Str "1:17.611"; Str "1:16.819"]);
       ("q2", [NaN; Str "1:16.387"])] = Ok out /\
    df_lookup "q2" out = Some [Str ""; Str "1:16.387"] /\
    exists s, df_lookup "q3" out = Some s /\ Forall (fun x => isna x = false) s.
Proof.
  assert (H : exists out,
             Steps.qualifying_frame (Ok Fixtures.drivers) (Ok Fixtures.constructors)
               [("driver_ref", [Str "perez"; Str "max_verstappen"]);
                ("constructor_ref", [Str "red_bull"; Str "red_bull"]);
                ("position", [Int 2; Int 1]);
                ("q1", [Str "1:17.611"; Str "1:16.819"]);
                ("q2", [NaN; Str "1:16.387"])] = Ok out /\
             df_lookup "q2" out = Some [Str ""; Str "1:16.387"]).
  { eexists. split; vm_compute; reflexivity. }
  destruct H as (out & H & Hq2). exists out. split; [exact H |]. split; [exact Hq2 |].
  apply (proj1 (qualifying_times_are_never_missing _ _ _ _ H)). list_member.
Defined.

(** ** [transform_standings] *)

Lemma fill_points_wins_is_ok (df : DataFrame) :
  is_ok (Steps.fill_points_wins df) = df_has "points" df && df_has "wins" df /\
  forall e, Steps.fill_points_wins df = Raise e -> e = KeyError.
Proof.
  unfold Steps.fill_points_wins, df_get, df_has.
  destruct (df_lookup "points" df) as [p |]; res_step.
  - rewrite df_lookup_set_ne by discriminate.
    destruct (df_lookup "wins" df) as [w |]; res_step;
      (split; [reflexivity |
               intros e H; first [discriminate H | injection H as <-; reflexivity]]).
  - split; [reflexivity | intros e H; injection H as <-; reflexivity].
Qed.

(** X21. The two halves of [transform_standings] absorb every problem of the
    reference tables; each fails, with a [KeyError], exactly when the staged
    standings lack the [points] or the [wins] column (lines 294-295 and
    321-322), and otherwise leaves no missing value in either. *)
Theorem standings_fail_only_without_points_or_wins
    (constructors drivers : res DataFrame) (df : DataFrame) :
  rectangular df ->
  (is_ok (Steps.constructor_standings_frame constructors df)
   = df_has "points" df && df_has "wins" df /\
   is_ok (Steps.driver_standings_frame drivers df)
   = df_has "points" df && df_has "wins" df) /\
  (forall e, Steps.constructor_standings_frame constructors df = Raise e
             \/ Steps.driver_standings_frame drivers df = Raise e -> e = KeyError) /\
  (forall out c s,
      Steps.constructor_standings_frame constructors df = Ok out
      \/ Steps.driver_standings_frame drivers df = Ok out ->
      c ∈ ["points"; "wins"] -> df_lookup c out = Some s ->
      Forall (fun x => isna x = false) s).
Proof.
  intros Hrect.
  destruct (resolve_constructor_assigns constructors df Hrect) as (_ & _ & Kc).
  destruct (resolve_driver_assigns drivers df Hrect) as (_ & _ & Kd).
  unfold Steps.constructor_standings_frame, Steps.driver_standings_frame.
  split; [| split].
  - split.
    + rewrite (proj1 (fill_points_wins_is_ok _)). unfold df_has.
      rewrite !Kc by not_member. reflexivity.
    + rewrite (proj1 (fill_points_wins_is_ok _)). unfold df_has.
      rewrite !Kd by not_member. reflexivity.
  - intros e [H | H]; eapply (proj2 (fill_points_wins_is_ok _)); exact H.
  - assert (Hfill : forall df0 out c s,
               Steps.fill_points_wins df0 = Ok out -> c ∈ ["points"; "wins"] ->
               df_lookup c out = Some s -> Forall (fun x => isna x = false) s).
    { intros df0 out c s H Hc Hs. unfold Steps.fill_points_wins in H.
      apply bind_Ok in H as (p & _ & H). apply bind_Ok in H as (w & _ & H).
      injection H as <-.
      apply elem_of_cons in Hc as [-> | Hc]; [| apply list_elem_of_singleton in Hc as ->].
      - rewrite df_lookup_set_ne, df_lookup_set_eq in Hs by discriminate.
        injection Hs as <-. apply fillna_no_missing. reflexivity.
      - rewrite df_lookup_set_eq in Hs. injection Hs as <-.
        apply fillna_no_missing. reflexivity. }
    intros out c s [H | H]; eapply Hfill; exact H.
Qed.

Lemma standings_fail_only_without_points_or_wins_witness :
  is_ok (Steps.constructor_standings_frame (Raise FileNotFoundError)
           [("constructor_ref", [Str "red_bull"]); ("points", [NaN]); ("wins", [Int 3])])
  = true /\
  is_ok (Steps.driver_standings_frame (Ok Fixtures.drivers)
           [("driver_ref", [Str "perez"]); ("points", [Int 10])])
  = false.
Proof.
  split.
  - exact (proj1 (proj1 (standings_fail_only_without_points_or_wins
                           (Raise FileNotFoundError) (Raise FileNotFoundError)
                           [("constructor_ref", [Str "red_bull"]); ("points", [NaN]);
                            ("wins", [Int 3])]
                           ltac:(repeat constructor)))).
  - exact (proj2 (proj1 (standings_fail_only_without_points_or_wins
                           (Ok Fixtures.drivers) (Ok Fixtures.drivers)
                           [("driver_ref", [Str "perez"]); ("points", [Int 10])]
                           ltac:(repeat constructor)))).
Defined.

(** ** [transform_races] *)

Lemma resolve_circuit_other (circuits : res DataFrame) (df : DataFrame) (c : string) :
  c <> "circuit_id" ->
  df_lookup c (Steps.resolve_circuit circuits df) = df_lookup c df.
Proof.
  intros Hne. unfold Steps.resolve_circuit.
  destruct (df_has "circuit_ref" df); [| reflexivity].
  apply try_except_cases.
  - intros out H.
    apply bind_Ok in H as (circuits_df & _ & H).
    apply bind_Ok in H as (circuit_map & _ & H).
    apply bind_Ok in H as (ks & _ & H).
    apply bind_Ok in H as (ids & _ & H). injection H as <-.
    apply df_lookup_set_ne. exact Hne.
  - unfold df_fill. apply df_lookup_set_ne. exact Hne.
Qed.

Section RacesFrame.

Variable to_datetime : Series -> Series.

Lemma races_frame_before_ids (circuits : res DataFrame) (df : DataFrame) (c : string) :
  c <> "race_date" -> c <> "race_time" -> c <> "circuit_id" ->
  df_lookup c
    (Steps.resolve_circuit circuits
       (Steps.fill_or_create (Str "00:00:00")
          match df_lookup "race_date" df with
          | Some d => df_set "race_date" (to_datetime d) df
          | None => df
          end "race_time"))
  = df_lookup c df.
Proof.
  intros N1 N2 N3.
  rewrite resolve_circuit_other, fill_or_create_other by assumption.
  destruct (df_lookup "race_date" df); [apply df_lookup_set_ne; exact N1 | reflexivity].
Qed.

(** X22. On a staged race table whose [race_id] column holds integers, as
    [extract_races] writes it, the body of [transform_races] cannot fail,
    whatever the circuits file holds and whether or not it can be read: the
    race ids are kept, and the start time is there without a missing value
    ([00:00:00] where none was staged). *)
Theorem races_frame_succeeds_on_staged_ids
    (circuits : res DataFrame) (df : DataFrame) (zs : list Z) :
  df_lookup "race_id" df = Some (map Int zs) ->
  exists out,
    Pipeline.races_frame to_datetime circuits df = Ok out /\
    df_lookup "race_id" out = Some (map Int zs) /\
    (exists t, df_lookup "race_time" out = Some t /\ Forall (fun x => isna x = false) t) /\
    forall c, c <> "race_date" -> c <> "race_time" -> c <> "circuit_id" -> c <> "race_id" ->
              df_lookup c out = df_lookup c df.
Proof.
  intros Hids. unfold Pipeline.races_frame. cbv zeta.
  set (df1 := match df_lookup "race_date" df with
              | Some d => df_set "race_date" (to_datetime d) df
              | None => df
              end).
  set (df3 := Steps.resolve_circuit circuits
                (Steps.fill_or_create (Str "00:00:00") df1 "race_time")).
  assert (Hids3 : df_lookup "race_id" df3 = Some (map Int zs)).
  { unfold df3, df1. rewrite races_frame_before_ids by discriminate. exact Hids. }
  unfold Steps.assign_race_id, df_has. rewrite Hids3.
  rewrite (df_get_Some _ _ _ Hids3). res_step. rewrite astype_int_ints. res_step.
  eexists. split; [reflexivity |]. split; [apply df_lookup_set_eq |]. split.
  - rewrite df_lookup_set_ne by discriminate.
    unfold df3. rewrite resolve_circuit_other by discriminate.
    apply fill_or_create_no_missing. reflexivity.
  - intros c N1 N2 N3 N4. rewrite df_lookup_set_ne by exact N4.
    unfold df3, df1. apply races_frame_before_ids; assumption.
Qed.

End RacesFrame.

Lemma races_frame_succeeds_on_staged_ids_witness :
  exists out,
    Pipeline.races_frame id (Raise FileNotFoundError)
      (("race_id", [Int 202401; Int 202410]) :: Fixtures.races) = Ok out /\
    df_lookup "race_id" out = Some [Int 202401; Int 202410].
Proof.
  destruct (races_frame_succeeds_on_staged_ids id (Raise FileNotFoundError)
              (("race_id", [Int 202401; Int 202410]) :: Fixtures.races) [202401; 202410]
              eq_refl) as (out & H & Hids & _).
  exists out. split; assumption.
Defined.

(** * Further properties of the pipeline *)

Section Stages.

Variable read_csv : string -> res DataFrame.
Variable to_csv : DataFrame -> string.
Variable to_datetime : Series -> Series.
Variable dt_date : Series -> Series.
Variable connect : res unit.
Variable api : Extract.Api.
Variable fuel : nat.

Local Abbreviation extract_all := (Pipeline.extract_all to_csv api fuel).
Local Abbreviation transform_all := (Pipeline.transform_all read_csv to_csv to_datetime).
Local Abbreviation load_all := (Pipeline.load_all read_csv to_datetime dt_date connect).

(** X23. Each stage writes its own outputs and nothing else, however it ends:
    the extraction only the ten raw files, the transformation only the eight
    clean files (never a raw file, never a table), and the load only tables
    (never a file). *)
Theorem stages_write_only_their_outputs (start_year end_year : Z) (s : store) :
  (forall k,
      k ∉ [Pipeline.raw "circuits.csv"; Pipeline.raw "seasons.csv";
           Pipeline.raw "constructors.csv"; Pipeline.raw "drivers.csv";
           Pipeline.raw "races.csv"; Pipeline.raw "results.csv";
           Pipeline.raw "qualifying.csv"; Pipeline.raw "pit_stops.csv";
           Pipeline.raw "constructor_standings.csv"; Pipeline.raw "driver_standings.csv"] ->
      (run (extract_all start_year end_year) s).1 !! k = s !! k) /\
  (forall k,
      k ∉ [Pipeline.processed "circuits_clean.csv"; Pipeline.processed "drivers_clean.csv";
           Pipeline.processed "races_clean.csv"; Pipeline.processed "results_clean.csv";
           Pipeline.processed "qualifying_clean.csv"; Pipeline.processed "pit_stops_clean.csv";
           Pipeline.processed "constructor_standings_clean.csv";
           Pipeline.processed "driver_standings_clean.csv"] ->
      (run transform_all s).1 !! k = s !! k) /\
  (forall name, (run transform_all s).1 !! Table name = s !! Table name) /\
  (forall path, (run load_all s).1 !! File path = s !! File path).
Proof.
  split; [| split; [| split]].
  - intros k Hk. eapply run_frame; [apply respects_extract_all | exact Hk].
  - intros k Hk. eapply run_frame; [apply respects_transform_all | exact Hk].
  - intros name. eapply run_frame; [apply respects_transform_all |].
    cbv [all_writes Pipeline.transform_footprints map concat fp_writes app].
    rewrite !not_elem_of_cons. repeat split; try discriminate. apply not_elem_of_nil.
  - intros path. eapply run_frame; [apply respects_load_all |].
    cbv [all_writes Pipeline.load_footprints Pipeline.writes_only map concat fp_writes app].
    rewrite !not_elem_of_cons. repeat split; try discriminate. apply not_elem_of_nil.
Qed.

(** ** Standings that were not staged *)

Lemma respects_take_transform (n : nat) :
  Forall2 respects (take n transform_all) (take n Pipeline.transform_footprints).
Proof. apply Forall2_take. apply respects_transform_all. Qed.

Lemma respects_take_load (n : nat) :
  Forall2 respects (take n load_all) (take n Pipeline.load_footprints).
Proof. apply Forall2_take. apply respects_load_all. Qed.

Lemma load_standings_missing (s : store) :
  s !! Pipeline.processed "constructor_standings_clean.csv" = None ->
  Pipeline.load_standings read_csv s = ([], Failed FileNotFoundError).
Proof.
  intros H. unfold Pipeline.load_standings, Pipeline.pd_read_csv. rewrite H. reflexivity.
Qed.

(** Without a staged input the first half of [transform_standings] writes
    nothing. *)
Lemma transform_standings_skips (s : store) :
  s !! Pipeline.raw "constructor_standings.csv" = None ->
  forall k v, (k, v) ∈ (Pipeline.transform_standings read_csv to_csv s).1 ->
              k = Pipeline.processed "driver_standings_clean.csv".
Proof.
  intros Hraw k v. unfold Pipeline.transform_standings.
  assert (Hconst : Pipeline.standings_part read_csv to_csv s
                     (Pipeline.raw "constructor_standings.csv")
                     (Pipeline.processed "constructor_standings_clean.csv")
                     (Steps.constructor_standings_frame
                        (Pipeline.pd_read_csv read_csv s (Pipeline.raw "constructors.csv")))
                   = Ok []).
  { unfold Pipeline.standings_part, Pipeline.missing_or_small. rewrite Hraw. reflexivity. }
  rewrite Hconst.
  destruct (Pipeline.standings_part read_csv to_csv s
              (Pipeline.raw "driver_standings.csv") _ _) as [ws | e] eqn:E; cbn [fst app].
  - intros Hin. eapply standings_part_keys; eassumption.
  - intros Hin. apply elem_of_nil in Hin. contradiction.
Qed.

Lemma transform_all_leaves_standings_missing (s : store) :
  s !! Pipeline.raw "constructor_standings.csv" = None ->
  s !! Pipeline.processed "constructor_standings_clean.csv" = None ->
  (run transform_all s).1 !! Pipeline.processed "constructor_standings_clean.csv" = None.
Proof.
  intros Hraw Hclean.
  change transform_all with (take 6 transform_all ++ [Pipeline.transform_standings read_csv to_csv])%list.
  rewrite run_app.
  pose proof (fun k => run_frame (take 6 transform_all) _ s k (respects_take_transform 6))
    as Hframe.
  assert (Hraw6 : (run (take 6 transform_all) s).1 !! Pipeline.raw "constructor_standings.csv"
                  = None) by (rewrite Hframe; [exact Hraw | not_member]).
  assert (Hclean6 : (run (take 6 transform_all) s).1
                      !! Pipeline.processed "constructor_standings_clean.csv" = None)
    by (rewrite Hframe; [exact Hclean | not_member]).
  destruct (run (take 6 transform_all) s).2; try exact Hclean6.
  set (s6 := (run (take 6 transform_all) s).1) in *.
  assert (Hstep : apply_writes (Pipeline.transform_standings read_csv to_csv s6).1 s6
                    !! Pipeline.processed "constructor_standings_clean.csv" = None).
  { rewrite apply_writes_other; [exact Hclean6 |].
    intros Hin. apply list_elem_of_fmap in Hin as ([k v] & Hk & Hin).
    apply (transform_standings_skips s6 Hraw6) in Hin. cbn [fst] in Hk.
    rewrite Hin in Hk. discriminate Hk. }
  cbn [run]. destruct (Pipeline.transform_standings read_csv to_csv s6).2; exact Hstep.
Qed.

Lemma load_all_without_standings (s : store) :
  s !! Pipeline.processed "constructor_standings_clean.csv" = None ->
  (run load_all s).2 <> Finished.
Proof.
  intros Hclean.
  change load_all with (take 9 load_all ++ [Pipeline.load_standings read_csv])%list.
  rewrite run_app.
  pose proof (run_frame (take 9 load_all) _ s
                (Pipeline.processed "constructor_standings_clean.csv")
                (respects_take_load 9) ltac:(not_member)) as Hframe.
  destruct (run (take 9 load_all) s).2 eqn:E; try (rewrite E; discriminate).
  cbn [run]. rewrite load_standings_missing by (rewrite Hframe; exact Hclean).
  cbn [snd]. discriminate.
Qed.

(** X24. When [constructor_standings.csv] was not staged and no clean file is
    left from an earlier run, the transformation skips the constructor
    standings without writing their clean file (lines 277-301), and the load
    that follows cannot finish: [load_standings] reads that file
    unconditionally (line 160) and raises [FileNotFoundError]. *)
Theorem unstaged_standings_stop_the_load (start_year end_year : Z) (s : store) :
  s !! Pipeline.raw "constructor_standings.csv" = None ->
  s !! Pipeline.processed "constructor_standings_clean.csv" = None ->
  (run transform_all s).1 !! Pipeline.processed "constructor_standings_clean.csv" = None /\
  (Pipeline.run_full_pipeline read_csv to_csv to_datetime dt_date connect api fuel
     start_year end_year true false false s).2 <> Finished /\
  Pipeline.load_standings read_csv (run transform_all s).1 = ([], Failed FileNotFoundError).
Proof.
  intros Hraw Hclean.
  pose proof (transform_all_leaves_standings_missing s Hraw Hclean) as Hafter.
  split; [exact Hafter |]. split; [| apply load_standings_missing; exact Hafter].
  unfold Pipeline.run_full_pipeline, Pipeline.pipeline. cbn [app].
  rewrite run_app. destruct (run transform_all s).2 eqn:E; try (rewrite E; discriminate).
  apply load_all_without_standings. exact Hafter.
Qed.

(** ** A clean table without rows *)

(** X25. [_load_table] skips a frame without rows (lines 59-61), so a clean
    results file that holds no row does not empty the [results] table: after
    the whole load the table is what it was before, rows of an earlier load
    included. *)
Theorem empty_results_leave_the_table (s : store) (df : DataFrame) :
  Pipeline.pd_read_csv read_csv s (Pipeline.processed "results_clean.csv") = Ok df ->
  df_empty
    (df_select_present
       ["race_id"; "driver_id"; "constructor_id"; "number"; "grid";
        "position"; "position_text"; "position_order"; "points"; "laps";
        "time_result"; "milliseconds"; "fastest_lap"; "fastest_lap_rank";
        "fastest_lap_time"; "fastest_lap_speed"; "status_id"] df) = true ->
  (run load_all s).1 !! Table "results" = s !! Table "results".
Proof.
  intros Hread Hempty.
  change load_all
    with (take 6 load_all ++ Pipeline.load_results read_csv :: drop 7 load_all)%list.
  rewrite run_app.
  pose proof (fun k => run_frame (take 6 load_all) _ s k (respects_take_load 6)) as Hframe.
  assert (Htable : (run (take 6 load_all) s).1 !! Table "results" = s !! Table "results")
    by (apply Hframe; not_member).
  destruct (run (take 6 load_all) s).2; try exact Htable.
  set (s6 := (run (take 6 load_all) s).1) in *.
  assert (Hread6 : Pipeline.pd_read_csv read_csv s6 (Pipeline.processed "results_clean.csv")
                   = Ok df).
  { rewrite <- Hread. apply pd_read_csv_agree. apply Hframe. not_member. }
  assert (Hstep : Pipeline.load_results read_csv s6 = ([], Finished)).
  { unfold Pipeline.load_results, Pipeline.load_from. rewrite Hread6.
    unfold Pipeline.load_table. rewrite Hempty. reflexivity. }
  rewrite (run_step _ _ _ _ Hstep). cbn [apply_writes fold_left].
  rewrite (run_frame (drop 7 load_all) (drop 7 Pipeline.load_footprints)).
  - exact Htable.
  - apply Forall2_drop. apply respects_load_all.
  - not_member.
Qed.

End Stages.

Lemma unstaged_standings_stop_the_load_witness :
  (run (Pipeline.transform_all Fixtures.read_header Fixtures.csv_text id)
       (<[Pipeline.raw "drivers.csv" := Text "driver_ref"]>
          (<[Pipeline.raw "races.csv" := Text "race_id"]>
             (<[Pipeline.raw "qualifying.csv" := Text "driver_ref"]> ∅)))).2 = Finished /\
  (Pipeline.run_full_pipeline Fixtures.read_header Fixtures.csv_text id id (Ok tt)
     Fixtures.api_down 1 2005 2024 true false false
     (<[Pipeline.raw "drivers.csv" := Text "driver_ref"]>
        (<[Pipeline.raw "races.csv" := Text "race_id"]>
           (<[Pipeline.raw "qualifying.csv" := Text "driver_ref"]> ∅)))).2 <> Finished.
Proof.
  split; [vm_compute; reflexivity |].
  apply (unstaged_standings_stop_the_load Fixtures.read_header Fixtures.csv_text id id (Ok tt)
           Fixtures.api_down 1 2005 2024
           (<[Pipeline.raw "drivers.csv" := Text "driver_ref"]>
              (<[Pipeline.raw "races.csv" := Text "race_id"]>
                 (<[Pipeline.raw "qualifying.csv" := Text "driver_ref"]> ∅))));
    vm_compute; reflexivity.
Defined.

Lemma empty_results_leave_the_table_witness :
  (run (Pipeline.load_all Fixtures.read_header id id (Ok tt))
       (<[Table "results" := Rows [("race_id", [Int 202401])]]>
          (<[Pipeline.processed "results_clean.csv" := Text "race_id"]> ∅))).1
    !! Table "results"
  = Some (Rows [("race_id", [Int 202401])]).
Proof.
  rewrite (empty_results_leave_the_table Fixtures.read_header id id (Ok tt)
             (<[Table "results" := Rows [("race_id", [Int 202401])]]>
                (<[Pipeline.processed "results_clean.csv" := Text "race_id"]> ∅))
             [("race_id", [])]); vm_compute; reflexivity.
Defined.

(** * Further properties of the rows staged and loaded *)

(** ** The start time of a race *)

Lemma remove_Z_no_Z (s before after : string) :
  Extract.remove_Z s <> before ++ String "Z" after.
Proof.
  revert before. induction s as [| c s IH]; intros before; cbn [Extract.remove_Z].
  - destruct before; rewrite ?string_app_nil, ?string_app_cons; discriminate.
  - destruct (Ascii.eqb_spec c "Z") as [-> | Hne]; [apply IH |].
    destruct before as [| b before]; rewrite ?string_app_nil, ?string_app_cons.
    + intros [= E _]. contradiction.
    + intros [= _ E]. exact (IH before E).
Qed.

(** X26. Every race row that [extract_races] stages has a start time without
    the zone letter [Z] (line 212 removes each one), and a race for which
    the API gives no time gets [00:00:00]. *)
Theorem race_time_has_no_zone_letter
    (year : Z) (race : list (string * Extract.json)) (rows : list record) :
  Extract.race_rows year (Extract.JDict race) = Ok rows ->
  Forall (fun row =>
            exists t, record_get "race_time" row = Str t /\
                      (forall before after, t <> before ++ String "Z" after) /\
                      (Extract.assoc "time" race = None -> t = "00:00:00")) rows.
Proof.
  unfold Extract.race_rows. intros H.
  apply bind_Ok in H as (circuit & _ & H).
  apply bind_Ok in H as (practice & _ & H).
  apply bind_Ok in H as (race_date & _ & H).
  apply bind_Ok in H as (t & Ht & H).
  apply bind_Ok in H as (race_time & Htime & H).
  repeat (apply bind_Ok in H as (? & _ & H)).
  injection H as <-. constructor; [| constructor].
  exists race_time. split; [reflexivity |].
  destruct t as [| | | s | |]; try discriminate Htime. injection Htime as <-.
  split; [intros before after; apply remove_Z_no_Z |].
  intros Hnone. cbn [Extract.get] in Ht. rewrite Hnone in Ht.
  injection Ht as <-. reflexivity.
Qed.

Lemma race_time_has_no_zone_letter_witness :
  exists row,
    Extract.race_rows 2024 (Fixtures.race_json (Some "04:00:00Z")) = Ok [row] /\
    record_get "race_time" row = Str "04:00:00" /\
    exists row',
      Extract.race_rows 2024 (Fixtures.race_json None) = Ok [row'] /\
      record_get "race_time" row' = Str "00:00:00".
Proof.
  assert (H : exists row,
             Extract.race_rows 2024 (Fixtures.race_json (Some "04:00:00Z")) = Ok [row] /\
             record_get "race_time" row = Str "04:00:00").
  { eexists. split; vm_compute; reflexivity. }
  destruct H as (row & H & Hrow). exists row. split; [exact H |]. split; [exact Hrow |].
  assert (H' : exists row', Extract.race_rows 2024 (Fixtures.race_json None) = Ok [row']).
  { eexists. vm_compute. reflexivity. }
  destruct H' as (row' & H'). exists row'. split; [exact H' |].
  pose proof (race_time_has_no_zone_letter 2024 _ _ H') as Hall.
  apply Forall_cons in Hall as [(t & Ht & _ & Hdefault) _].
  rewrite Ht, (Hdefault eq_refl). reflexivity.
Defined.

(** ** The status of a result *)

(** X27. A result for which the API gives no status is staged as [Finished]
    (line 286), and [transform_results] then gives it the code 1. *)
Theorem result_without_status_is_finished
    (race_id : Z) (result : list (string * Extract.json)) (row : record) :
  Extract.result_row race_id (Extract.JDict result) = Ok row ->
  Extract.assoc "status" result = None ->
  record_get "status" row = Str "Finished" /\
  Steps.status_id_cell (record_get "status" row) = Int 1.
Proof.
  unfold Extract.result_row. intros H Hnone.
  repeat first
    [ apply bind_Ok in H as (? & ? & H)
    | match type of H with (let '(_, _) := ?p in _) = _ => destruct p end ].
  injection H as <-.
  match goal with
  | Hs : Extract.get (Extract.JDict result) "status" _ = Ok ?st,
    Hc : Extract.to_cell ?st = Ok _ |- _ =>
      cbn [Extract.get] in Hs; rewrite Hnone in Hs; injection Hs as <-;
      cbn in Hc; injection Hc as <-
  end.
  split; reflexivity.
Qed.

Lemma result_without_status_is_finished_witness :
  exists row,
    Extract.result_row 202403 Fixtures.result_json = Ok row /\
    record_get "status" row = Str "Finished" /\
    Steps.status_id_cell (record_get "status" row) = Int 1.
Proof.
  assert (H : exists row, Extract.result_row 202403 Fixtures.result_json = Ok row).
  { eexists. vm_compute. reflexivity. }
  destruct H as (row & H). exists row. split; [exact H |].
  apply (result_without_status_is_finished 202403 _ row H). reflexivity.
Defined.

(** ** The columns that are loaded *)

Lemma omap_cons_eq {A B : Type} (f : A -> option B) (x : A) (l : list A) :
  omap f (x :: l) = match f x with
                    | Some y => y :: omap f l
                    | None => omap f l
                    end.
Proof. reflexivity. Qed.

Lemma df_select_present_lookup (cs : list string) (df : DataFrame) (c : string) :
  df_lookup c (df_select_present cs df)
  = if bool_decide (c ∈ cs) then df_lookup c df else None.
Proof.
  unfold df_select_present. induction cs as [| c0 cs IH]; [reflexivity |].
  rewrite omap_cons_eq.
  assert (Hdec : c <> c0 -> bool_decide (c ∈ c0 :: cs) = bool_decide (c ∈ cs)).
  { intros Hne. apply bool_decide_ext. rewrite elem_of_cons. tauto. }
  destruct (String.eqb_spec c c0) as [-> | Hne].
  - rewrite bool_decide_eq_true_2 by list_member.
    destruct (df_lookup c0 df) as [s0 |] eqn:E.
    + cbn [df_lookup]. rewrite String.eqb_refl. reflexivity.
    + rewrite IH. destruct (bool_decide (c0 ∈ cs)); reflexivity.
  - rewrite (Hdec Hne).
    destruct (df_lookup c0 df) as [s0 |]; [| exact IH].
    cbn [df_lookup]. destruct (String.eqb_spec c c0); [contradiction | exact IH].
Qed.

(** X28. [load_results] loads nothing but the seventeen listed columns, each
    as the clean file holds it: the natural keys [driver_ref] and
    [constructor_ref] and the status text never reach the [results] table. *)
Theorem loaded_results_have_listed_columns_only
    (read_csv : string -> res DataFrame) (s : store) (out : DataFrame) :
  ((Table "results", Rows out) ∈ (Pipeline.load_results read_csv s).1) ->
  exists df,
    Pipeline.pd_read_csv read_csv s (Pipeline.processed "results_clean.csv") = Ok df /\
    (forall c,
        c ∈ ["race_id"; "driver_id"; "constructor_id"; "number"; "grid";
             "position"; "position_text"; "position_order"; "points"; "laps";
             "time_result"; "milliseconds"; "fastest_lap"; "fastest_lap_rank";
             "fastest_lap_time"; "fastest_lap_speed"; "status_id"] ->
        df_lookup c out = df_lookup c df) /\
    (forall c,
        c ∉ ["race_id"; "driver_id"; "constructor_id"; "number"; "grid";
             "position"; "position_text"; "position_order"; "points"; "laps";
             "time_result"; "milliseconds"; "fastest_lap"; "fastest_lap_rank";
             "fastest_lap_time"; "fastest_lap_speed"; "status_id"] ->
        df_has c out = false) /\
    df_has "driver_ref" out = false /\
    df_has "constructor_ref" out = false /\
    df_has "status" out = false.
Proof.
  unfold Pipeline.load_results, Pipeline.load_from, Pipeline.load_table. intros Hin.
  destruct (Pipeline.pd_read_csv read_csv s _) as [df | e]; cbn [fst] in Hin;
    [| apply elem_of_nil in Hin; contradiction].
  destruct (df_empty _); [apply elem_of_nil in Hin; contradiction |].
  apply list_elem_of_singleton in Hin.
  apply (f_equal (fun kv : loc * obj => match kv.2 with Rows d => d | Text _ => [] end))
    in Hin.
  cbv beta iota in Hin. cbn [snd] in Hin. subst out.
  exists df. split; [reflexivity |].
  assert (Hout : forall c cs, c ∉ cs -> df_has c (df_select_present cs df) = false).
  { intros c cs Hc. unfold df_has.
    rewrite df_select_present_lookup, bool_decide_eq_false_2 by exact Hc. reflexivity. }
  split; [| split; [| split; [| split]]].
  - intros c Hc. rewrite df_select_present_lookup, bool_decide_eq_true_2 by exact Hc.
    reflexivity.
  - intros c Hc. apply Hout. exact Hc.
  - apply Hout. not_member.
  - apply Hout. not_member.
  - apply Hout. not_member.
Qed.

Lemma loaded_results_have_listed_columns_only_witness :
  exists out,
    ((Table "results", Rows out)
       ∈ (Pipeline.load_results (fun _ => Ok Fixtures.results)
            (<[Pipeline.processed "results_clean.csv" := Text "rows"]> ∅)).1) /\
    df_has "driver_ref" out = false /\
    df_lookup "race_id" out = Some [Int 202401; Int 202401; Int 202401].
Proof.
  assert (H : exists out,
             (Table "results", Rows out)
               ∈ (Pipeline.load_results (fun _ => Ok Fixtures.results)
                    (<[Pipeline.processed "results_clean.csv" := Text "rows"]> ∅)).1).
  { eexists. vm_compute. apply list_elem_of_here. }
  destruct H as (out & H). exists out. split; [exact H |].
  destruct (loaded_results_have_listed_columns_only _ _ _ H)
    as (df & Hdf & Hin & _ & Href & _).
  split; [exact Href |].
  rewrite Hin by list_member.
  vm_compute in Hdf. injection Hdf as <-. reflexivity.
Defined.

(** ** The skip flags *)

Section Flags.

Variable read_csv : string -> res DataFrame.
Variable to_csv : DataFrame -> string.
Variable to_datetime : Series -> Series.
Variable dt_date : Series -> Series.
Variable connect : res unit.
Variable api : Extract.Api.
Variable fuel : nat.

Local Abbreviation run_full_pipeline :=
  (Pipeline.run_full_pipeline read_csv to_csv to_datetime dt_date connect api fuel).

(** X29. A skipped stage leaves its outputs alone whatever the other stages
    do: with [skip_extract] no raw file changes, with [skip_transform] no
    clean file changes, and with [skip_load] no table changes. *)
Theorem skip_flags_protect_outputs
    (start_year end_year : Z) (skip_extract skip_transform skip_load : bool) (s : store) :
  (skip_extract = true ->
   forall k,
     k ∈ [Pipeline.raw "circuits.csv"; Pipeline.raw "seasons.csv";
          Pipeline.raw "constructors.csv"; Pipeline.raw "drivers.csv";
          Pipeline.raw "races.csv"; Pipeline.raw "results.csv";
          Pipeline.raw "qualifying.csv"; Pipeline.raw "pit_stops.csv";
          Pipeline.raw "constructor_standings.csv"; Pipeline.raw "driver_standings.csv"] ->
     (run_full_pipeline start_year end_year skip_extract skip_transform skip_load s).1 !! k
     = s !! k) /\
  (skip_transform = true ->
   forall k,
     k ∈ [Pipeline.processed "circuits_clean.csv"; Pipeline.processed "drivers_clean.csv";
          Pipeline.processed "races_clean.csv"; Pipeline.processed "results_clean.csv";
          Pipeline.processed "qualifying_clean.csv"; Pipeline.processed "pit_stops_clean.csv";
          Pipeline.processed "constructor_standings_clean.csv";
          Pipeline.processed "driver_standings_clean.csv"] ->
     (run_full_pipeline start_year end_year skip_extract skip_transform skip_load s).1 !! k
     = s !! k) /\
  (skip_load = true ->
   forall name,
     (run_full_pipeline start_year end_year skip_extract skip_transform skip_load s).1
       !! Table name
     = s !! Table name).
Proof.
  unfold Pipeline.run_full_pipeline.
  split; [| split].
  - intros -> k Hk. eapply run_frame; [apply respects_pipeline |].
    repeat (apply elem_of_cons in Hk as [-> | Hk];
            [destruct skip_transform, skip_load; not_member |]).
    apply elem_of_nil in Hk. contradiction.
  - intros -> k Hk. eapply run_frame; [apply respects_pipeline |].
    repeat (apply elem_of_cons in Hk as [-> | Hk];
            [destruct skip_extract, skip_load; not_member |]).
    apply elem_of_nil in Hk. contradiction.
  - intros -> name. eapply run_frame; [apply respects_pipeline |].
    destruct skip_extract, skip_transform;
      cbv [all_writes Pipeline.pipeline_footprints Pipeline.extract_footprints
           Pipeline.transform_footprints Pipeline.writes_only map concat fp_writes app];
      rewrite ?not_elem_of_cons; repeat split; try discriminate; apply not_elem_of_nil.
Qed.

End Flags.

(** ** The connection string *)

Lemma item_is_ok (c : Database.config) (k : string) :
  is_ok (Database.item c k) = Database.has_key c k.
Proof. unfold Database.item, Database.has_key. destruct (Database.lookup_key k c); reflexivity. Qed.

